(** * VideoKickBot: a shallow embedding of [telegram_bot.py]

    The bot of [telegram_bot.py] keeps, per (chat, user) key, a pending
    verification entry with a [threading.Timer]; a video post verifies the
    user, the timer firing kicks them.  This file embeds the handlers of
    [class VideoKickBot] as state-passing functions over a record holding
    the attributes of the object, and proves properties of them.

    Conventions.
    - Python [int] is [Z]; [datetime] values are [Z] microseconds (the
      resolution of [datetime]), so that a [timedelta] is an exact integer
      and [total_seconds() <= 10] is [us <= 10_000_000].
    - [pending_users] is a [gmap], [verified_users] a [gset]; [user_points]
      is an association list in insertion order, as a Python [dict] keeps
      it, because [sorted] is stable and the leaderboard depends on it.
    - [threading.Timer] objects live in a store ([timers]) indexed by
      allocation order; a pending entry holds the index of its timer.
    - Calls to the Telegram API are recorded in a trace; whether a call
      succeeds or raises is decided by an oracle given to each handler.
    - [int], [str.lower] and [str.format] are built-ins of the language, not
      code of the bot: they are fields of the class [PyBuiltins]. *)

From Stdlib Require Import ZArith Lia Ascii DecimalString Sorting.Sorted Sorting.Permutation.
From stdpp Require Import gmap strings list.

Open Scope Z_scope.

(** ** Built-ins of the host language *)

Class PyBuiltins := {
  (** [int(s)]; [None] stands for [ValueError]. *)
  py_int : string -> option Z;
  (** [s.lower()]. *)
  py_lower : string -> string;
  (** [template.format(name=n, timer=t)]; [None] stands for the
      [KeyError]/[ValueError]/[IndexError] of a malformed template. *)
  py_format : string -> string -> Z -> option string
}.

(** [needle in hay] on [str]. *)
Fixpoint startswith (p s : string) : bool :=
  match p, s with
  | EmptyString, _ => true
  | String a p', String b s' => if Ascii.eqb a b then startswith p' s' else false
  | String _ _, EmptyString => false
  end.

Fixpoint str_in (needle hay : string) : bool :=
  startswith needle hay ||
  match hay with
  | EmptyString => false
  | String _ hay' => str_in needle hay'
  end.

(** Truthiness of a [str]. *)
Definition truthy (s : string) : bool :=
  match s with EmptyString => false | _ => true end.

(** ** Data model *)

Abbreviation user_key := (Z * Z)%type.

(** A [Timer] is [Created] by its constructor and [Armed], that is waiting,
    from [start()] on.  It stops waiting in one of two ways: [cancel()]
    sets [finished] while it waits ([Cancelled]), or the wait ends and the
    thread finds [finished] unset ([Fired]); a fired timer runs its
    function, and nothing can stop that any more. *)
Inductive timer_status := Created | Armed | Cancelled | Fired.

(** A [threading.Timer(interval, self._kick_user_timeout,
    args=[chat_id, user_id, user_name, context])]. *)
Record timer_obj := {
  interval : Z;
  t_chat_id : Z;
  t_user_id : Z;
  t_user_name : string;
  status : timer_status
}.

(** The value stored in [pending_users]:
    [{'timer': ..., 'join_time': ..., 'user_name': ...}]. *)
Record pending_entry := {
  timer : nat;
  join_time : Z;
  user_name : string
}.

Record stats_t := {
  users_kicked : Z;
  users_verified : Z;
  total_joins : Z;
  spam_blocked : Z;
  links_blocked : Z;
  suspicious_kicked : Z
}.

(** The keys of [self.stats] that are passed around as [stat_key]. *)
Inductive stat_key := LinksBlocked | SpamBlocked | SuspiciousKicked.

Record bot := {
  timeout_seconds : Z;
  pending_users : gmap user_key pending_entry;
  verified_users : gset user_key;
  bot_paused : bool;
  interaction_mode : bool;
  anti_spam_enabled : bool;
  require_profile_pic : bool;
  banned_words : list string;
  custom_welcome : string;
  reward_system_enabled : bool;
  user_points : list (user_key * Z);
  scheduled_mode : bool;
  active_hours : Z * Z;
  stats : stats_t;
  timers : list timer_obj
}.

(** [VideoKickBot.__init__]. *)
Definition init (timeout : Z) : bot := {|
  timeout_seconds := timeout;
  pending_users := ∅;
  verified_users := ∅;
  bot_paused := false;
  interaction_mode := false;
  anti_spam_enabled := true;
  require_profile_pic := false;
  banned_words := ["spam"; "promotion"; "advertisement"; "buy now"; "click here"]%string;
  custom_welcome := "👋 Welcome {name}! 📹 Post a video within {timer} seconds to stay in the group!"%string;
  reward_system_enabled := true;
  user_points := [];
  scheduled_mode := false;
  active_hours := (8, 22);
  stats := {| users_kicked := 0; users_verified := 0; total_joins := 0;
              spam_blocked := 0; links_blocked := 0; suspicious_kicked := 0 |};
  timers := []
|}.

(** Attribute assignment, one setter per attribute that is ever assigned. *)
Definition set_timeout_seconds (v : Z) (s : bot) : bot :=
  {| timeout_seconds := v; pending_users := pending_users s;
     verified_users := verified_users s; bot_paused := bot_paused s;
     interaction_mode := interaction_mode s; anti_spam_enabled := anti_spam_enabled s;
     require_profile_pic := require_profile_pic s; banned_words := banned_words s;
     custom_welcome := custom_welcome s; reward_system_enabled := reward_system_enabled s;
     user_points := user_points s; scheduled_mode := scheduled_mode s;
     active_hours := active_hours s; stats := stats s; timers := timers s |}.

Definition set_pending_users (v : gmap user_key pending_entry) (s : bot) : bot :=
  {| timeout_seconds := timeout_seconds s; pending_users := v;
     verified_users := verified_users s; bot_paused := bot_paused s;
     interaction_mode := interaction_mode s; anti_spam_enabled := anti_spam_enabled s;
     require_profile_pic := require_profile_pic s; banned_words := banned_words s;
     custom_welcome := custom_welcome s; reward_system_enabled := reward_system_enabled s;
     user_points := user_points s; scheduled_mode := scheduled_mode s;
     active_hours := active_hours s; stats := stats s; timers := timers s |}.

Definition set_verified_users (v : gset user_key) (s : bot) : bot :=
  {| timeout_seconds := timeout_seconds s; pending_users := pending_users s;
     verified_users := v; bot_paused := bot_paused s;
     interaction_mode := interaction_mode s; anti_spam_enabled := anti_spam_enabled s;
     require_profile_pic := require_profile_pic s; banned_words := banned_words s;
     custom_welcome := custom_welcome s; reward_system_enabled := reward_system_enabled s;
     user_points := user_points s; scheduled_mode := scheduled_mode s;
     active_hours := active_hours s; stats := stats s; timers := timers s |}.

Definition set_bot_paused (v : bool) (s : bot) : bot :=
  {| timeout_seconds := timeout_seconds s; pending_users := pending_users s;
     verified_users := verified_users s; bot_paused := v;
     interaction_mode := interaction_mode s; anti_spam_enabled := anti_spam_enabled s;
     require_profile_pic := require_profile_pic s; banned_words := banned_words s;
     custom_welcome := custom_welcome s; reward_system_enabled := reward_system_enabled s;
     user_points := user_points s; scheduled_mode := scheduled_mode s;
     active_hours := active_hours s; stats := stats s; timers := timers s |}.

Definition set_interaction_mode (v : bool) (s : bot) : bot :=
  {| timeout_seconds := timeout_seconds s; pending_users := pending_users s;
     verified_users := verified_users s; bot_paused := bot_paused s;
     interaction_mode := v; anti_spam_enabled := anti_spam_enabled s;
     require_profile_pic := require_profile_pic s; banned_words := banned_words s;
     custom_welcome := custom_welcome s; reward_system_enabled := reward_system_enabled s;
     user_points := user_points s; scheduled_mode := scheduled_mode s;
     active_hours := active_hours s; stats := stats s; timers := timers s |}.

Definition set_anti_spam_enabled (v : bool) (s : bot) : bot :=
  {| timeout_seconds := timeout_seconds s; pending_users := pending_users s;
     verified_users := verified_users s; bot_paused := bot_paused s;
     interaction_mode := interaction_mode s; anti_spam_enabled := v;
     require_profile_pic := require_profile_pic s; banned_words := banned_words s;
     custom_welcome := custom_welcome s; reward_system_enabled := reward_system_enabled s;
     user_points := user_points s; scheduled_mode := scheduled_mode s;
     active_hours := active_hours s; stats := stats s; timers := timers s |}.

Definition set_custom_welcome (v : string) (s : bot) : bot :=
  {| timeout_seconds := timeout_seconds s; pending_users := pending_users s;
     verified_users := verified_users s; bot_paused := bot_paused s;
     interaction_mode := interaction_mode s; anti_spam_enabled := anti_spam_enabled s;
     require_profile_pic := require_profile_pic s; banned_words := banned_words s;
     custom_welcome := v; reward_system_enabled := reward_system_enabled s;
     user_points := user_points s; scheduled_mode := scheduled_mode s;
     active_hours := active_hours s; stats := stats s; timers := timers s |}.

Definition set_reward_system_enabled (v : bool) (s : bot) : bot :=
  {| timeout_seconds := timeout_seconds s; pending_users := pending_users s;
     verified_users := verified_users s; bot_paused := bot_paused s;
     interaction_mode := interaction_mode s; anti_spam_enabled := anti_spam_enabled s;
     require_profile_pic := require_profile_pic s; banned_words := banned_words s;
     custom_welcome := custom_welcome s; reward_system_enabled := v;
     user_points := user_points s; scheduled_mode := scheduled_mode s;
     active_hours := active_hours s; stats := stats s; timers := timers s |}.

Definition set_user_points (v : list (user_key * Z)) (s : bot) : bot :=
  {| timeout_seconds := timeout_seconds s; pending_users := pending_users s;
     verified_users := verified_users s; bot_paused := bot_paused s;
     interaction_mode := interaction_mode s; anti_spam_enabled := anti_spam_enabled s;
     require_profile_pic := require_profile_pic s; banned_words := banned_words s;
     custom_welcome := custom_welcome s; reward_system_enabled := reward_system_enabled s;
     user_points := v; scheduled_mode := scheduled_mode s;
     active_hours := active_hours s; stats := stats s; timers := timers s |}.

Definition set_scheduled_mode (v : bool) (s : bot) : bot :=
  {| timeout_seconds := timeout_seconds s; pending_users := pending_users s;
     verified_users := verified_users s; bot_paused := bot_paused s;
     interaction_mode := interaction_mode s; anti_spam_enabled := anti_spam_enabled s;
     require_profile_pic := require_profile_pic s; banned_words := banned_words s;
     custom_welcome := custom_welcome s; reward_system_enabled := reward_system_enabled s;
     user_points := user_points s; scheduled_mode := v;
     active_hours := active_hours s; stats := stats s; timers := timers s |}.

Definition set_active_hours (v : Z * Z) (s : bot) : bot :=
  {| timeout_seconds := timeout_seconds s; pending_users := pending_users s;
     verified_users := verified_users s; bot_paused := bot_paused s;
     interaction_mode := interaction_mode s; anti_spam_enabled := anti_spam_enabled s;
     require_profile_pic := require_profile_pic s; banned_words := banned_words s;
     custom_welcome := custom_welcome s; reward_system_enabled := reward_system_enabled s;
     user_points := user_points s; scheduled_mode := scheduled_mode s;
     active_hours := v; stats := stats s; timers := timers s |}.

Definition set_stats (v : stats_t) (s : bot) : bot :=
  {| timeout_seconds := timeout_seconds s; pending_users := pending_users s;
     verified_users := verified_users s; bot_paused := bot_paused s;
     interaction_mode := interaction_mode s; anti_spam_enabled := anti_spam_enabled s;
     require_profile_pic := require_profile_pic s; banned_words := banned_words s;
     custom_welcome := custom_welcome s; reward_system_enabled := reward_system_enabled s;
     user_points := user_points s; scheduled_mode := scheduled_mode s;
     active_hours := active_hours s; stats := v; timers := timers s |}.

Definition set_timers (v : list timer_obj) (s : bot) : bot :=
  {| timeout_seconds := timeout_seconds s; pending_users := pending_users s;
     verified_users := verified_users s; bot_paused := bot_paused s;
     interaction_mode := interaction_mode s; anti_spam_enabled := anti_spam_enabled s;
     require_profile_pic := require_profile_pic s; banned_words := banned_words s;
     custom_welcome := custom_welcome s; reward_system_enabled := reward_system_enabled s;
     user_points := user_points s; scheduled_mode := scheduled_mode s;
     active_hours := active_hours s; stats := stats s; timers := v |}.

(** ** Telegram objects and API calls *)

Record user := {
  u_id : Z;
  u_username : option string;
  u_full_name : string;
  u_is_bot : bool
}.

Record message := {
  m_chat_id : Z;
  m_message_id : Z;
  m_from_user : option user;
  m_text : option string
}.

(** The [reason] argument of [_handle_spam_violation]. *)
Inductive reason :=
  | PostingLinks
  | BannedWord (banned_word : string)
  | SuspiciousUsername.

(** The texts the bot sends, by template and arguments. *)
Inductive msg_text :=
  | PausedWelcome (user_name : string)
  | InteractionWelcome (user_name : string)
  | CustomWelcome (welcome_msg : string)
  | KickNotice (user_name : string) (timeout : Z)
  | VerifiedNotice (user_name : string) (response_us : Z) (points : option (Z * Z))
  | ReminderNotice (user_name : string) (timeout : Z)
  | SpamWarning (user_name : string) (why : reason)
  | AdminOnly
  | TimerUsage
  | TimerRange
  | TimerUpdated (new_timeout : Z)
  | TimerInvalid
  | Paused
  | Resumed
  | InteractionToggled (on : bool)
  | AntispamToggled (on : bool)
  | RewardsToggled (on : bool)
  | WelcomeCurrent (template : string)
  | WelcomeUpdated (template : string) (timeout : Z)
  | ScheduleCurrent (on : bool) (hours : Z * Z)
  | ScheduleToggled (on : bool) (hours : Z * Z)
  | HoursSet (start_hour end_hour : Z)
  | HoursRange
  | HoursInvalid
  | NoPoints
  | Leaderboard (rows : list (Z * Z * Z)).

Inductive gcall :=
  | SendMessage (chat_id : Z) (text : msg_text)
  | BanChatMember (chat_id user_id : Z)
  | UnbanChatMember (chat_id user_id : Z)
  | DeleteMessage (chat_id message_id : Z)
  | ReplyText (text : msg_text).

(** Which calls succeed; a call that does not raises [TelegramError]. *)
Definition gateway := gcall -> bool.

(** ** Handlers as stateful, fallible computations

    A handler reads and assigns attributes of [self], calls the API and may
    raise.  Assignments made before an exception stay, as in Python. *)

Inductive result (A : Type) :=
  | Ok (a : A)
  | Raised.
Arguments Ok {A} a.
Arguments Raised {A}.

Definition io (A : Type) : Type := gateway -> bot -> result A * bot * list gcall.

Definition io_ret {A} (a : A) : io A := fun _ s => (Ok a, s, []).

Definition io_bind {A B} (m : io A) (k : A -> io B) : io B :=
  fun gw s =>
    match m gw s with
    | (Ok a, s1, t1) =>
        match k a gw s1 with
        | (r, s2, t2) => (r, s2, t1 ++ t2)
        end
    | (Raised, s1, t1) => (Raised, s1, t1)
    end.

#[export] Instance io_mret : MRet io := @io_ret.
#[export] Instance io_mbind : MBind io := fun A B k m => io_bind m k.

Definition get : io bot := fun _ s => (Ok s, s, []).
Definition modify (f : bot -> bot) : io unit := fun _ s => (Ok tt, f s, []).
Definition raise {A} : io A := fun _ s => (Raised, s, []).
Definition call (c : gcall) : io unit :=
  fun gw s => (if gw c then Ok tt else Raised, s, [c]).

(** [try: m  except Exception as e: logger.error(...)]. *)
Definition try_except (m : io unit) : io unit :=
  fun gw s => match m gw s with (_, s1, t1) => (Ok tt, s1, t1) end.

(** An attribute access on a value that may be [None]. *)
Definition attr {A} (o : option A) : io A :=
  match o with Some a => mret a | None => raise end.

Definition state_of {A} (r : result A * bot * list gcall) : bot := r.1.2.
Definition trace_of {A} (r : result A * bot * list gcall) : list gcall := r.2.
Definition value_of {A} (r : result A * bot * list gcall) : result A := r.1.1.

(** ** Timers *)

Definition set_status (st : timer_status) (t : timer_obj) : timer_obj :=
  {| interval := interval t; t_chat_id := t_chat_id t; t_user_id := t_user_id t;
     t_user_name := t_user_name t; status := st |}.

(** [threading.Timer(interval, self._kick_user_timeout, args=[...])]:
    the new object's index in the store. *)
Definition Timer (itv chat_id user_id : Z) (user_name : string) : io nat :=
  s ← get;
  modify (set_timers (timers s ++
    [ {| interval := itv; t_chat_id := chat_id; t_user_id := user_id;
         t_user_name := user_name; status := Created |} ])) ;;
  mret (length (timers s)).

Definition timer_start_obj (t : timer_obj) : timer_obj :=
  match status t with Created => set_status Armed t | _ => t end.

(** [Timer.cancel()] sets the [finished] event: a timer that has not fired
    never will; on a finished timer it changes nothing. *)
Definition timer_cancel_obj (t : timer_obj) : timer_obj :=
  match status t with
  | Created | Armed => set_status Cancelled t
  | _ => t
  end.

Definition start (tid : nat) : io unit :=
  modify (fun s => set_timers (alter timer_start_obj tid (timers s)) s).

Definition cancel (tid : nat) : io unit :=
  modify (fun s => set_timers (alter timer_cancel_obj tid (timers s)) s).

(** ** The reward ledger: [user_points], a [dict] in insertion order *)

Fixpoint dict_get (k : user_key) (d : list (user_key * Z)) : option Z :=
  match d with
  | [] => None
  | (k', v) :: d' => if decide (k = k') then Some v else dict_get k d'
  end.

(** [d[k] = v]: an existing key keeps its position, a new key goes last. *)
Fixpoint dict_set (k : user_key) (v : Z) (d : list (user_key * Z)) : list (user_key * Z) :=
  match d with
  | [] => [(k, v)]
  | (k', v') :: d' =>
      if decide (k = k') then (k, v) :: d' else (k', v') :: dict_set k v d'
  end.

(** The points for a response time, [response_seconds] being
    [response_us / 10**6]. *)
Definition award_points (response_us : Z) : Z :=
  if response_us <=? 10 * 1000000 then 100
  else if response_us <=? 30 * 1000000 then 50
  else 25.

(** [sorted(items, key=lambda x: x[1], reverse=True)]: [sorted] is stable,
    also with [reverse=True], so the result is the one of a stable
    insertion sort by descending points. *)
Fixpoint insert_desc (x : user_key * Z) (l : list (user_key * Z)) : list (user_key * Z) :=
  match l with
  | [] => [x]
  | y :: l' => if y.2 <=? x.2 then x :: y :: l' else y :: insert_desc x l'
  end.

Fixpoint sorted_desc (l : list (user_key * Z)) : list (user_key * Z) :=
  match l with
  | [] => []
  | x :: l' => insert_desc x (sorted_desc l')
  end.

(** [enumerate(sorted_users[:10], 1)] with the user id and the points of
    each row. *)
Definition leaderboard_rows (d : list (user_key * Z)) : list (Z * Z * Z) :=
  imap (fun i '((_, user_id), points) => (Z.of_nat i + 1, user_id, points))
       (take 10 (sorted_desc d)).

(** ** Stats *)

Definition incr_users_kicked (st : stats_t) : stats_t :=
  {| users_kicked := users_kicked st + 1; users_verified := users_verified st;
     total_joins := total_joins st; spam_blocked := spam_blocked st;
     links_blocked := links_blocked st; suspicious_kicked := suspicious_kicked st |}.

Definition incr_users_verified (st : stats_t) : stats_t :=
  {| users_kicked := users_kicked st; users_verified := users_verified st + 1;
     total_joins := total_joins st; spam_blocked := spam_blocked st;
     links_blocked := links_blocked st; suspicious_kicked := suspicious_kicked st |}.

Definition incr_total_joins (st : stats_t) : stats_t :=
  {| users_kicked := users_kicked st; users_verified := users_verified st;
     total_joins := total_joins st + 1; spam_blocked := spam_blocked st;
     links_blocked := links_blocked st; suspicious_kicked := suspicious_kicked st |}.

(** [self.stats[stat_key] += 1]. *)
Definition incr_stat (k : stat_key) (st : stats_t) : stats_t :=
  match k with
  | LinksBlocked =>
      {| users_kicked := users_kicked st; users_verified := users_verified st;
         total_joins := total_joins st; spam_blocked := spam_blocked st;
         links_blocked := links_blocked st + 1; suspicious_kicked := suspicious_kicked st |}
  | SpamBlocked =>
      {| users_kicked := users_kicked st; users_verified := users_verified st;
         total_joins := total_joins st; spam_blocked := spam_blocked st + 1;
         links_blocked := links_blocked st; suspicious_kicked := suspicious_kicked st |}
  | SuspiciousKicked =>
      {| users_kicked := users_kicked st; users_verified := users_verified st;
         total_joins := total_joins st; spam_blocked := spam_blocked st;
         links_blocked := links_blocked st; suspicious_kicked := suspicious_kicked st + 1 |}
  end.

Definition stat (k : stat_key) (st : stats_t) : Z :=
  match k with
  | LinksBlocked => links_blocked st
  | SpamBlocked => spam_blocked st
  | SuspiciousKicked => suspicious_kicked st
  end.

Definition update_stats (f : stats_t -> stats_t) : io unit :=
  modify (fun s => set_stats (f (stats s)) s).

(** ** The handlers of [VideoKickBot] *)

Section Handlers.
Context `{PyBuiltins}.

(** The nested [async def kick_user()], run to completion on a fresh event
    loop by [_kick_user_timeout]. *)
Definition kick_user (chat_id user_id : Z) (user_name : string) : io unit :=
  try_except (
    call (BanChatMember chat_id user_id) ;;
    call (UnbanChatMember chat_id user_id) ;;
    s ← get;
    call (SendMessage chat_id (KickNotice user_name (timeout_seconds s))) ;;
    update_stats incr_users_kicked).

(** The block of [_kick_user_timeout] under [pending_users_lock]: whether
    the entry was there (and is now deleted). *)
Definition _kick_user_timeout_locked (user_key : user_key) : io bool :=
  s ← get;
  match pending_users s !! user_key with
  | None => mret false
  | Some _ =>
      modify (fun s => set_pending_users (delete user_key (pending_users s)) s) ;;
      mret true
  end.

(** What follows the lock in [_kick_user_timeout]. *)
Definition _kick_user_timeout_unlocked (chat_id user_id : Z) (user_name : string) : io unit :=
  s ← get;
  if decide ((chat_id, user_id) ∈ verified_users s) then mret tt
  else kick_user chat_id user_id user_name.

Definition _kick_user_timeout (chat_id user_id : Z) (user_name : string) : io unit :=
  try_except (
    still_pending ← _kick_user_timeout_locked (chat_id, user_id);
    if still_pending : bool
    then _kick_user_timeout_unlocked chat_id user_id user_name
    else mret tt).

(** The timer thread, [Timer.run]:
    [self.finished.wait(self.interval)],
    [if not self.finished.is_set(): self.function(...)],
    [self.finished.set()].
    It has two blocks.  [timer_wakes] is the end of the wait with the test
    of [finished]: an armed timer is fired, a cancelled one is left alone.
    [timer_calls] is the call of the function of a fired timer.  Between
    the two the thread holds no lock, so handlers can run; a [cancel()]
    that comes then is too late. *)
Definition timer_wakes (tid : nat) : io (option timer_obj) :=
  s ← get;
  match timers s !! tid with
  | Some t =>
      match status t with
      | Armed =>
          modify (fun s => set_timers (alter (set_status Fired) tid (timers s)) s) ;;
          mret (Some t)
      | _ => mret None
      end
  | None => mret None
  end.

Definition timer_calls (t : timer_obj) : io unit :=
  _kick_user_timeout (t_chat_id t) (t_user_id t) (t_user_name t).

(** [Timer.run] with nothing between its two blocks. *)
Definition timer_expiry (tid : nat) : io unit :=
  woke ← timer_wakes tid;
  match woke with
  | Some t => timer_calls t
  | None => mret tt
  end.

Definition _handle_new_member (now : Z) (chat_id user_id : Z) (user_name : string) : io unit :=
  try_except (
    let user_key := (chat_id, user_id) in
    update_stats incr_total_joins ;;
    s ← get;
    if bot_paused s then
      try_except (call (SendMessage chat_id (PausedWelcome user_name)))
    else if interaction_mode s then
      try_except (call (SendMessage chat_id (InteractionWelcome user_name)))
    else
      (* with self.pending_users_lock: *)
      match pending_users s !! user_key with
      | Some e => cancel (timer e)
      | None => mret tt
      end ;;
      s ← get;
      t ← Timer (timeout_seconds s) chat_id user_id user_name;
      modify (fun s => set_pending_users
        (<[user_key := {| timer := t; join_time := now; user_name := user_name |}]>
           (pending_users s)) s) ;;
      start t ;;
      (* lock released *)
      s ← get;
      welcome_msg ← attr (py_format (custom_welcome s) user_name (timeout_seconds s));
      try_except (call (SendMessage chat_id (CustomWelcome welcome_msg)))).

(** [handle_new_members]: the [new_chat_members] of a status message. *)
Fixpoint handle_new_members_loop (now chat_id : Z) (users : list user) : io unit :=
  match users with
  | [] => mret tt
  | u :: users' =>
      (if u_is_bot u then mret tt
       else _handle_new_member now chat_id (u_id u) (u_full_name u)) ;;
      handle_new_members_loop now chat_id users'
  end.

(** The assignments of [handle_video_message], all under the lock and
    inside [if user_key in self.pending_users]: the response time and the
    points when the user was pending, [None] when the test failed. *)
Definition verify_pending (now : Z) (user_key : user_key) : io (option (Z * Z)) :=
  s ← get;
  match pending_users s !! user_key with
  | None => mret None
  | Some timer_info =>
      cancel (timer timer_info) ;;
      let response_us := now - join_time timer_info in
      modify (fun s => set_pending_users (delete user_key (pending_users s)) s) ;;
      modify (fun s => set_verified_users ({[user_key]} ∪ verified_users s) s) ;;
      update_stats incr_users_verified ;;
      s ← get;
      points_awarded ←
        (if reward_system_enabled s then
           let points_awarded := award_points response_us in
           (if dict_get user_key (user_points s) is None
            then modify (fun s => set_user_points (dict_set user_key 0 (user_points s)) s)
            else mret tt) ;;
           s ← get;
           total ← attr (dict_get user_key (user_points s));
           modify (set_user_points (dict_set user_key (total + points_awarded) (user_points s))) ;;
           mret points_awarded
         else mret 0);
      mret (Some (response_us, points_awarded))
  end.

(** The success message that ends the same block. *)
Definition send_success (chat_id user_id : Z) (user_name : string) (verified : option (Z * Z))
  : io unit :=
  match verified with
  | None => mret tt
  | Some (response_us, points_awarded) =>
      s ← get;
      success_msg ←
        (if 0 <? points_awarded then
           total ← attr (dict_get (chat_id, user_id) (user_points s));
           mret (VerifiedNotice user_name response_us (Some (points_awarded, total)))
         else mret (VerifiedNotice user_name response_us None));
      call (SendMessage chat_id success_msg)
  end.

Definition handle_video_message (now : Z) (update_message : option message) : io unit :=
  try_except (
    match update_message with
    | None => mret tt
    | Some m =>
        match m_from_user m with
        | None => mret tt
        | Some from_user =>
            let chat_id := m_chat_id m in
            let user_id := u_id from_user in
            let user_name := u_full_name from_user in
            (* with self.pending_users_lock: *)
            verified ← verify_pending now (chat_id, user_id);
            send_success chat_id user_id user_name verified
        end
    end).

Definition handle_text_message (now : Z) (update_message : option message) : io unit :=
  try_except (
    s ← get;
    if negb (interaction_mode s) || bot_paused s then mret tt
    else
      m ← attr update_message;
      from_user ← attr (m_from_user m);
      let chat_id := m_chat_id m in
      let user_id := u_id from_user in
      let user_name := u_full_name from_user in
      let user_key := (chat_id, user_id) in
      s ← get;
      if bool_decide (pending_users s !! user_key = None)
         && bool_decide (user_key ∉ verified_users s)
      then
        (* with self.pending_users_lock: *)
        s ← get;
        t ← Timer (timeout_seconds s) chat_id user_id user_name;
        modify (fun s => set_pending_users
          (<[user_key := {| timer := t; join_time := now; user_name := user_name |}]>
             (pending_users s)) s) ;;
        start t ;;
        (* lock released *)
        s ← get;
        try_except (call (SendMessage chat_id (ReminderNotice user_name (timeout_seconds s))))
      else mret tt).

Definition _handle_spam_violation (m : message) (why : reason) (stat_key : stat_key) : io unit :=
  try_except (
    from_user ← attr (m_from_user m);
    let user_name := u_full_name from_user in
    let user_id := u_id from_user in
    let chat_id := m_chat_id m in
    call (DeleteMessage chat_id (m_message_id m)) ;;
    update_stats (incr_stat stat_key) ;;
    call (BanChatMember chat_id user_id) ;;
    call (UnbanChatMember chat_id user_id) ;;
    call (SendMessage chat_id (SpamWarning user_name why))).

Definition link_patterns : list string :=
  ["http"; "www."; ".com"; ".org"; "t.me"]%string.

(** [message.text and any(link in message.text.lower() for link in [...])]. *)
Definition has_link (text : option string) : bool :=
  match text with
  | Some t => truthy t && existsb (fun link => str_in link (py_lower t)) link_patterns
  | None => false
  end.

(** The [for banned_word in self.banned_words] loop: the first word found
    in the lowered text, if [message.text] is truthy. *)
Definition first_banned_word (words : list string) (text : option string) : option string :=
  match text with
  | Some t =>
      if truthy t
      then let text_lower := py_lower t in
           List.find (fun banned_word => str_in banned_word text_lower) words
      else None
  | None => None
  end.

Definition suspicious_patterns : list string :=
  ["crypto"; "bitcoin"; "forex"; "investment"; "profit"; "earn";
   "casino"; "betting"; "loan"; "pharmacy"; "pills"]%string.

Definition _is_suspicious_username (u : user) : bool :=
  let username := match u_username u with
                  | Some n => if truthy n then n else ""
                  | None => ""
                  end%string in
  let full_name := if truthy (u_full_name u) then u_full_name u else ""%string in
  let combined_text := py_lower (username +:+ " " +:+ full_name) in
  existsb (fun pattern => str_in pattern combined_text) suspicious_patterns.

Definition handle_spam_detection (update_message : option message) : io unit :=
  try_except (
    s ← get;
    if negb (anti_spam_enabled s) || bot_paused s then mret tt
    else
      match update_message with
      | None => mret tt
      | Some m =>
          match m_from_user m with
          | None => mret tt
          | Some from_user =>
              let user_key := (m_chat_id m, u_id from_user) in
              if decide (user_key ∈ verified_users s) then mret tt
              else if has_link (m_text m) then
                _handle_spam_violation m PostingLinks LinksBlocked
              else
                match first_banned_word (banned_words s) (m_text m) with
                | Some banned_word =>
                    _handle_spam_violation m (BannedWord banned_word) SpamBlocked
                | None =>
                    if _is_suspicious_username from_user then
                      _handle_spam_violation m SuspiciousUsername SuspiciousKicked
                    else mret tt
                end
          end
      end).

(** *** Commands

    [member] is the [status] that [get_chat_member] returned for the sender,
    [None] when the call raised; [args] is [context.args]. *)

Definition is_admin (status : string) : bool :=
  bool_decide (status ∈ ["administrator"; "creator"]%string).

(** The admin check that opens every settings command. *)
Definition admin_only (member : option string) (body : io unit) : io unit :=
  try_except (
    status ← attr member;
    if negb (is_admin status) then call (ReplyText AdminOnly) else body).

Definition set_timer_command (member : option string) (args : list string) : io unit :=
  admin_only member (
    match args with
    | [a] =>
        match py_int a with
        | None => call (ReplyText TimerInvalid)
        | Some new_timeout =>
            if (new_timeout <? 10) || (600 <? new_timeout) then
              call (ReplyText TimerRange)
            else
              modify (set_timeout_seconds new_timeout) ;;
              call (ReplyText (TimerUpdated new_timeout))
        end
    | _ => call (ReplyText TimerUsage)
    end).

Definition pause_command (member : option string) : io unit :=
  admin_only member (modify (set_bot_paused true) ;; call (ReplyText Paused)).

Definition resume_command (member : option string) : io unit :=
  admin_only member (modify (set_bot_paused false) ;; call (ReplyText Resumed)).

Definition interaction_mode_command (member : option string) : io unit :=
  admin_only member (
    modify (fun s => set_interaction_mode (negb (interaction_mode s)) s) ;;
    s ← get;
    call (ReplyText (InteractionToggled (interaction_mode s)))).

Definition antispam_command (member : option string) : io unit :=
  admin_only member (
    modify (fun s => set_anti_spam_enabled (negb (anti_spam_enabled s)) s) ;;
    s ← get;
    call (ReplyText (AntispamToggled (anti_spam_enabled s)))).

Definition rewards_command (member : option string) : io unit :=
  admin_only member (
    modify (fun s => set_reward_system_enabled (negb (reward_system_enabled s)) s) ;;
    s ← get;
    call (ReplyText (RewardsToggled (reward_system_enabled s)))).

(** [" ".join(context.args)]. *)
Fixpoint join_args (args : list string) : string :=
  match args with
  | [] => ""
  | [a] => a
  | a :: args' => a +:+ " " +:+ join_args args'
  end.

Definition set_welcome_command (member : option string) (args : list string) : io unit :=
  admin_only member (
    s ← get;
    match args with
    | [] => call (ReplyText (WelcomeCurrent (custom_welcome s)))
    | _ =>
        let new_welcome := join_args args in
        modify (set_custom_welcome new_welcome) ;;
        s ← get;
        call (ReplyText (WelcomeUpdated new_welcome (timeout_seconds s)))
    end).

Definition schedule_command (member : option string) (args : list string) : io unit :=
  admin_only member (
    s ← get;
    match args with
    | [] => call (ReplyText (ScheduleCurrent (scheduled_mode s) (active_hours s)))
    | a0 :: rest =>
        if String.eqb (py_lower a0) "toggle" then
          modify (fun s => set_scheduled_mode (negb (scheduled_mode s)) s) ;;
          s ← get;
          call (ReplyText (ScheduleToggled (scheduled_mode s) (active_hours s)))
        else
          match rest with
          | [a1] =>
              match py_int a0 with
              | None => call (ReplyText HoursInvalid)
              | Some start_hour =>
                  match py_int a1 with
                  | None => call (ReplyText HoursInvalid)
                  | Some end_hour =>
                      if (0 <=? start_hour) && (start_hour <=? 23)
                         && (0 <=? end_hour) && (end_hour <=? 23)
                      then
                        modify (set_active_hours (start_hour, end_hour)) ;;
                        call (ReplyText (HoursSet start_hour end_hour))
                      else call (ReplyText HoursRange)
                  end
              end
          | _ => mret tt
          end
    end).

Definition leaderboard_command : io unit :=
  try_except (
    s ← get;
    match user_points s with
    | [] => call (ReplyText NoPoints)
    | _ => call (ReplyText (Leaderboard (leaderboard_rows (user_points s))))
    end).

(** ** Events

    What the dispatcher and the timer threads deliver to the bot, each with
    the clock reading and the behaviour of the API during the handler. *)

Inductive event :=
  | NewMember (chat_id user_id : Z) (user_name : string)
  | NewMembers (chat_id : Z) (users : list user)
  | VideoMessage (update_message : option message)
  | TextMessage (update_message : option message)
  | SpamDetection (update_message : option message)
  | TimerExpiry (tid : nat)
  | SetTimer (member : option string) (args : list string)
  | Pause (member : option string)
  | Resume (member : option string)
  | InteractionMode (member : option string)
  | Antispam (member : option string)
  | Rewards (member : option string)
  | SetWelcome (member : option string) (args : list string)
  | Schedule (member : option string) (args : list string)
  | LeaderboardCmd.

Definition handle (now : Z) (e : event) : io unit :=
  match e with
  | NewMember chat_id user_id user_name => _handle_new_member now chat_id user_id user_name
  | NewMembers chat_id users => try_except (handle_new_members_loop now chat_id users)
  | VideoMessage m => handle_video_message now m
  | TextMessage m => handle_text_message now m
  | SpamDetection m => handle_spam_detection m
  | TimerExpiry tid => timer_expiry tid
  | SetTimer member args => set_timer_command member args
  | Pause member => pause_command member
  | Resume member => resume_command member
  | InteractionMode member => interaction_mode_command member
  | Antispam member => antispam_command member
  | Rewards member => rewards_command member
  | SetWelcome member args => set_welcome_command member args
  | Schedule member args => schedule_command member args
  | LeaderboardCmd => leaderboard_command
  end.

Record delivery := { at_time : Z; api : gateway; what : event }.

Definition step (s : bot) (d : delivery) : bot :=
  state_of (handle (at_time d) (what d) (api d) s).

Definition run (s : bot) (ds : list delivery) : bot := foldl step s ds.

(** The API calls of a run, in order. *)
Fixpoint run_trace (s : bot) (ds : list delivery) : list gcall :=
  match ds with
  | [] => []
  | d :: ds' =>
      trace_of (handle (at_time d) (what d) (api d) s) ++ run_trace (step s d) ds'
  end.

End Handlers.

(** ** An instance of the built-ins for running examples

    It agrees with Python on ASCII text, on decimal numerals with an
    optional sign, and on templates whose only fields are [{name}] and
    [{timer}]. *)

Definition ascii_lower_char (c : Ascii.ascii) : Ascii.ascii :=
  let n := Ascii.nat_of_ascii c in
  if (65 <=? n)%nat && (n <=? 90)%nat then Ascii.ascii_of_nat (n + 32) else c.

Fixpoint ascii_lower (s : string) : string :=
  match s with
  | EmptyString => EmptyString
  | String c s' => String (ascii_lower_char c) (ascii_lower s')
  end.

Definition decimal_int (s : string) : option Z :=
  match s with
  | String c digits =>
      if Ascii.eqb c "-"%char then
        (fun u => - Z.of_uint u) <$> DecimalString.NilZero.uint_of_string digits
      else if Ascii.eqb c "+"%char then
        Z.of_uint <$> DecimalString.NilZero.uint_of_string digits
      else Z.of_uint <$> DecimalString.NilZero.uint_of_string s
  | EmptyString => None
  end.

Definition decimal_str (z : Z) : string :=
  DecimalString.NilZero.string_of_int (Z.to_int z).

Fixpoint simple_format (fuel : nat) (template name : string) (timer : Z) : option string :=
  match fuel with
  | O => None
  | S fuel' =>
      match template with
      | EmptyString => Some EmptyString
      | String c rest =>
          if startswith "{name}" template then
            (fun r => name +:+ r) <$> simple_format fuel' (String.substring 6 (String.length template - 6) template) name timer
          else if startswith "{timer}" template then
            (fun r => decimal_str timer +:+ r) <$> simple_format fuel' (String.substring 7 (String.length template - 7) template) name timer
          else if Ascii.eqb c "{"%char || Ascii.eqb c "}"%char then None
          else String c <$> simple_format fuel' rest name timer
      end
  end.

Definition ascii_builtins : PyBuiltins := {|
  py_int := decimal_int;
  py_lower := ascii_lower;
  py_format := fun template name timer =>
    simple_format (S (String.length template)) template name timer
|}.

(** An API on which every call succeeds. *)
Definition all_ok : gateway := fun _ => true.

(** An API that refuses to ban (the [Forbidden] of a bot without the
    right to kick) and serves every other call. *)
Definition ban_forbidden : gateway :=
  fun c => match c with BanChatMember _ _ => false | _ => true end.

(** A message of an ordinary user. *)
Definition msg_from (chat_id user_id : Z) (name : string) (text : option string) : message :=
  {| m_chat_id := chat_id; m_message_id := 1;
     m_from_user := Some {| u_id := user_id; u_username := None;
                            u_full_name := name; u_is_bot := false |};
     m_text := text |}.

(** ** Live timers *)

Definition timer_key (t : timer_obj) : user_key := (t_chat_id t, t_user_id t).

Definition live (t : timer_obj) : bool :=
  match status t with Armed => true | _ => false end.

(** The indices of the armed timers whose callback is for [k]. *)
Definition live_for (s : bot) (k : user_key) (tid : nat) : bool :=
  match timers s !! tid with
  | Some t => live t && bool_decide (timer_key t = k)
  | None => false
  end.

Definition live_timers (s : bot) (k : user_key) : list nat :=
  List.filter (live_for s k) (seq 0 (length (timers s))).

Definition at_most_one_live_timer (s : bot) : Prop :=
  forall k, (length (live_timers s k) <= 1)%nat.

(** Every armed timer is the one its key's pending entry holds. *)
Definition owned (pending : gmap user_key pending_entry) (ts : list timer_obj) : Prop :=
  forall tid t, ts !! tid = Some t -> status t = Armed ->
    exists e, pending !! timer_key t = Some e /\ timer e = tid.

Definition timers_owned (s : bot) : Prop := owned (pending_users s) (timers s).

(** ** Runs with timer threads

    In a run of [run] every timer thread goes through its two blocks in
    one piece ([TimerExpiry]).  Here the two blocks are steps of their own,
    so that handlers can come between them: [Wakes] is the first block,
    after which the timer is in [woken] until [Calls] runs its function.
    The function itself is taken in one piece here: only its locked block
    touches [pending_users] and the timers, and what may come between that
    block and the kick is the matter of [thread_step] below. *)

Inductive action :=
  | Deliver (d : delivery)
  | Wakes (tid : nat)
  | Calls (tid : nat) (gw : gateway).

Record world := {
  the_bot : bot;
  woken : list nat
}.

Definition start_world (s : bot) : world := {| the_bot := s; woken := [] |}.

Section Worlds.
Context `{PyBuiltins}.

Definition act (w : world) (a : action) : world :=
  match a with
  | Deliver d => {| the_bot := step (the_bot w) d; woken := woken w |}
  | Wakes tid =>
      (* [timer_wakes] calls nothing: the API given to it is never asked *)
      match timer_wakes tid (fun _ => true) (the_bot w) with
      | (Ok (Some _), s', _) => {| the_bot := s'; woken := woken w ++ [tid] |}
      | (_, s', _) => {| the_bot := s'; woken := woken w |}
      end
  | Calls tid gw =>
      if bool_decide (tid ∈ woken w) then
        match timers (the_bot w) !! tid with
        | Some t =>
            {| the_bot := state_of (timer_calls t gw (the_bot w));
               woken := List.filter (fun i => negb (Nat.eqb i tid)) (woken w) |}
        | None => w
        end
      else w
  end.

Definition run_actions (w : world) (acts : list action) : world := foldl act w acts.

End Worlds.

(** ** Concurrent calls on one key

    [handle_video_message] runs on the event loop and holds
    [pending_users_lock] from its test to its last statement;
    [_kick_user_timeout] runs on a timer thread, holds the lock for its test
    and [del], and does the rest unlocked.  A call is a thread whose steps
    are these blocks; a schedule picks which thread moves next. *)

Inductive outcome :=
  | NoOp
  | Verified (response_us points : Z)
  | Expired.

Inductive thread :=
  | VideoPosted (now : Z) (user_name : string) (gw : gateway)
  | TimerFire (user_name : string) (gw : gateway)
  | TimerUnlocked (user_name : string) (gw : gateway)
  | Finished (o : outcome).

Definition initial (th : thread) : bool :=
  match th with
  | VideoPosted _ _ _ | TimerFire _ _ => true
  | _ => false
  end.

Definition finished (th : thread) : bool :=
  match th with Finished _ => true | _ => false end.

(** A thread that found the entry and removed it. *)
Definition winner (th : thread) : bool :=
  match th with
  | TimerUnlocked _ _ | Finished (Verified _ _) | Finished Expired => true
  | _ => false
  end.

Definition noop (th : thread) : bool :=
  match th with Finished NoOp => true | _ => false end.

Section Threads.
Variables chat_id user_id : Z.

Definition thread_step (th : thread) (s : bot) : thread * bot :=
  match th with
  | VideoPosted now user_name gw =>
      match verify_pending now (chat_id, user_id) gw s with
      | (Ok verified, s1, _) =>
          (Finished (match verified with
                     | Some (response_us, points) => Verified response_us points
                     | None => NoOp
                     end),
           state_of (send_success chat_id user_id user_name verified gw s1))
      | (Raised, s1, _) => (Finished NoOp, s1)
      end
  | TimerFire user_name gw =>
      match _kick_user_timeout_locked (chat_id, user_id) gw s with
      | (Ok true, s1, _) => (TimerUnlocked user_name gw, s1)
      | (_, s1, _) => (Finished NoOp, s1)
      end
  | TimerUnlocked user_name gw =>
      (Finished Expired,
       state_of (try_except (_kick_user_timeout_unlocked chat_id user_id user_name) gw s))
  | Finished o => (Finished o, s)
  end.

(** One move of the scheduler: thread [i] takes its next step. *)
Definition sched_step (ps : list thread * bot) (i : nat) : list thread * bot :=
  match ps.1 !! i with
  | Some th =>
      let '(th', s') := thread_step th ps.2 in (<[i := th']> ps.1, s')
  | None => ps
  end.

Definition run_sched (pool : list thread) (s : bot) (sched : list nat) : list thread * bot :=
  foldl sched_step (pool, s) sched.

End Threads.

(** ** Vocabulary of the statements *)

(** The order of the leaderboard: points never increase. *)
Definition by_points_desc (x y : user_key * Z) : Prop := y.2 <= x.2.

(** The calls of a violation, in order; the handler stops at the first
    that raises. *)
Definition violation_calls (m : message) (u : user) (why : reason) : list gcall :=
  [ DeleteMessage (m_chat_id m) (m_message_id m);
    BanChatMember (m_chat_id m) (u_id u);
    UnbanChatMember (m_chat_id m) (u_id u);
    SendMessage (m_chat_id m) (SpamWarning (u_full_name u) why) ].

Definition is_set_timer (e : event) : bool :=
  match e with SetTimer _ _ => true | _ => false end.

(** The events that moderate: joins, messages and timer expiries. *)
Definition moderation (e : event) : bool :=
  match e with
  | NewMember _ _ _ | NewMembers _ _ | VideoMessage _ | TextMessage _
  | SpamDetection _ | TimerExpiry _ => true
  | _ => false
  end.

(** Two bots that differ at most in [scheduled_mode] and [active_hours]. *)
Definition same_but_schedule (s1 s2 : bot) : Prop :=
  timeout_seconds s1 = timeout_seconds s2 /\
  pending_users s1 = pending_users s2 /\
  verified_users s1 = verified_users s2 /\
  bot_paused s1 = bot_paused s2 /\
  interaction_mode s1 = interaction_mode s2 /\
  anti_spam_enabled s1 = anti_spam_enabled s2 /\
  require_profile_pic s1 = require_profile_pic s2 /\
  banned_words s1 = banned_words s2 /\
  custom_welcome s1 = custom_welcome s2 /\
  reward_system_enabled s1 = reward_system_enabled s2 /\
  user_points s1 = user_points s2 /\
  stats s1 = stats s2 /\
  timers s1 = timers s2.

Definition with_schedule (mode : bool) (hours : Z * Z) (s : bot) : bot :=
  set_scheduled_mode mode (set_active_hours hours s).

(** The result of a handler, with the schedule settings of its final state
    replaced. *)
Definition reschedule {A} (mode : bool) (hours : Z * Z) (r : result A * bot * list gcall)
  : result A * bot * list gcall :=
  (value_of r, with_schedule mode hours (state_of r), trace_of r).

(** A computation that neither reads nor assigns the schedule settings. *)
Definition schedule_blind {A} (m : io A) : Prop :=
  forall mode hours gw s,
    m gw (with_schedule mode hours s) = reschedule mode hours (m gw s).

(** A text message whose sender and chat make the key [k]. *)
Definition is_text_from (k : user_key) (d : delivery) : bool :=
  match what d with
  | TextMessage (Some m) =>
      match m_from_user m with
      | Some u => bool_decide ((m_chat_id m, u_id u) = k)
      | None => false
      end
  | _ => false
  end.

(** The number of threads of a pool that found and removed the entry. *)
Definition winners (pool : list thread) : nat := length (List.filter winner pool).

(** An upper bound on the steps a thread has yet to take. *)
Definition steps_left (th : thread) : nat :=
  match th with
  | VideoPosted _ _ _ => 1
  | TimerFire _ _ => 2
  | TimerUnlocked _ _ => 1
  | Finished _ => 0
  end.

(** Before the first step every call is waiting and the entry is there;
    from the first step on the entry is gone and one thread has it. *)
Definition race_inv (k : user_key) (ps : list thread * bot) : Prop :=
  (pending_users ps.2 !! k <> None /\ forallb initial ps.1 = true) \/
  (pending_users ps.2 !! k = None /\ winners ps.1 = 1%nat).

(** ** The two entry points of a join

    A join reaches the bot as a chat-member update, as a status message
    listing the new members, or as both. *)

Record chat_member_update := {
  cmu_chat_id : Z;
  cmu_old_status : string;
  cmu_new_status : string;
  cmu_user : user
}.

Record status_message := {
  sm_chat_id : Z;
  sm_new_chat_members : list user
}.

Section JoinEntryPoints.
Context `{PyBuiltins}.

Definition handle_chat_member_update (now : Z) (update_chat_member : option chat_member_update)
  : io unit :=
  try_except (
    match update_chat_member with
    | None => mret tt
    | Some cmu =>
        let old_status := cmu_old_status cmu in
        let new_status := cmu_new_status cmu in
        let user := cmu_user cmu in
        let chat_id := cmu_chat_id cmu in
        if bool_decide (old_status ∈ ["left"; "kicked"]%string)
           && bool_decide (new_status ∈ ["member"; "administrator"; "creator"]%string)
        then _handle_new_member now chat_id (u_id user) (u_full_name user)
        else mret tt
    end).

Definition handle_new_members (now : Z) (update_message : option status_message) : io unit :=
  try_except (
    match update_message with
    | None => mret tt
    | Some m =>
        match sm_new_chat_members m with
        | [] => mret tt
        | users => handle_new_members_loop now (sm_chat_id m) users
        end
    end).

End JoinEntryPoints.

(** ** Vocabulary of the further statements *)

(** The sender whose rights a settings command checks. *)
Definition command_member (e : event) : option (option string) :=
  match e with
  | SetTimer member _ | Pause member | Resume member | InteractionMode member
  | Antispam member | Rewards member | SetWelcome member _ | Schedule member _ =>
      Some member
  | _ => None
  end.

(** No counter of the second record is below its value in the first. *)
Definition stats_le (st st' : stats_t) : Prop :=
  users_kicked st <= users_kicked st' /\
  users_verified st <= users_verified st' /\
  total_joins st <= total_joins st' /\
  spam_blocked st <= spam_blocked st' /\
  links_blocked st <= links_blocked st' /\
  suspicious_kicked st <= suspicious_kicked st'.

(** A ledger that grew out of another: the keys of the old one come first
    and in the same order, and no total went down. *)
Definition ledger_le (d d' : list (user_key * Z)) : Prop :=
  d.*1 `prefix_of` d'.*1 /\
  forall k v, dict_get k d = Some v -> exists v', dict_get k d' = Some v' /\ v <= v'.

(** A timer object later in its life: same arguments, and its status either
    unchanged or gone from armed to finished. *)
Definition timer_le (t t' : timer_obj) : Prop :=
  interval t' = interval t /\ t_chat_id t' = t_chat_id t /\
  t_user_id t' = t_user_id t /\ t_user_name t' = t_user_name t /\
  (status t' = status t \/
   (status t = Armed /\ (status t' = Cancelled \/ status t' = Fired))).

(** A timer store later in its life: every object is still at its index. *)
Definition timers_le (ts ts' : list timer_obj) : Prop :=
  forall tid t, ts !! tid = Some t -> exists t', ts' !! tid = Some t' /\ timer_le t t'.

Definition no_created (ts : list timer_obj) : Prop :=
  forall tid t, ts !! tid = Some t -> status t <> Created.

(** Both active hours are hours of the day. *)
Definition hours_valid (s : bot) : Prop :=
  0 <= (active_hours s).1 <= 23 /\ 0 <= (active_hours s).2 <= 23.

(** [users_verified] is at least the number of verified keys. *)
Definition verified_counted (s : bot) : Prop :=
  Z.of_nat (size (verified_users s)) <= users_verified (stats s).

(** The events whose bookkeeping no call of the [gateway] can cut short.
    For a command this is said of what follows the membership query: the
    answer of [get_chat_member] is in the event, not in the [gateway], and
    the command assigns only after it. *)
Definition api_free (e : event) : bool :=
  match e with
  | SpamDetection _ | TimerExpiry _ => false
  | _ => true
  end.

(** The transitions that [handle_chat_member_update] takes for a join. *)
Definition is_join (cmu : chat_member_update) : bool :=
  bool_decide (cmu_old_status cmu ∈ ["left"; "kicked"]%string)
  && bool_decide (cmu_new_status cmu ∈ ["member"; "administrator"; "creator"]%string).

(** An ordinary user, for examples. *)
Definition bob : user :=
  {| u_id := 2; u_username := None; u_full_name := "bob"; u_is_bot := false |}.

(** * Proofs *)

(** Unfolding a handler down to the record operations. *)
Ltac io_unfold :=
  unfold state_of, trace_of, value_of, timer_expiry in *;
  unfold timer_wakes, timer_calls,
    handle_video_message, handle_text_message, _handle_new_member,
    handle_spam_detection,
    set_timer_command, pause_command, resume_command, interaction_mode_command,
    antispam_command, rewards_command, set_welcome_command, schedule_command,
    leaderboard_command in *;
  unfold admin_only, _kick_user_timeout, _handle_spam_violation,
    verify_pending, send_success in *;
  unfold _kick_user_timeout_locked, _kick_user_timeout_unlocked in *;
  unfold kick_user in *;
  unfold Timer, start, cancel, update_stats, attr in *;
  unfold try_except, call, raise, modify, get,
    mbind, io_mbind, io_bind, mret, io_mret, io_ret in *.

Ltac io_simpl := io_unfold; simpl in *.

(** Case analysis on a scrutinee that is not itself a case analysis, so
    that the pattern matching on results of [io_bind] then computes. *)
Ltac io_case :=
  match goal with
  | |- context [match ?x with _ => _ end] =>
      lazymatch x with
      | context [match _ with _ => _ end] => fail
      | _ => destruct x eqn:?
      end
  end.

Ltac io_cases := repeat (io_case; simpl in *).

(** ** The reward ledger *)

Lemma dict_get_set_eq k v d : dict_get k (dict_set k v d) = Some v.
Proof.
  induction d as [|[k' v'] d IH]; simpl.
  - by rewrite decide_True.
  - destruct (decide (k = k')) as [->|Hne]; simpl.
    + by rewrite decide_True.
    + by rewrite decide_False.
Qed.

Lemma dict_get_set_ne k k' v d : k ≠ k' -> dict_get k' (dict_set k v d) = dict_get k' d.
Proof.
  intros Hne. induction d as [|[k0 v0] d IH]; simpl.
  - by rewrite decide_False.
  - destruct (decide (k = k0)) as [->|Hne0]; simpl.
    + by rewrite !decide_False.
    + by rewrite IH.
Qed.

Lemma award_points_spec e :
  (e <= 10000000 -> award_points e = 100) /\
  (10000000 < e <= 30000000 -> award_points e = 50) /\
  (30000000 < e -> award_points e = 25).
Proof.
  unfold award_points. repeat split; intros; repeat case_match; lia.
Qed.

Section Reward.
Context `{PyBuiltins}.

Lemma verify_pending_rewards now k gw s e :
  pending_users s !! k = Some e ->
  reward_system_enabled s = true ->
  let r := verify_pending now k gw s in
  value_of r = Ok (Some (now - join_time e, award_points (now - join_time e))) /\
  dict_get k (user_points (state_of r))
    = Some (default 0 (dict_get k (user_points s)) + award_points (now - join_time e)) /\
  (forall k', k' ≠ k -> dict_get k' (user_points (state_of r)) = dict_get k' (user_points s)).
Proof.
  intros He Hon. io_simpl. rewrite He. simpl. rewrite Hon. simpl.
  destruct (dict_get k (user_points s)) as [v|] eqn:Hg; simpl.
  - rewrite Hg. simpl. split; [done|]. split.
    + by rewrite dict_get_set_eq.
    + intros k' Hne. by rewrite dict_get_set_ne.
  - rewrite dict_get_set_eq. simpl. split; [done|]. split.
    + by rewrite dict_get_set_eq.
    + intros k' Hne. rewrite !dict_get_set_ne; done.
Qed.

Lemma verify_pending_no_rewards now k gw s e :
  pending_users s !! k = Some e ->
  reward_system_enabled s = false ->
  let r := verify_pending now k gw s in
  value_of r = Ok (Some (now - join_time e, 0)) /\
  user_points (state_of r) = user_points s.
Proof.
  intros He Hoff. io_simpl. rewrite He. simpl. rewrite Hoff. simpl. done.
Qed.

Lemma verify_pending_trace now k gw s : trace_of (verify_pending now k gw s) = [].
Proof. io_simpl. by io_cases. Qed.

Lemma send_success_state chat_id user_id user_name v gw s :
  state_of (send_success chat_id user_id user_name v gw s) = s.
Proof. io_simpl. by io_cases. Qed.

(** The handler is its two blocks in sequence. *)
Lemma handle_video_message_split now m u gw s v :
  m_from_user m = Some u ->
  value_of (verify_pending now (m_chat_id m, u_id u) gw s) = Ok v ->
  state_of (handle_video_message now (Some m) gw s)
    = state_of (verify_pending now (m_chat_id m, u_id u) gw s) /\
  trace_of (handle_video_message now (Some m) gw s)
    = trace_of (send_success (m_chat_id m) (u_id u) (u_full_name u) v gw
                  (state_of (verify_pending now (m_chat_id m, u_id u) gw s))).
Proof.
  intros Hu Hv.
  pose proof (verify_pending_trace now (m_chat_id m, u_id u) gw s) as Ht.
  pose proof (send_success_state (m_chat_id m) (u_id u) (u_full_name u) v gw
                (state_of (verify_pending now (m_chat_id m, u_id u) gw s))) as Hs.
  unfold handle_video_message. rewrite Hu.
  unfold state_of, trace_of, value_of, try_except, mbind, io_mbind, io_bind in *.
  destruct (verify_pending now (m_chat_id m, u_id u) gw s) as [[r s1] t1].
  simpl in *. subst.
  destruct (send_success (m_chat_id m) (u_id u) (u_full_name u) v gw s1) as [[r2 s2] t2].
  simpl in *. by subst.
Qed.

End Reward.

(** ** The leaderboard *)

Lemma insert_desc_perm x l : insert_desc x l ≡ₚ x :: l.
Proof.
  induction l as [|y l IH]; simpl; [done|].
  case_match; [done|]. rewrite IH. apply Permutation_swap.
Qed.

Lemma sorted_desc_perm l : sorted_desc l ≡ₚ l.
Proof.
  induction l as [|x l IH]; simpl; [done|].
  by rewrite insert_desc_perm, IH.
Qed.

Lemma insert_desc_sorted x l :
  StronglySorted by_points_desc l -> StronglySorted by_points_desc (insert_desc x l).
Proof.
  induction 1 as [|y l Hs IH Hall]; simpl.
  - repeat constructor.
  - destruct (y.2 <=? x.2) eqn:Hle.
    + apply Z.leb_le in Hle. constructor; [by constructor|].
      constructor; [done|].
      eapply Forall_impl; [exact Hall|]. unfold by_points_desc. simpl. intros; lia.
    + apply Z.leb_gt in Hle. constructor; [done|].
      rewrite insert_desc_perm. constructor; [|done].
      unfold by_points_desc. lia.
Qed.

Lemma sorted_desc_sorted l : StronglySorted by_points_desc (sorted_desc l).
Proof.
  induction l; simpl; [constructor|]. by apply insert_desc_sorted.
Qed.

Lemma insert_desc_filter p x l :
  filter (fun y : user_key * Z => y.2 = p) (insert_desc x l)
  = filter (fun y : user_key * Z => y.2 = p) (x :: l).
Proof.
  induction l as [|y l IH]; simpl; [done|].
  destruct (y.2 <=? x.2) eqn:Hle; [done|].
  apply Z.leb_gt in Hle.
  rewrite (filter_cons _ y (insert_desc x l)), IH.
  rewrite !filter_cons.
  destruct (decide (y.2 = p)), (decide (x.2 = p)); try done. lia.
Qed.

(** Stability: the entries with a given number of points keep the order in
    which they entered the ledger. *)
Lemma sorted_desc_stable p l :
  filter (fun y : user_key * Z => y.2 = p) (sorted_desc l)
  = filter (fun y : user_key * Z => y.2 = p) l.
Proof.
  induction l as [|x l IH]; simpl; [done|].
  rewrite insert_desc_filter, !filter_cons, IH. done.
Qed.

Lemma leaderboard_rows_length d : (length (leaderboard_rows d) <= 10)%nat.
Proof.
  unfold leaderboard_rows. rewrite length_imap, length_take. lia.
Qed.

Lemma leaderboard_rows_lookup d i :
  leaderboard_rows d !! i
  = (fun e : user_key * Z => (Z.of_nat i + 1, e.1.2, e.2)) <$> take 10 (sorted_desc d) !! i.
Proof.
  unfold leaderboard_rows. rewrite list_lookup_imap.
  destruct (take 10 (sorted_desc d) !! i) as [[[c u] p]|]; done.
Qed.

(** C6. The leaderboard ranks the whole ledger by a stable sort on
    descending points: the ranking is a permutation of the ledger, its
    points never increase, entries with equal points keep the order in which
    they entered the ledger, and the rows shown are the first ten of it,
    numbered from 1.  On the ledger A:100, B:100, C:50 the rows are A, B, C,
    and A, B stay in that order wherever C was inserted. *)
Theorem C6_leaderboard_stable_top10 `{PyBuiltins} (d : list (user_key * Z)) :
  let ranked := sorted_desc d in
  ranked ≡ₚ d /\
  StronglySorted by_points_desc ranked /\
  (forall p, filter (fun y : user_key * Z => y.2 = p) ranked
             = filter (fun y : user_key * Z => y.2 = p) d) /\
  leaderboard_rows d
    = imap (fun i (e : user_key * Z) => (Z.of_nat i + 1, e.1.2, e.2)) (take 10 ranked) /\
  (length (leaderboard_rows d) <= 10)%nat /\
  (forall gw s,
     trace_of (leaderboard_command gw s)
     = [ReplyText match user_points s with
                  | [] => NoPoints
                  | _ => Leaderboard (leaderboard_rows (user_points s))
                  end]) /\
  (forall A B C : user_key,
     leaderboard_rows [(A, 100); (B, 100); (C, 50)] = [(1, A.2, 100); (2, B.2, 100); (3, C.2, 50)] /\
     leaderboard_rows [(C, 50); (A, 100); (B, 100)] = [(1, A.2, 100); (2, B.2, 100); (3, C.2, 50)] /\
     leaderboard_rows [(B, 100); (C, 50); (A, 100)] = [(1, B.2, 100); (2, A.2, 100); (3, C.2, 50)]).
Proof.
  simpl. split; [apply sorted_desc_perm|].
  split; [apply sorted_desc_sorted|].
  split; [intros p; apply sorted_desc_stable|].
  split.
  { unfold leaderboard_rows. apply imap_ext. by intros i [[c u] p] _. }
  split; [apply leaderboard_rows_length|].
  split.
  { intros gw s. io_simpl. by io_cases. }
  intros [a1 a2] [b1 b2] [c1 c2]. done.
Qed.

Section RewardClaim.
Context `{PyBuiltins}.

(** C5. A video post by a pending user is rewarded by its response time
    (in microseconds, the resolution of [datetime]): 100 points up to 10
    seconds, 50 up to 30 seconds, 25 beyond, added to the user's total in
    [user_points]; with the reward system off the points are 0 and
    [user_points] is left as it was. *)
Theorem C5_points_by_response_time now m u gw s e :
  m_from_user m = Some u ->
  pending_users s !! (m_chat_id m, u_id u) = Some e ->
  let k := (m_chat_id m, u_id u) in
  let elapsed := now - join_time e in
  let old := default 0 (dict_get k (user_points s)) in
  let awarded := value_of (verify_pending now k gw s) in
  let r := handle_video_message now (Some m) gw s in
  (reward_system_enabled s = true ->
     (elapsed <= 10 * 1000000 ->
        awarded = Ok (Some (elapsed, 100)) /\
        dict_get k (user_points (state_of r)) = Some (old + 100)) /\
     (10 * 1000000 < elapsed <= 30 * 1000000 ->
        awarded = Ok (Some (elapsed, 50)) /\
        dict_get k (user_points (state_of r)) = Some (old + 50)) /\
     (30 * 1000000 < elapsed ->
        awarded = Ok (Some (elapsed, 25)) /\
        dict_get k (user_points (state_of r)) = Some (old + 25)) /\
     trace_of r =
       [SendMessage (m_chat_id m)
          (VerifiedNotice (u_full_name u) elapsed
             (Some (award_points elapsed, old + award_points elapsed)))]) /\
  (reward_system_enabled s = false ->
     awarded = Ok (Some (elapsed, 0)) /\
     user_points (state_of r) = user_points s /\
     trace_of r = [SendMessage (m_chat_id m) (VerifiedNotice (u_full_name u) elapsed None)]).
Proof.
  intros Hu He. cbv zeta.
  set (k := (m_chat_id m, u_id u)) in *.
  set (elapsed := now - join_time e).
  set (old := default 0 (dict_get k (user_points s))).
  split.
  - intros Hon.
    destruct (verify_pending_rewards now k gw s e He Hon) as (Hv & Hk & _).
    destruct (handle_video_message_split now m u gw s _ Hu Hv) as [Hst Htr].
    fold k in Hst, Htr.
    pose proof (award_points_spec elapsed) as (H1 & H2 & H3).
    fold elapsed in Hv, Hk. fold old in Hk.
    assert (0 < award_points elapsed) as Hpos.
    { unfold award_points. repeat case_match; lia. }
    rewrite Hst, Hv, Hk.
    split; [intros Hle; by rewrite (H1 Hle)|].
    split; [intros Hle; by rewrite (H2 Hle)|].
    split; [intros Hle; by rewrite (H3 Hle)|].
    rewrite Htr. apply Z.ltb_lt in Hpos.
    set (s1 := state_of (verify_pending now k gw s)) in *. clearbody s1.
    unfold send_success, trace_of, attr, call, get, mbind, io_mbind, io_bind, mret, io_mret, io_ret.
    unfold elapsed, k in *. rewrite Hpos, Hk. simpl. by io_cases.
  - intros Hoff.
    destruct (verify_pending_no_rewards now k gw s e He Hoff) as (Hv & Hp).
    destruct (handle_video_message_split now m u gw s _ Hu Hv) as [Hst Htr].
    fold k in Hst, Htr. fold elapsed in Hv.
    split; [done|]. split; [by rewrite Hst|].
    rewrite Htr. io_simpl. by io_cases.
Qed.

End RewardClaim.

(** ** Sequencing *)

Lemma try_except_value m gw s : value_of (try_except m gw s) = Ok tt.
Proof. unfold value_of, try_except. by destruct (m gw s) as [[? ?] ?]. Qed.

Lemma try_except_state m gw s : state_of (try_except m gw s) = state_of (m gw s).
Proof. unfold state_of, try_except. by destruct (m gw s) as [[? ?] ?]. Qed.

Lemma try_except_trace m gw s : trace_of (try_except m gw s) = trace_of (m gw s).
Proof. unfold trace_of, try_except. by destruct (m gw s) as [[? ?] ?]. Qed.

Lemma bind_state_ok {A B} (m : io A) (k : A -> io B) gw s a :
  value_of (m gw s) = Ok a ->
  state_of ((m ≫= k) gw s) = state_of (k a gw (state_of (m gw s))).
Proof.
  unfold value_of, state_of, mbind, io_mbind, io_bind.
  destruct (m gw s) as [[r s1] t1]; simpl. intros ->.
  by destruct (k a gw s1) as [[? ?] ?].
Qed.

Lemma bind_state_raised {A B} (m : io A) (k : A -> io B) gw s :
  value_of (m gw s) = Raised ->
  state_of ((m ≫= k) gw s) = state_of (m gw s).
Proof.
  unfold value_of, state_of, mbind, io_mbind, io_bind.
  destruct (m gw s) as [[r s1] t1]; simpl. by intros ->.
Qed.

Lemma alter_snoc {A} (f : A -> A) l x : alter f (length l) (l ++ [x]) = l ++ [f x].
Proof.
  replace (length l) with (length l + 0)%nat by lia. by rewrite alter_app_r.
Qed.

Lemma lookup_snoc_length {A} (l l' : list A) x :
  length l = length l' -> (l ++ [x]) !! length l' = Some x.
Proof.
  intros <-. rewrite lookup_app_r by lia. by replace (_ - _)%nat with 0%nat by lia.
Qed.

Section Frames.
Context `{PyBuiltins}.

Lemma handle_never_raises now e gw s : value_of (handle now e gw s) = Ok tt.
Proof.
  destruct e; simpl; try apply try_except_value.
  io_simpl. by io_cases.
Qed.

(** A property of the state that every step of a handler keeps is kept by
    the loop over new members. *)
Lemma handle_new_members_loop_keeps (P : bot -> Prop) now chat_id users gw s :
  (forall user_id user_name s0, P s0 ->
     P (state_of (_handle_new_member now chat_id user_id user_name gw s0))) ->
  P s -> P (state_of (handle_new_members_loop now chat_id users gw s)).
Proof.
  intros Hstep. revert s. induction users as [|u users IH]; intros s Hs; simpl; [done|].
  destruct (u_is_bot u).
  - rewrite (bind_state_ok _ _ _ _ tt) by done. by apply IH.
  - rewrite (bind_state_ok _ _ _ _ tt) by apply try_except_value.
    apply IH. by apply Hstep.
Qed.

(** Only [/settimer] assigns [timeout_seconds]. *)
Lemma timeout_seconds_kept now e gw s :
  is_set_timer e = false ->
  timeout_seconds (state_of (handle now e gw s)) = timeout_seconds s.
Proof.
  intros He. destruct e; try discriminate; simpl.
  2: { rewrite try_except_state.
       apply (handle_new_members_loop_keeps (fun s0 => timeout_seconds s0 = timeout_seconds s));
         [|done].
       intros u n s0 <-. io_simpl. by io_cases. }
  all: io_simpl; by io_cases.
Qed.

Lemma timeout_seconds_run ds s :
  forallb (fun d => negb (is_set_timer (what d))) ds = true ->
  timeout_seconds (run s ds) = timeout_seconds s.
Proof.
  revert s. induction ds as [|d ds IH]; intros s Hds; simpl in *; [done|].
  apply andb_true_iff in Hds as [Hd Hds].
  unfold run in *. rewrite IH by done.
  apply timeout_seconds_kept. by destruct (is_set_timer (what d)).
Qed.

(** A join while the bot is active and not in interaction mode. *)
Lemma _handle_new_member_arms now chat_id user_id user_name gw s :
  bot_paused s = false ->
  interaction_mode s = false ->
  let s' := state_of (_handle_new_member now chat_id user_id user_name gw s) in
  let t := length (timers s) in
  pending_users s' = <[(chat_id, user_id) :=
                        {| timer := t; join_time := now; user_name := user_name |}]>
                      (pending_users s) /\
  timers s' = match pending_users s !! (chat_id, user_id) with
              | Some e => alter timer_cancel_obj (timer e) (timers s)
              | None => timers s
              end ++ [ {| interval := timeout_seconds s; t_chat_id := chat_id;
                          t_user_id := user_id; t_user_name := user_name;
                          status := Armed |} ].
Proof.
  intros Hp Hi. io_simpl. rewrite Hp, Hi. simpl.
  destruct (pending_users s !! (chat_id, user_id)) as [e|] eqn:He; simpl.
  - io_cases; simpl; by rewrite ?alter_snoc, ?length_alter.
  - io_cases; simpl; by rewrite ?alter_snoc.
Qed.

End Frames.

Section TimeoutClaim.
Context `{PyBuiltins}.

(** C4. [/settimer n] from an admin, [n] an integer: outside [10, 600] the
    reply is the range error and the bot is unchanged; inside, the reply
    confirms and [timeout_seconds] is [n], and from then on, as long as no
    other [/settimer] is handled, every join that arms a timer (bot active,
    interaction mode off) arms it with interval [n] for the joining user. *)
Theorem C4_settimer_validates_and_applies role a n gw s :
  is_admin role = true ->
  py_int a = Some n ->
  let r := set_timer_command (Some role) [a] gw s in
  ((n < 10 \/ 600 < n) ->
     state_of r = s /\ trace_of r = [ReplyText TimerRange]) /\
  (10 <= n <= 600 ->
     state_of r = set_timeout_seconds n s /\
     timeout_seconds (state_of r) = n /\
     trace_of r = [ReplyText (TimerUpdated n)] /\
     forall ds now chat_id user_id user_name gw',
       forallb (fun d => negb (is_set_timer (what d))) ds = true ->
       let s2 := run (state_of r) ds in
       bot_paused s2 = false ->
       interaction_mode s2 = false ->
       let s3 := state_of (_handle_new_member now chat_id user_id user_name gw' s2) in
       exists e t,
         pending_users s3 !! (chat_id, user_id) = Some e /\
         timers s3 !! timer e = Some t /\
         interval t = n /\ status t = Armed /\ timer_key t = (chat_id, user_id)).
Proof.
  intros Hadm Hint. cbv zeta.
  assert (Hout : (n < 10 \/ 600 < n) ->
            state_of (set_timer_command (Some role) [a] gw s) = s /\
            trace_of (set_timer_command (Some role) [a] gw s) = [ReplyText TimerRange]).
  { intros Hn. io_simpl. rewrite Hadm, Hint. simpl.
    assert ((n <? 10) || (600 <? n) = true) as ->.
    { apply orb_true_iff. destruct Hn; [left; by apply Z.ltb_lt|right; by apply Z.ltb_lt]. }
    by io_cases. }
  assert (Hin : 10 <= n <= 600 ->
            state_of (set_timer_command (Some role) [a] gw s) = set_timeout_seconds n s /\
            trace_of (set_timer_command (Some role) [a] gw s) = [ReplyText (TimerUpdated n)]).
  { intros Hn. io_simpl. rewrite Hadm, Hint. simpl.
    assert ((n <? 10) || (600 <? n) = false) as ->.
    { apply orb_false_iff. split; apply Z.ltb_ge; lia. }
    by io_cases. }
  split; [exact Hout|].
  intros Hn. destruct (Hin Hn) as [Hst Htr].
  split; [done|]. split; [by rewrite Hst|]. split; [done|].
  intros ds now chat_id user_id user_name gw' Hds Hp Hi.
  destruct (_handle_new_member_arms now chat_id user_id user_name gw' _ Hp Hi) as [Hpend Htim].
  eexists _, _. rewrite Hpend, lookup_insert_eq. split; [done|].
  rewrite Htim. simpl.
  rewrite lookup_snoc_length by (case_match; by rewrite ?length_alter).
  split; [done|]. simpl.
  rewrite timeout_seconds_run by done. by rewrite Hst.
Qed.

End TimeoutClaim.

Lemma C4_settimer_witness :
  is_admin "creator" = true /\
  @py_int ascii_builtins "30" = Some 30 /\
  @py_int ascii_builtins "5" = Some 5 /\
  timeout_seconds (state_of (@set_timer_command ascii_builtins (Some "creator"%string) ["30"%string]
                               all_ok (init 60))) = 30 /\
  state_of (@set_timer_command ascii_builtins (Some "creator"%string) ["5"%string]
              all_ok (init 60)) = init 60.
Proof.
  split; [reflexivity|]. split; [reflexivity|]. split; [reflexivity|].
  split.
  - apply (@C4_settimer_validates_and_applies ascii_builtins "creator" "30" 30 all_ok (init 60)
             eq_refl eq_refl).
    lia.
  - apply (@C4_settimer_validates_and_applies ascii_builtins "creator" "5" 5 all_ok (init 60)
             eq_refl eq_refl).
    lia.
Defined.

Lemma C5_points_witness :
  let s := @run ascii_builtins (init 30)
             [ {| at_time := 0; api := all_ok; what := NewMember 1 2 "bob" |} ] in
  let m := msg_from 1 2 "bob" None in
  pending_users s !! (1, 2) = Some {| timer := 0%nat; join_time := 0; user_name := "bob" |} /\
  dict_get (1, 2) (user_points (state_of (handle_video_message 5000000 (Some m) all_ok s)))
    = Some 100 /\
  dict_get (1, 2) (user_points (state_of (handle_video_message 15000000 (Some m) all_ok s)))
    = Some 50 /\
  dict_get (1, 2) (user_points (state_of (handle_video_message 45000000 (Some m) all_ok s)))
    = Some 25.
Proof.
  cbv zeta. split; [reflexivity|].
  pose (s := @run ascii_builtins (init 30)
               [ {| at_time := 0; api := all_ok; what := NewMember 1 2 "bob" |} ]).
  pose (e := {| timer := 0%nat; join_time := 0; user_name := "bob" |}).
  pose (u := {| u_id := 2; u_username := None; u_full_name := "bob"; u_is_bot := false |}).
  split; [|split].
  - apply (C5_points_by_response_time 5000000 (msg_from 1 2 "bob" None) u all_ok s e
             eq_refl eq_refl); [reflexivity | simpl; lia].
  - apply (C5_points_by_response_time 15000000 (msg_from 1 2 "bob" None) u all_ok s e
             eq_refl eq_refl); [reflexivity | simpl; lia].
  - apply (C5_points_by_response_time 45000000 (msg_from 1 2 "bob" None) u all_ok s e
             eq_refl eq_refl); [reflexivity | simpl; lia].
Defined.

(** ** Spam detection *)

Section Spam.
Context `{PyBuiltins}.

Lemma _handle_spam_violation_effect m u why key gw s :
  m_from_user m = Some u ->
  let r := _handle_spam_violation m why key gw s in
  state_of r = (if gw (DeleteMessage (m_chat_id m) (m_message_id m))
                then set_stats (incr_stat key (stats s)) s else s) /\
  trace_of r `prefix_of` violation_calls m u why /\
  (forallb gw (violation_calls m u why) = true -> trace_of r = violation_calls m u why).
Proof.
  intros Hu. io_simpl. rewrite Hu. simpl. unfold violation_calls.
  io_cases; (split; [done|]); (split; [|try done]).
  all: try (by intros [=]).
  all: try (eexists; simpl; reflexivity).
Qed.

Lemma incr_stat_other key key' st : key ≠ key' -> stat key' (incr_stat key st) = stat key' st.
Proof. by destruct key, key'. Qed.

Lemma incr_stat_same key st : stat key (incr_stat key st) = stat key st + 1.
Proof. by destruct key. Qed.

(** Nothing but [stats] is assigned by spam detection. *)
Lemma handle_spam_detection_frame upd gw s :
  state_of (handle_spam_detection upd gw s)
  = set_stats (stats (state_of (handle_spam_detection upd gw s))) s.
Proof. destruct s. io_simpl. by io_cases. Qed.

End Spam.

Section SpamClaim.
Context `{PyBuiltins}.

Lemma handle_spam_detection_dispatch m u gw s :
  anti_spam_enabled s = true ->
  bot_paused s = false ->
  m_from_user m = Some u ->
  (m_chat_id m, u_id u) ∉ verified_users s ->
  handle_spam_detection (Some m) gw s
  = if has_link (m_text m) then _handle_spam_violation m PostingLinks LinksBlocked gw s
    else match first_banned_word (banned_words s) (m_text m) with
         | Some w => _handle_spam_violation m (BannedWord w) SpamBlocked gw s
         | None =>
             if _is_suspicious_username u
             then _handle_spam_violation m SuspiciousUsername SuspiciousKicked gw s
             else (Ok tt, s, [])
         end.
Proof.
  intros Ha Hp Hu Hv. io_simpl. rewrite Ha, Hp, Hu. simpl.
  rewrite decide_False by done. by io_cases.
Qed.

(** C7. Spam detection tests in a fixed order and stops at the first hit:
    a text with a link is handled as "posting links" whatever else it
    matches; otherwise the first configured banned word found in the text;
    otherwise a suspicious sender name.  The one violation reported is the
    only one whose counter can move: it goes up by one as soon as the
    offending message is deleted, the other two counters stay.  So a text
    with both a link and a banned word moves [links_blocked], never
    [spam_blocked]. *)
Theorem C7_spam_first_match_only m u gw s :
  anti_spam_enabled s = true ->
  bot_paused s = false ->
  m_from_user m = Some u ->
  (m_chat_id m, u_id u) ∉ verified_users s ->
  let r := handle_spam_detection (Some m) gw s in
  let deleted := gw (DeleteMessage (m_chat_id m) (m_message_id m)) in
  let bump (key : stat_key) (why : reason) :=
    r = _handle_spam_violation m why key gw s /\
    trace_of r `prefix_of` violation_calls m u why /\
    (forallb gw (violation_calls m u why) = true -> trace_of r = violation_calls m u why) /\
    stat key (stats (state_of r)) = stat key (stats s) + (if deleted then 1 else 0) /\
    (forall key', key' ≠ key -> stat key' (stats (state_of r)) = stat key' (stats s)) in
  (has_link (m_text m) = true -> bump LinksBlocked PostingLinks) /\
  (has_link (m_text m) = false ->
   forall w, first_banned_word (banned_words s) (m_text m) = Some w ->
     bump SpamBlocked (BannedWord w)) /\
  (has_link (m_text m) = false ->
   first_banned_word (banned_words s) (m_text m) = None ->
   _is_suspicious_username u = true ->
     bump SuspiciousKicked SuspiciousUsername) /\
  (has_link (m_text m) = false ->
   first_banned_word (banned_words s) (m_text m) = None ->
   _is_suspicious_username u = false ->
     r = (Ok tt, s, [])).
Proof.
  intros Ha Hp Hu Hv. cbv zeta.
  rewrite (handle_spam_detection_dispatch m u gw s Ha Hp Hu Hv).
  assert (Hbump : forall key why,
    let r := _handle_spam_violation m why key gw s in
    trace_of r `prefix_of` violation_calls m u why /\
    (forallb gw (violation_calls m u why) = true -> trace_of r = violation_calls m u why) /\
    stat key (stats (state_of r)) = stat key (stats s)
      + (if gw (DeleteMessage (m_chat_id m) (m_message_id m)) then 1 else 0) /\
    (forall key', key' ≠ key -> stat key' (stats (state_of r)) = stat key' (stats s))).
  { intros key why.
    destruct (_handle_spam_violation_effect m u why key gw s Hu) as (Hst & Hpre & Hall).
    cbv zeta. rewrite Hst. split; [done|]. split; [done|].
    destruct (gw (DeleteMessage _ _)); simpl.
    - split; [apply incr_stat_same|]. intros key' Hne. by apply incr_stat_other.
    - split; [lia|done]. }
  split; [intros ->; split; [done|apply Hbump]|].
  split; [intros -> w ->; split; [done|apply Hbump]|].
  split; [intros -> -> ->; split; [done|apply Hbump]|].
  by intros -> -> ->.
Qed.

End SpamClaim.

Lemma C7_spam_witness :
  let s := init 30 in
  let m := msg_from 1 2 "bob" (Some "Buy now at HTTP://x.example spam") in
  (anti_spam_enabled s = true /\ bot_paused s = false /\ (1, 2) ∉ verified_users s) /\
  @has_link ascii_builtins (m_text m) = true /\
  @first_banned_word ascii_builtins (banned_words s) (m_text m) = Some "spam"%string /\
  links_blocked (stats (state_of (@handle_spam_detection ascii_builtins (Some m) all_ok s))) = 1 /\
  spam_blocked (stats (state_of (@handle_spam_detection ascii_builtins (Some m) all_ok s))) = 0.
Proof.
  cbv zeta.
  assert (Hv : (1, 2) ∉ verified_users (init 30)) by (simpl; set_solver).
  split; [done|]. split; [reflexivity|]. split; [reflexivity|].
  pose (u := {| u_id := 2; u_username := None; u_full_name := "bob"; u_is_bot := false |}).
  destruct (@C7_spam_first_match_only ascii_builtins
              (msg_from 1 2 "bob" (Some "Buy now at HTTP://x.example spam")) u all_ok (init 30)
              eq_refl eq_refl eq_refl Hv) as [Hlink _].
  destruct (Hlink eq_refl) as (_ & _ & _ & Hl & Hother).
  split; [exact Hl|]. exact (Hother SpamBlocked ltac:(discriminate)).
Defined.

(** ** Spam removal and the pending entry *)

(** C8, as the code has it: removing a spammer who is pending leaves
    the entry and its armed timer.  Bob joins chat 1, posts a link and is
    removed; his entry is still there, timer 0 is still armed, and when it
    expires the bot bans him again. *)
Lemma C8_counterexample :
  let s := @run ascii_builtins (init 30)
             [ {| at_time := 0; api := all_ok; what := NewMember 1 2 "bob" |} ] in
  let bob := {| timer := 0%nat; join_time := 0; user_name := "bob" |} in
  let r := @handle_spam_detection ascii_builtins
             (Some (msg_from 1 2 "bob" (Some "see http://x.example"))) all_ok s in
  pending_users s !! (1, 2) = Some bob /\
  trace_of r = [ DeleteMessage 1 1; BanChatMember 1 2; UnbanChatMember 1 2;
                 SendMessage 1 (SpamWarning "bob" PostingLinks) ] /\
  pending_users (state_of r) !! (1, 2) = Some bob /\
  live_timers (state_of r) (1, 2) = [0%nat] /\
  trace_of (timer_expiry 0 all_ok (state_of r))
    = [ BanChatMember 1 2; UnbanChatMember 1 2; SendMessage 1 (KickNotice "bob" 30) ].
Proof. cbv zeta. repeat split; reflexivity. Qed.

Section SpamPending.
Context `{PyBuiltins}.

(** C8, amended. Spam detection assigns nothing but [stats]: whatever the
    message and whatever the API does, [pending_users], [verified_users]
    and every timer are as before, so a removed sender who was pending
    keeps the entry and its armed timer; when that timer expires, the
    callback still finds the entry and, the user not being verified, starts
    the kick. *)
Theorem C8_spam_removal_leaves_pending upd gw s tid t e gw' :
  timers s !! tid = Some t ->
  status t = Armed ->
  pending_users s !! timer_key t = Some e ->
  timer_key t ∉ verified_users s ->
  let s' := state_of (handle_spam_detection upd gw s) in
  pending_users s' = pending_users s /\
  verified_users s' = verified_users s /\
  timers s' = timers s /\
  (forall k, live_timers s' k = live_timers s k) /\
  pending_users s' !! timer_key t = Some e /\
  head (trace_of (timer_expiry tid gw' s')) = Some (BanChatMember (t_chat_id t) (t_user_id t)).
Proof.
  intros Ht Ha He Hv. cbv zeta.
  rewrite handle_spam_detection_frame.
  set (st := stats _). clearbody st.
  split; [done|]. split; [done|]. split; [done|]. split; [done|].
  split; [done|].
  unfold timer_key in *.
  io_simpl. rewrite Ht, Ha. simpl. rewrite He. simpl.
  rewrite decide_False by done. by io_cases.
Qed.

End SpamPending.

Lemma C8_spam_removal_witness :
  let s := @run ascii_builtins (init 30)
             [ {| at_time := 0; api := all_ok; what := NewMember 1 2 "bob" |} ] in
  let s' := state_of (@handle_spam_detection ascii_builtins
                        (Some (msg_from 1 2 "bob" (Some "see http://x.example"))) all_ok s) in
  pending_users s' = pending_users s /\ timers s' = timers s.
Proof.
  cbv zeta.
  pose (t := {| interval := 30; t_chat_id := 1; t_user_id := 2; t_user_name := "bob";
                status := Armed |}).
  assert (Hv : timer_key t ∉ verified_users (@run ascii_builtins (init 30)
             [ {| at_time := 0; api := all_ok; what := NewMember 1 2 "bob" |} ])).
  { vm_compute. set_solver. }
  destruct (@C8_spam_removal_leaves_pending ascii_builtins
              (Some (msg_from 1 2 "bob" (Some "see http://x.example"))) all_ok
              (@run ascii_builtins (init 30)
                 [ {| at_time := 0; api := all_ok; what := NewMember 1 2 "bob" |} ])
              0%nat t {| timer := 0%nat; join_time := 0; user_name := "bob" |} all_ok
              eq_refl eq_refl eq_refl Hv) as (Hp & _ & Ht & _).
  split; [exact Hp | exact Ht].
Defined.

(** ** A kick that the API refuses *)

(** C9, as the code has it: [users_kicked] is incremented after the
    ban, the unban and the notice, inside the same [try]; when the ban
    raises [Forbidden] the entry is gone and the counter is where it was. *)
Lemma C9_counterexample :
  let s := @run ascii_builtins (init 30)
             [ {| at_time := 0; api := all_ok; what := NewMember 1 2 "bob" |} ] in
  let r := timer_expiry 0 ban_forbidden s in
  pending_users s !! (1, 2) = Some {| timer := 0%nat; join_time := 0; user_name := "bob" |} /\
  users_kicked (stats s) = 0 /\
  trace_of r = [BanChatMember 1 2] /\
  pending_users (state_of r) !! (1, 2) = None /\
  users_kicked (stats (state_of r)) = 0.
Proof. cbv zeta. repeat split; reflexivity. Qed.

(** What [_kick_user_timeout] does to a pending user, for every behaviour
    of the API. *)
Lemma _kick_user_timeout_effect chat_id user_id user_name gw s e :
  pending_users s !! (chat_id, user_id) = Some e ->
  let k := (chat_id, user_id) in
  let r := _kick_user_timeout chat_id user_id user_name gw s in
  let kicked :=
    bool_decide (k ∉ verified_users s)
    && gw (BanChatMember chat_id user_id)
    && gw (UnbanChatMember chat_id user_id)
    && gw (SendMessage chat_id (KickNotice user_name (timeout_seconds s))) in
  state_of r
  = (if kicked then set_stats (incr_users_kicked (stats s)) else fun s => s)
      (set_pending_users (delete k (pending_users s)) s) /\
  trace_of r
  = if bool_decide (k ∉ verified_users s) then
      BanChatMember chat_id user_id ::
      if gw (BanChatMember chat_id user_id) then
        UnbanChatMember chat_id user_id ::
        if gw (UnbanChatMember chat_id user_id) then
          [SendMessage chat_id (KickNotice user_name (timeout_seconds s))]
        else []
      else []
    else [].
Proof.
  intros He. io_simpl. rewrite He. simpl.
  destruct (decide ((chat_id, user_id) ∈ verified_users s)) as [Hv|Hv].
  - rewrite bool_decide_false by (intros Hn; by apply Hn). done.
  - rewrite bool_decide_true by done. simpl. by io_cases.
Qed.

(** C9, amended. When the callback finds the entry and the removal is
    refused, be it the ban or the unban that completes it, the entry stays
    removed and that is the only change to the bot: nothing is rolled back,
    and [users_kicked] is not incremented.  (The counter is not dead: it
    goes up by one when the user is not verified and the ban, the unban and
    the notice all go through.) *)
Theorem C9_refused_kick_not_rolled_back_not_counted chat_id user_id user_name gw s e :
  pending_users s !! (chat_id, user_id) = Some e ->
  let k := (chat_id, user_id) in
  let r := _kick_user_timeout chat_id user_id user_name gw s in
  pending_users (state_of r) = delete k (pending_users s) /\
  pending_users (state_of r) !! k = None /\
  (gw (BanChatMember chat_id user_id) = false \/
   gw (UnbanChatMember chat_id user_id) = false ->
     state_of r = set_pending_users (delete k (pending_users s)) s /\
     users_kicked (stats (state_of r)) = users_kicked (stats s)) /\
  (k ∉ verified_users s ->
   gw (BanChatMember chat_id user_id) = true ->
   gw (UnbanChatMember chat_id user_id) = true ->
   gw (SendMessage chat_id (KickNotice user_name (timeout_seconds s))) = true ->
     users_kicked (stats (state_of r)) = users_kicked (stats s) + 1).
Proof.
  intros He. cbv zeta.
  destruct (_kick_user_timeout_effect chat_id user_id user_name gw s e He) as [Hst _].
  rewrite Hst.
  split; [by case_match|].
  split; [case_match; simpl; apply lookup_delete_eq|].
  split.
  - intros [-> | ->]; by rewrite ?andb_false_r.
  - intros Hv -> -> ->. by rewrite bool_decide_true.
Qed.

Lemma C9_refused_kick_witness :
  let s := @run ascii_builtins (init 30)
             [ {| at_time := 0; api := all_ok; what := NewMember 1 2 "bob" |} ] in
  let r := _kick_user_timeout 1 2 "bob" ban_forbidden s in
  pending_users s !! (1, 2) = Some {| timer := 0%nat; join_time := 0; user_name := "bob" |} /\
  pending_users (state_of r) !! (1, 2) = None /\
  state_of r = set_pending_users (delete (1, 2) (pending_users s)) s /\
  users_kicked (stats (state_of r)) = users_kicked (stats s).
Proof.
  cbv zeta. split; [reflexivity|].
  destruct (C9_refused_kick_not_rolled_back_not_counted 1 2 "bob" ban_forbidden
              (@run ascii_builtins (init 30)
                 [ {| at_time := 0; api := all_ok; what := NewMember 1 2 "bob" |} ])
              {| timer := 0%nat; join_time := 0; user_name := "bob" |} eq_refl)
    as (_ & Hgone & Hban & _).
  split; [exact Hgone|]. exact (Hban (or_introl eq_refl)).
Defined.

(** ** The schedule settings *)

Lemma same_but_schedule_with s1 s2 :
  same_but_schedule s1 s2 <-> s2 = with_schedule (scheduled_mode s2) (active_hours s2) s1.
Proof.
  destruct s1, s2. unfold same_but_schedule, with_schedule. simpl. split.
  - intros (-> & -> & -> & -> & -> & -> & -> & -> & -> & -> & -> & -> & ->). done.
  - intros [= -> -> -> -> -> -> -> -> -> -> -> -> ->]. done.
Qed.

Lemma same_but_schedule_refl s : same_but_schedule s s.
Proof. by unfold same_but_schedule. Qed.

Lemma with_schedule_same s mode hours : same_but_schedule s (with_schedule mode hours s).
Proof. by unfold same_but_schedule. Qed.

Lemma with_schedule_fields s mode hours :
  scheduled_mode (with_schedule mode hours s) = mode /\
  active_hours (with_schedule mode hours s) = hours.
Proof. done. Qed.

Lemma schedule_blind_ret {A} (a : A) : schedule_blind (mret a).
Proof. by intros mode hours gw s. Qed.

Lemma schedule_blind_bind {A B} (m : io A) (k : A -> io B) :
  schedule_blind m -> (forall a, schedule_blind (k a)) -> schedule_blind (m ≫= k).
Proof.
  intros Hm Hk mode hours gw s.
  unfold mbind, io_mbind, io_bind. rewrite Hm.
  unfold reschedule, value_of, state_of, trace_of.
  destruct (m gw s) as [[[a|] s1] t1]; simpl; [|done].
  rewrite Hk. unfold reschedule, value_of, state_of, trace_of.
  by destruct (k a gw s1) as [[? ?] ?].
Qed.

Lemma schedule_blind_try m : schedule_blind m -> schedule_blind (try_except m).
Proof.
  intros Hm mode hours gw s. unfold try_except. rewrite Hm.
  unfold reschedule, value_of, state_of, trace_of.
  by destruct (m gw s) as [[? ?] ?].
Qed.

Ltac blind_crush :=
  intros mode hours gw s; destruct s; unfold reschedule, with_schedule;
  io_simpl; io_cases; reflexivity.

Section Blind.
Context `{PyBuiltins}.

Lemma _handle_new_member_blind now chat_id user_id user_name :
  schedule_blind (_handle_new_member now chat_id user_id user_name).
Proof. blind_crush. Qed.

Lemma handle_new_members_loop_blind now chat_id users :
  schedule_blind (handle_new_members_loop now chat_id users).
Proof.
  induction users as [|u users IH]; simpl; [apply schedule_blind_ret|].
  apply schedule_blind_bind; [|done].
  destruct (u_is_bot u); [apply schedule_blind_ret|apply _handle_new_member_blind].
Qed.

Lemma handle_video_message_blind now upd : schedule_blind (handle_video_message now upd).
Proof. blind_crush. Qed.

Lemma handle_text_message_blind now upd : schedule_blind (handle_text_message now upd).
Proof. blind_crush. Qed.

Lemma handle_spam_detection_blind upd : schedule_blind (handle_spam_detection upd).
Proof. blind_crush. Qed.

Lemma timer_expiry_blind tid : schedule_blind (timer_expiry tid).
Proof. blind_crush. Qed.

Lemma moderation_blind now e : moderation e = true -> schedule_blind (handle now e).
Proof.
  destruct e; try discriminate; intros _; simpl.
  - apply _handle_new_member_blind.
  - apply schedule_blind_try, handle_new_members_loop_blind.
  - apply handle_video_message_blind.
  - apply handle_text_message_blind.
  - apply handle_spam_detection_blind.
  - apply timer_expiry_blind.
Qed.

End Blind.

Section ScheduleClaim.
Context `{PyBuiltins}.

Lemma schedule_command_frame member args gw s :
  same_but_schedule s (state_of (schedule_command member args gw s)).
Proof.
  destruct s. unfold same_but_schedule. io_simpl. io_cases; done.
Qed.

Lemma moderation_step now e gw s1 s2 :
  moderation e = true ->
  same_but_schedule s1 s2 ->
  handle now e gw s2
  = reschedule (scheduled_mode s2) (active_hours s2) (handle now e gw s1) /\
  scheduled_mode (state_of (handle now e gw s2)) = scheduled_mode s2 /\
  active_hours (state_of (handle now e gw s2)) = active_hours s2.
Proof.
  intros He Hs. apply same_but_schedule_with in Hs.
  assert (handle now e gw s2
          = reschedule (scheduled_mode s2) (active_hours s2) (handle now e gw s1)) as Heq.
  { rewrite Hs at 1. by apply moderation_blind. }
  split; [done|]. by rewrite Heq.
Qed.

(** C10. The handlers of joins, text messages, video messages, timer
    expiries and spam detection neither read nor assign [scheduled_mode]
    and [active_hours]: from two bots that differ at most in these two
    settings, the same event with the same clock and API gives the same
    result, the same API calls and final states that again differ at most
    in these settings, each keeping its own; so do whole runs of such
    events.  [/schedule] itself assigns nothing else. *)
Theorem C10_schedule_settings_never_consulted s1 s2 :
  same_but_schedule s1 s2 ->
  (forall now e gw,
     moderation e = true ->
     let r1 := handle now e gw s1 in
     let r2 := handle now e gw s2 in
     value_of r1 = value_of r2 /\
     trace_of r1 = trace_of r2 /\
     same_but_schedule (state_of r1) (state_of r2) /\
     scheduled_mode (state_of r1) = scheduled_mode s1 /\
     active_hours (state_of r1) = active_hours s1 /\
     scheduled_mode (state_of r2) = scheduled_mode s2 /\
     active_hours (state_of r2) = active_hours s2) /\
  (forall ds,
     forallb (fun d => moderation (what d)) ds = true ->
     run_trace s1 ds = run_trace s2 ds /\
     same_but_schedule (run s1 ds) (run s2 ds) /\
     scheduled_mode (run s1 ds) = scheduled_mode s1 /\
     active_hours (run s1 ds) = active_hours s1 /\
     scheduled_mode (run s2 ds) = scheduled_mode s2 /\
     active_hours (run s2 ds) = active_hours s2) /\
  (forall member args gw,
     same_but_schedule s1 (state_of (schedule_command member args gw s1))).
Proof.
  intros Hs.
  assert (Hstep : forall s1 s2 now e gw,
     same_but_schedule s1 s2 -> moderation e = true ->
     value_of (handle now e gw s1) = value_of (handle now e gw s2) /\
     trace_of (handle now e gw s1) = trace_of (handle now e gw s2) /\
     same_but_schedule (state_of (handle now e gw s1)) (state_of (handle now e gw s2)) /\
     scheduled_mode (state_of (handle now e gw s1)) = scheduled_mode s1 /\
     active_hours (state_of (handle now e gw s1)) = active_hours s1 /\
     scheduled_mode (state_of (handle now e gw s2)) = scheduled_mode s2 /\
     active_hours (state_of (handle now e gw s2)) = active_hours s2).
  { intros a b now e gw Hab He.
    destruct (moderation_step now e gw a b He Hab) as (Heq & Hm2 & Hh2).
    destruct (moderation_step now e gw a a He (same_but_schedule_refl a)) as (_ & Hm1 & Hh1).
    rewrite Hm1, Hh1, Hm2, Hh2, Heq.
    repeat split; done. }
  split; [intros now e gw He; by apply Hstep|].
  split; [|intros; apply schedule_command_frame].
  intros ds. revert s1 s2 Hs. induction ds as [|d ds IH]; intros s1 s2 Hs Hds; simpl in *.
  { done. }
  apply andb_true_iff in Hds as [Hd Hds].
  destruct (Hstep s1 s2 (at_time d) (what d) (api d) Hs Hd)
    as (_ & Htr & Hsame & Hm1 & Hh1 & Hm2 & Hh2).
  destruct (IH (step s1 d) (step s2 d) Hsame Hds) as (Hrt & Hrs & Ha & Hb & Hc & Hd').
  unfold run in *. simpl. unfold step in *.
  rewrite Htr, Hrt, Ha, Hb, Hc, Hd', Hm1, Hh1, Hm2, Hh2. done.
Qed.

End ScheduleClaim.

Lemma C10_schedule_witness :
  let s1 := init 30 in
  let s2 := with_schedule true (0, 6) (init 30) in
  let ds := [ {| at_time := 0; api := all_ok; what := NewMember 1 2 "bob" |};
              {| at_time := 8000000; api := all_ok;
                 what := VideoMessage (Some (msg_from 1 2 "bob" None)) |} ] in
  same_but_schedule s1 s2 /\
  @run_trace ascii_builtins s1 ds = @run_trace ascii_builtins s2 ds /\
  same_but_schedule (@run ascii_builtins s1 ds) (@run ascii_builtins s2 ds).
Proof.
  cbv zeta.
  pose proof (with_schedule_same (init 30) true (0, 6)) as Hs.
  split; [exact Hs|].
  destruct (@C10_schedule_settings_never_consulted ascii_builtins _ _ Hs) as (_ & Hrun & _).
  destruct (Hrun [ {| at_time := 0; api := all_ok; what := NewMember 1 2 "bob" |};
                   {| at_time := 8000000; api := all_ok;
                      what := VideoMessage (Some (msg_from 1 2 "bob" None)) |} ] eq_refl)
    as (Htr & Hsame & _).
  split; [exact Htr | exact Hsame].
Defined.

(** ** Armed timers and pending entries *)

Lemma timer_cancel_obj_not_armed t : status (timer_cancel_obj t) = Armed -> False.
Proof. unfold timer_cancel_obj. by destruct (status t) eqn:E; simpl; rewrite ?E. Qed.

Lemma timer_cancel_obj_key t : timer_key (timer_cancel_obj t) = timer_key t.
Proof. unfold timer_cancel_obj. by destruct (status t). Qed.

(** An armed timer that survives the cancellation of the timer of the
    entry of [k] belongs to another key. *)
Lemma owned_after_cancel p ts k e tid t :
  owned p ts ->
  p !! k = Some e ->
  alter timer_cancel_obj (timer e) ts !! tid = Some t ->
  status t = Armed ->
  ts !! tid = Some t /\ timer_key t ≠ k /\
  exists e', p !! timer_key t = Some e' /\ timer e' = tid.
Proof.
  intros Ho He Ht Ha.
  destruct (decide (timer e = tid)) as [<-|Hne].
  { rewrite list_lookup_alter_eq in Ht.
    destruct (ts !! timer e) as [t0|]; simpl in Ht; [|done].
    injection Ht as <-. by apply timer_cancel_obj_not_armed in Ha. }
  rewrite list_lookup_alter_ne in Ht by done.
  destruct (Ho tid t Ht Ha) as (e' & He' & Hid).
  split; [done|]. split; [|by eauto].
  intros Hk. rewrite Hk, He in He'. injection He' as <-. done.
Qed.

Lemma owned_video p ts k e :
  owned p ts -> p !! k = Some e ->
  owned (delete k p) (alter timer_cancel_obj (timer e) ts).
Proof.
  intros Ho He tid t Ht Ha.
  destruct (owned_after_cancel p ts k e tid t Ho He Ht Ha) as (_ & Hk & e' & He' & Hid).
  exists e'. by rewrite lookup_delete_ne.
Qed.

Lemma owned_snoc p ts k now name itv :
  owned p ts ->
  (forall tid t, ts !! tid = Some t -> status t = Armed -> timer_key t ≠ k) ->
  owned (<[k := {| timer := length ts; join_time := now; user_name := name |}]> p)
        (ts ++ [ {| interval := itv; t_chat_id := k.1; t_user_id := k.2;
                    t_user_name := name; status := Armed |} ]).
Proof.
  intros Ho Hfree tid t Ht Ha.
  destruct (decide (tid < length ts)%nat) as [Hlt|Hge].
  - rewrite lookup_app_l in Ht by done.
    destruct (Ho tid t Ht Ha) as (e' & He' & Hid).
    exists e'. rewrite lookup_insert_ne; [done|].
    intros Hk. by apply (Hfree tid t Ht Ha).
  - rewrite lookup_app_r in Ht by lia.
    destruct (tid - length ts)%nat as [|n] eqn:Hn; simpl in Ht; [|by destruct n].
    injection Ht as <-. unfold timer_key. simpl. destruct k as [c u]. simpl.
    rewrite lookup_insert_eq. eexists. split; [done|]. simpl. lia.
Qed.

Lemma owned_text p ts k now name itv :
  owned p ts -> p !! k = None ->
  owned (<[k := {| timer := length ts; join_time := now; user_name := name |}]> p)
        (ts ++ [ {| interval := itv; t_chat_id := k.1; t_user_id := k.2;
                    t_user_name := name; status := Armed |} ]).
Proof.
  intros Ho Hk. apply owned_snoc; [done|].
  intros tid t Ht Ha Heq. destruct (Ho tid t Ht Ha) as (e' & He' & _).
  rewrite Heq, Hk in He'. done.
Qed.

Lemma owned_join p ts k e now name itv :
  owned p ts -> p !! k = Some e ->
  owned (<[k := {| timer := length ts; join_time := now; user_name := name |}]> p)
        (alter timer_cancel_obj (timer e) ts ++
         [ {| interval := itv; t_chat_id := k.1; t_user_id := k.2;
              t_user_name := name; status := Armed |} ]).
Proof.
  intros Ho He.
  rewrite <-(length_alter timer_cancel_obj ts (timer e)).
  intros tid t Ht Ha.
  destruct (decide (tid < length (alter timer_cancel_obj (timer e) ts))%nat) as [Hlt|Hge].
  - rewrite lookup_app_l in Ht by done.
    destruct (owned_after_cancel p ts k e tid t Ho He Ht Ha) as (_ & Hk & e' & He' & Hid).
    exists e'. by rewrite lookup_insert_ne.
  - rewrite lookup_app_r in Ht by lia.
    destruct (tid - _)%nat as [|n] eqn:Hn; simpl in Ht; [|by destruct n].
    injection Ht as <-. unfold timer_key. simpl. destruct k as [c u]. simpl.
    rewrite lookup_insert_eq. eexists. split; [done|]. simpl. lia.
Qed.

Lemma owned_fired p ts tid : owned p ts -> owned p (alter (set_status Fired) tid ts).
Proof.
  intros Ho tid' t' Ht Ha.
  destruct (decide (tid = tid')) as [<-|Hne].
  - rewrite list_lookup_alter_eq in Ht.
    destruct (ts !! tid); simpl in Ht; [|done]. by injection Ht as <-.
  - rewrite list_lookup_alter_ne in Ht by done. by apply Ho.
Qed.

Lemma owned_expired p ts tid t :
  owned p ts -> ts !! tid = Some t -> status t = Armed ->
  owned (delete (timer_key t) p) (alter (set_status Fired) tid ts).
Proof.
  intros Ho Ht Ha tid' t' Ht' Ha'.
  destruct (decide (tid = tid')) as [<-|Hne].
  { rewrite list_lookup_alter_eq, Ht in Ht'. simpl in Ht'. by injection Ht' as <-. }
  rewrite list_lookup_alter_ne in Ht' by done.
  destruct (Ho tid' t' Ht' Ha') as (e' & He' & Hid').
  destruct (Ho tid t Ht Ha) as (e & He & Hid).
  exists e'. rewrite lookup_delete_ne; [done|].
  intros Hk. rewrite Hk, He' in He. injection He as <-. congruence.
Qed.

Section Ownership.
Context `{PyBuiltins}.

Lemma handle_text_message_owned now upd gw s :
  timers_owned s -> timers_owned (state_of (handle_text_message now upd gw s)).
Proof.
  unfold timers_owned. intros Ho. io_simpl. io_cases; try done.
  rewrite alter_snoc. simpl.
  apply andb_true_iff in Heqb0 as [Hnone _]. apply bool_decide_eq_true in Hnone.
  by apply (owned_text _ _ (m_chat_id m, u_id u)).
Qed.

Lemma _handle_new_member_owned now chat_id user_id user_name gw s :
  timers_owned s ->
  timers_owned (state_of (_handle_new_member now chat_id user_id user_name gw s)).
Proof.
  unfold timers_owned. intros Ho.
  destruct (bot_paused s) eqn:Hp; [io_simpl; rewrite Hp; simpl; by io_cases|].
  destruct (interaction_mode s) eqn:Hi; [io_simpl; rewrite Hp, Hi; simpl; by io_cases|].
  destruct (_handle_new_member_arms now chat_id user_id user_name gw s Hp Hi) as [-> ->].
  destruct (pending_users s !! (chat_id, user_id)) as [e|] eqn:He.
  - by apply (owned_join _ _ (chat_id, user_id)).
  - by apply (owned_text _ _ (chat_id, user_id)).
Qed.

Lemma handle_video_message_owned now upd gw s :
  timers_owned s -> timers_owned (state_of (handle_video_message now upd gw s)).
Proof.
  unfold timers_owned. intros Ho. io_simpl. io_cases; try done.
  all: by apply owned_video.
Qed.

Lemma timer_expiry_owned tid gw s :
  timers_owned s -> timers_owned (state_of (timer_expiry tid gw s)).
Proof.
  unfold timers_owned. intros Ho. io_simpl. io_cases; try done.
  all: try (by apply owned_fired).
  all: by apply (owned_expired _ _ tid t).
Qed.

Lemma handle_owned now e gw s :
  timers_owned s -> timers_owned (state_of (handle now e gw s)).
Proof.
  intros Ho. destruct e; simpl.
  - by apply _handle_new_member_owned.
  - rewrite try_except_state. apply handle_new_members_loop_keeps; [|done].
    intros. by apply _handle_new_member_owned.
  - by apply handle_video_message_owned.
  - by apply handle_text_message_owned.
  - unfold timers_owned in *. io_simpl. by io_cases.
  - by apply timer_expiry_owned.
  - unfold timers_owned in *. io_simpl. by io_cases.
  - unfold timers_owned in *. io_simpl. by io_cases.
  - unfold timers_owned in *. io_simpl. by io_cases.
  - unfold timers_owned in *. io_simpl. by io_cases.
  - unfold timers_owned in *. io_simpl. by io_cases.
  - unfold timers_owned in *. io_simpl. by io_cases.
  - unfold timers_owned in *. io_simpl. by io_cases.
  - unfold timers_owned in *. io_simpl. by io_cases.
  - unfold timers_owned in *. io_simpl. by io_cases.
Qed.

Lemma init_owned timeout : timers_owned (init timeout).
Proof. intros tid t Ht. done. Qed.

Lemma run_owned s ds : timers_owned s -> timers_owned (run s ds).
Proof.
  revert s. induction ds as [|d ds IH]; intros s Ho; simpl; [done|].
  apply IH. by apply handle_owned.
Qed.

End Ownership.

(** ** At most one live timer per key *)

Lemma live_for_spec s k tid :
  live_for s k tid = true <->
  exists t, timers s !! tid = Some t /\ status t = Armed /\ timer_key t = k.
Proof.
  unfold live_for, live. split.
  - destruct (timers s !! tid) as [t|]; [|done].
    intros [Hl Hk]%andb_true_iff. apply bool_decide_eq_true in Hk.
    exists t. by destruct (status t).
  - intros (t & -> & -> & Hk). by rewrite bool_decide_true.
Qed.

Lemma live_timers_spec s k tid :
  In tid (live_timers s k) <->
  exists t, timers s !! tid = Some t /\ status t = Armed /\ timer_key t = k.
Proof.
  unfold live_timers. rewrite filter_In, <-live_for_spec. split; [tauto|].
  intros Hl. split; [|done].
  apply live_for_spec in Hl as (t & Ht & _).
  apply in_seq. apply lookup_lt_Some in Ht. lia.
Qed.

Lemma NoDup_all_equal_length {A} (l : list A) :
  List.NoDup l -> (forall x y, In x l -> In y l -> x = y) -> (length l <= 1)%nat.
Proof.
  intros Hnd Heq. destruct l as [|x [|y l]]; simpl; [lia|lia|].
  exfalso. assert (x = y) as -> by (apply Heq; simpl; auto).
  inversion Hnd as [|? ? Hnin _]. apply Hnin. simpl. auto.
Qed.

Lemma timers_owned_at_most_one s : timers_owned s -> at_most_one_live_timer s.
Proof.
  intros Ho k. apply NoDup_all_equal_length.
  - unfold live_timers. apply List.NoDup_filter, seq_NoDup.
  - intros x y (tx & Hx & Hax & Hkx)%live_timers_spec (ty & Hy & Hay & Hky)%live_timers_spec.
    destruct (Ho x tx Hx Hax) as (ex & Hex & <-).
    destruct (Ho y ty Hy Hay) as (ey & Hey & <-).
    rewrite Hkx in Hex. rewrite Hky in Hey. congruence.
Qed.

Lemma filter_none {A} (f : A -> bool) l :
  (forall x, In x l -> f x = false) -> List.filter f l = [].
Proof.
  induction l as [|x l IH]; simpl; intros Hf; [done|].
  rewrite (Hf x) by auto. apply IH. auto.
Qed.

(** The armed timers of a key after a timer was appended for it. *)
Lemma live_timers_snoc s s' k t :
  timers s' = timers s ++ [t] ->
  status t = Armed -> timer_key t = k ->
  (forall tid t0, timers s !! tid = Some t0 -> status t0 = Armed -> timer_key t0 ≠ k) ->
  live_timers s' k = [length (timers s)].
Proof.
  intros Hts Ha Hk Hfree. unfold live_timers.
  rewrite Hts, length_app. simpl.
  rewrite Nat.add_1_r, seq_S, List.filter_app. simpl.
  assert (List.filter (live_for s' k) (seq 0 (length (timers s))) = []) as ->.
  { apply filter_none. intros tid Hin%in_seq.
    destruct (live_for s' k tid) eqn:Hl; [|done].
    apply live_for_spec in Hl as (t0 & Ht0 & Ha0 & Hk0).
    rewrite Hts, lookup_app_l in Ht0 by lia.
    by destruct (Hfree tid t0 Ht0 Ha0). }
  assert (live_for s' k (length (timers s)) = true) as ->; [|done].
  apply live_for_spec. exists t. rewrite Hts.
  by rewrite lookup_snoc_length.
Qed.

Section FirstInteraction.
Context `{PyBuiltins}.

Lemma handle_text_message_creates now m u gw s :
  interaction_mode s = true ->
  bot_paused s = false ->
  m_from_user m = Some u ->
  pending_users s !! (m_chat_id m, u_id u) = None ->
  (m_chat_id m, u_id u) ∉ verified_users s ->
  let r := handle_text_message now (Some m) gw s in
  pending_users (state_of r)
    = <[(m_chat_id m, u_id u) :=
          {| timer := length (timers s); join_time := now; user_name := u_full_name u |}]>
        (pending_users s) /\
  timers (state_of r)
    = timers s ++ [ {| interval := timeout_seconds s; t_chat_id := m_chat_id m;
                       t_user_id := u_id u; t_user_name := u_full_name u;
                       status := Armed |} ] /\
  verified_users (state_of r) = verified_users s /\
  trace_of r = [SendMessage (m_chat_id m) (ReminderNotice (u_full_name u) (timeout_seconds s))].
Proof.
  intros Hi Hp Hu Hnone Hv. io_simpl. rewrite Hi, Hp, Hu. simpl.
  rewrite Hnone. rewrite bool_decide_true by done. rewrite bool_decide_true by done.
  simpl. rewrite alter_snoc. by io_cases.
Qed.

Lemma handle_text_message_tracked now m u gw s :
  m_from_user m = Some u ->
  pending_users s !! (m_chat_id m, u_id u) ≠ None ->
  handle_text_message now (Some m) gw s = (Ok tt, s, []).
Proof.
  intros Hu Hsome. io_simpl.
  destruct (negb (interaction_mode s) || bot_paused s); simpl; [done|].
  rewrite Hu. simpl.
  rewrite (bool_decide_false (pending_users s !! (m_chat_id m, u_id u) = None)) by done.
  by io_cases.
Qed.

Lemma handle_text_message_verified now m u gw s :
  m_from_user m = Some u ->
  (m_chat_id m, u_id u) ∈ verified_users s ->
  handle_text_message now (Some m) gw s = (Ok tt, s, []).
Proof.
  intros Hu Hv. io_simpl.
  destruct (negb (interaction_mode s) || bot_paused s); simpl; [done|].
  rewrite Hu. simpl.
  rewrite (bool_decide_false ((m_chat_id m, u_id u) ∉ verified_users s))
    by (intros Hn; by apply Hn).
  rewrite andb_false_r. by io_cases.
Qed.

Lemma duplicates_noop k s dups :
  pending_users s !! k ≠ None ->
  forallb (is_text_from k) dups = true ->
  run s dups = s /\ run_trace s dups = [].
Proof.
  intros Hk. induction dups as [|d dups IH]; simpl; [done|].
  intros [Hd Hds]%andb_true_iff.
  unfold is_text_from in Hd. destruct d as [now gw e]. simpl in *.
  destruct e as [| |?|[m|]| | | | | | | | | | |]; try done.
  destruct (m_from_user m) as [u|] eqn:Hu; [|done].
  apply bool_decide_eq_true in Hd. subst k.
  unfold step. simpl. rewrite (handle_text_message_tracked now m u gw s Hu Hk).
  simpl. by apply IH.
Qed.

(** As long as no handler comes between the two blocks of a timer thread,
    that is in the states of [run]: with interaction mode on and the bot
    not paused, the first text message of a user who is neither pending nor
    verified creates the pending entry of the key and arms one timer for
    it, the only live timer of the key; further text messages of the same
    key, however many, change nothing and call nothing; and whatever events
    follow, each key has at most one live timer. *)
Lemma first_interaction_arms_one_timer timeout ds now m u gw :
  let s := run (init timeout) ds in
  let k := (m_chat_id m, u_id u) in
  interaction_mode s = true ->
  bot_paused s = false ->
  m_from_user m = Some u ->
  pending_users s !! k = None ->
  k ∉ verified_users s ->
  let s' := state_of (handle_text_message now (Some m) gw s) in
  pending_users s' !! k
    = Some {| timer := length (timers s); join_time := now; user_name := u_full_name u |} /\
  (forall k', k' ≠ k -> pending_users s' !! k' = pending_users s !! k') /\
  timers s' = timers s ++ [ {| interval := timeout_seconds s; t_chat_id := m_chat_id m;
                               t_user_id := u_id u; t_user_name := u_full_name u;
                               status := Armed |} ] /\
  live_timers s' k = [length (timers s)] /\
  (forall dups, forallb (is_text_from k) dups = true ->
     run s' dups = s' /\ run_trace s' dups = [] /\ live_timers (run s' dups) k = [length (timers s)]) /\
  (forall ds', at_most_one_live_timer (run s' ds')) /\
  (forall timeout' ds', at_most_one_live_timer (run (init timeout') ds')).
Proof.
  intros s k Hi Hp Hu Hnone Hv s'.
  assert (Ho : timers_owned s) by apply run_owned, init_owned.
  destruct (handle_text_message_creates now m u gw s Hi Hp Hu Hnone Hv) as (Hpend & Htim & _ & _).
  fold s' in Hpend, Htim. fold k in Hpend.
  assert (Hlive : live_timers s' k = [length (timers s)]).
  { eapply live_timers_snoc; [exact Htim|done|done|].
    intros tid t0 Ht0 Ha0 Hk0. destruct (Ho tid t0 Ht0 Ha0) as (e & He & _).
    rewrite Hk0 in He. fold k in Hnone. congruence. }
  split; [by rewrite Hpend, lookup_insert_eq|].
  split; [intros k' Hne; by rewrite Hpend, lookup_insert_ne|].
  split; [done|]. split; [done|].
  split.
  { intros dups Hd.
    destruct (duplicates_noop k s' dups) as [Hrun Htr]; [|done|].
    - by rewrite Hpend, lookup_insert_eq.
    - by rewrite Hrun. }
  split.
  - intros ds'. apply timers_owned_at_most_one, run_owned.
    subst s'. by apply handle_text_message_owned.
  - intros timeout' ds'. apply timers_owned_at_most_one, run_owned, init_owned.
Qed.

End FirstInteraction.

Example first_interaction_example :
  let ds := [ {| at_time := 0; api := all_ok; what := InteractionMode (Some "creator"%string) |} ] in
  let s := @run ascii_builtins (init 30) ds in
  let m := msg_from 1 2 "bob" (Some "hello"%string) in
  let s' := state_of (handle_text_message 5 (Some m) all_ok s) in
  (interaction_mode s = true /\ bot_paused s = false /\ pending_users s !! (1, 2) = None) /\
  pending_users s' !! (1, 2) = Some {| timer := 0%nat; join_time := 5; user_name := "bob" |} /\
  live_timers s' (1, 2) = [0%nat].
Proof. cbv zeta. repeat split; reflexivity. Qed.

(** ** A cancel that comes too late

    [cancel()] stops a timer that is still waiting.  Once the timer thread
    has found [finished] unset, the callback runs whatever happens to the
    timer object, and it deletes the entry it finds under the key, its own
    or a newer one. *)

(** [Wakes] followed at once by [Calls] is the expiry of [run]. *)
Lemma wakes_then_calls `{PyBuiltins} w tid gw :
  tid ∉ woken w ->
  the_bot (act (act w (Wakes tid)) (Calls tid gw))
  = step (the_bot w) {| at_time := 0; api := gw; what := TimerExpiry tid |}.
Proof.
  intros Hw. unfold step. simpl. io_unfold.
  destruct (timers (the_bot w) !! tid) as [t|] eqn:Ht; simpl.
  - destruct (status t) eqn:Hs; simpl.
    2: { rewrite bool_decide_true by set_solver.
         rewrite list_lookup_alter_eq, Ht. simpl.
         by io_cases. }
    all: by rewrite bool_decide_false.
  - by rewrite bool_decide_false.
Qed.

(** C3. The code cancels the timer of an entry it replaces, so as to
    keep one timer per key, and misses when the cancel comes after the
    timer thread has passed its test.  A user joins (timer 0); the wait of
    timer 0 ends; the user joins again before the callback has the lock:
    timer 0 is cancelled too late and timer 1 armed; the callback of timer 0
    deletes the new entry.  The key now has no entry, is not verified, and
    timer 1 is armed.  With interaction mode switched on, the first text
    message of the user finds no entry and arms timer 2: the key has two
    live timers.  A third join does the same. *)
Theorem C3_late_cancel_leaves_two_live_timers :
  let join now := Deliver {| at_time := now; api := all_ok; what := NewMember 1 2 "bob" |} in
  let interaction :=
    Deliver {| at_time := 2; api := all_ok; what := InteractionMode (Some "creator"%string) |} in
  let w := @run_actions ascii_builtins (start_world (init 30))
             [join 0; Wakes 0%nat; join 1; Calls 0%nat all_ok; interaction] in
  let s := the_bot w in
  let s' := state_of (handle_text_message 3
                        (Some (msg_from 1 2 "bob" (Some "hello"%string))) all_ok s) in
  (interaction_mode s = true /\ bot_paused s = false /\
   pending_users s !! (1, 2) = None /\ verified_users s = ∅ /\ woken w = []) /\
  pending_users s' !! (1, 2) = Some {| timer := 2%nat; join_time := 3; user_name := "bob" |} /\
  live_timers s' (1, 2) = [1; 2]%nat /\
  ~ at_most_one_live_timer s' /\
  live_timers
    (the_bot (@run_actions ascii_builtins (start_world (init 30))
                [join 0; Wakes 0%nat; join 1; Calls 0%nat all_ok; join 2])) (1, 2)
  = [1; 2]%nat.
Proof.
  cbv zeta. split; [by repeat split|].
  split; [reflexivity|]. split; [reflexivity|]. split; [|reflexivity].
  intros Hone. specialize (Hone (1, 2)). vm_compute in Hone. lia.
Qed.

(** ** Verified users *)

Section Verified.
Context `{PyBuiltins}.

Lemma _handle_new_member_verified now chat_id user_id user_name gw s :
  verified_users (state_of (_handle_new_member now chat_id user_id user_name gw s))
  = verified_users s.
Proof. io_simpl. by io_cases. Qed.

(** [verified_users] only grows. *)
Lemma handle_verified_mono now e gw s k :
  k ∈ verified_users s -> k ∈ verified_users (state_of (handle now e gw s)).
Proof.
  intros Hk. destruct e; simpl.
  2: { rewrite try_except_state.
       apply (handle_new_members_loop_keeps (fun s0 => k ∈ verified_users s0)); [|done].
       intros u n s0 Hs0. by rewrite _handle_new_member_verified. }
  all: io_simpl; io_cases; simpl; try done.
  all: set_solver.
Qed.

Lemma run_verified_mono ds s k : k ∈ verified_users s -> k ∈ verified_users (run s ds).
Proof.
  revert s. induction ds as [|d ds IH]; intros s Hk; simpl; [done|].
  apply IH. by apply handle_verified_mono.
Qed.

Lemma _kick_user_timeout_verified chat_id user_id user_name gw s :
  (chat_id, user_id) ∈ verified_users s ->
  let r := _kick_user_timeout chat_id user_id user_name gw s in
  trace_of r = [] /\
  state_of r = set_pending_users (delete (chat_id, user_id) (pending_users s)) s.
Proof.
  intros Hv. io_simpl.
  destruct (pending_users s !! (chat_id, user_id)) eqn:He; simpl.
  - rewrite decide_True by done. done.
  - split; [done|]. rewrite delete_id by done. by destruct s.
Qed.

End Verified.

(** C2, as the code has it: [_handle_new_member] never looks at
    [verified_users].  Bob joins chat 1 and posts a video after 8 seconds,
    which verifies him; a minute later he rejoins, and the bot creates a
    pending entry for him and arms timer 1. *)
Lemma C2_counterexample :
  let s := @run ascii_builtins (init 30)
             [ {| at_time := 0; api := all_ok; what := NewMember 1 2 "bob" |};
               {| at_time := 8000000; api := all_ok;
                  what := VideoMessage (Some (msg_from 1 2 "bob" None)) |} ] in
  let s' := state_of (@_handle_new_member ascii_builtins 60000000 1 2 "bob" all_ok s) in
  (1, 2) ∈ verified_users s /\
  pending_users s !! (1, 2) = None /\
  live_timers s (1, 2) = [] /\
  pending_users s' !! (1, 2)
    = Some {| timer := 1%nat; join_time := 60000000; user_name := "bob" |} /\
  timers s' !! 1%nat
    = Some {| interval := 30; t_chat_id := 1; t_user_id := 2; t_user_name := "bob";
              status := Armed |} /\
  live_timers s' (1, 2) = [1%nat].
Proof.
  cbv zeta. split; [|repeat split; reflexivity].
  apply (bool_decide_unpack _). by vm_compute.
Qed.

Section VerifiedClaim.
Context `{PyBuiltins}.

(** C2, amended. A verified key stays verified through every event.
    From then on a text message of that user never creates a pending entry
    or arms a timer, and a timer callback for the key calls nothing and
    counts no kick; but a join of that user, with the bot active and
    interaction mode off, does create a pending entry and arm a timer
    for the key. *)
Theorem C2_verified_key_not_kicked_but_rearmed_on_join k s :
  k ∈ verified_users s ->
  (forall ds, k ∈ verified_users (run s ds)) /\
  (forall now m u gw,
     m_from_user m = Some u -> (m_chat_id m, u_id u) = k ->
     handle_text_message now (Some m) gw s = (Ok tt, s, [])) /\
  (forall user_name gw,
     let r := _kick_user_timeout k.1 k.2 user_name gw s in
     trace_of r = [] /\ stats (state_of r) = stats s /\ timers (state_of r) = timers s) /\
  (forall now user_name gw,
     bot_paused s = false -> interaction_mode s = false ->
     let s' := state_of (_handle_new_member now k.1 k.2 user_name gw s) in
     k ∈ verified_users s' /\
     pending_users s' !! k
       = Some {| timer := length (timers s); join_time := now; user_name := user_name |} /\
     timers s' !! length (timers s)
       = Some {| interval := timeout_seconds s; t_chat_id := k.1; t_user_id := k.2;
                 t_user_name := user_name; status := Armed |}).
Proof.
  intros Hk. destruct k as [chat_id user_id]. simpl.
  split; [intros ds; by apply run_verified_mono|].
  split.
  { intros now m u gw Hu Heq. apply (handle_text_message_verified now m u gw s Hu).
    by rewrite Heq. }
  split.
  { intros user_name gw.
    destruct (_kick_user_timeout_verified chat_id user_id user_name gw s Hk) as [Htr Hst].
    by rewrite Htr, Hst. }
  intros now user_name gw Hp Hi.
  destruct (_handle_new_member_arms now chat_id user_id user_name gw s Hp Hi) as [Hpend Htim].
  split; [by rewrite _handle_new_member_verified|].
  split; [by rewrite Hpend, lookup_insert_eq|].
  rewrite Htim. apply lookup_snoc_length. case_match; by rewrite ?length_alter.
Qed.

End VerifiedClaim.

Lemma C2_verified_key_witness :
  let s := @run ascii_builtins (init 30)
             [ {| at_time := 0; api := all_ok; what := NewMember 1 2 "bob" |};
               {| at_time := 8000000; api := all_ok;
                  what := VideoMessage (Some (msg_from 1 2 "bob" None)) |} ] in
  (1, 2) ∈ verified_users s /\
  trace_of (_kick_user_timeout 1 2 "bob" all_ok s) = [] /\
  handle_text_message 9000000 (Some (msg_from 1 2 "bob" (Some "hi"%string))) all_ok s
    = (Ok tt, s, []).
Proof.
  cbv zeta.
  assert (Hv : (1, 2) ∈ verified_users (@run ascii_builtins (init 30)
             [ {| at_time := 0; api := all_ok; what := NewMember 1 2 "bob" |};
               {| at_time := 8000000; api := all_ok;
                  what := VideoMessage (Some (msg_from 1 2 "bob" None)) |} ])).
  { apply (bool_decide_unpack _). by vm_compute. }
  split; [exact Hv|].
  destruct (@C2_verified_key_not_kicked_but_rearmed_on_join ascii_builtins (1, 2) _ Hv)
    as (_ & Htext & Hkick & _).
  split.
  - exact (proj1 (Hkick "bob"%string all_ok)).
  - exact (Htext 9000000 (msg_from 1 2 "bob" (Some "hi"%string))
             {| u_id := 2; u_username := None; u_full_name := "bob"; u_is_bot := false |}
             all_ok eq_refl eq_refl).
Defined.

(** ** The race between video posts and timer callbacks *)

Lemma verify_pending_pending now k gw s :
  pending_users (state_of (verify_pending now k gw s)) = delete k (pending_users s).
Proof.
  io_simpl. io_cases; simpl; try done.
  all: by rewrite delete_id.
Qed.

Lemma verify_pending_present now k gw s e :
  pending_users s !! k = Some e ->
  exists points, value_of (verify_pending now k gw s) = Ok (Some (now - join_time e, points)).
Proof.
  intros He. destruct (reward_system_enabled s) eqn:Hr.
  - eexists. by apply verify_pending_rewards.
  - eexists. by apply verify_pending_no_rewards.
Qed.

Lemma verify_pending_absent now k gw s :
  pending_users s !! k = None -> verify_pending now k gw s = (Ok None, s, []).
Proof. intros He. io_simpl. by rewrite He. Qed.

Lemma _kick_user_timeout_unlocked_pending chat_id user_id user_name gw s :
  pending_users (state_of (try_except (_kick_user_timeout_unlocked chat_id user_id user_name) gw s))
  = pending_users s.
Proof. io_simpl. by io_cases. Qed.

Section Race.
Context (chat_id user_id : Z).
Local Abbreviation k := (chat_id, user_id).

Lemma thread_step_first th s :
  initial th = true ->
  pending_users s !! k <> None ->
  winner (thread_step chat_id user_id th s).1 = true /\
  pending_users (thread_step chat_id user_id th s).2 !! k = None.
Proof.
  intros Hi Hk. destruct (pending_users s !! k) as [e|] eqn:He; [|done].
  destruct th as [now name gw|name gw| |]; try discriminate.
  - destruct (verify_pending_present now k gw s e He) as [points Hv].
    pose proof (verify_pending_pending now k gw s) as Hp.
    unfold thread_step, value_of in *. unfold state_of in Hp.
    destruct (verify_pending now k gw s) as [[r s1] t1]. cbn [fst snd] in *. subst r.
    cbn [fst snd]. split; [done|].
    rewrite send_success_state, Hp. apply lookup_delete_eq.
  - simpl. io_simpl. rewrite He. simpl. split; [done|]. apply lookup_delete_eq.
Qed.

Lemma thread_step_late th s :
  initial th = true ->
  pending_users s !! k = None ->
  thread_step chat_id user_id th s = (Finished NoOp, s).
Proof.
  intros Hi Hk. destruct th as [now name gw|name gw| |]; try discriminate; simpl.
  - rewrite verify_pending_absent by done. done.
  - io_simpl. by rewrite Hk.
Qed.

Lemma thread_step_unlocked name gw s :
  (thread_step chat_id user_id (TimerUnlocked name gw) s).1 = Finished Expired /\
  pending_users (thread_step chat_id user_id (TimerUnlocked name gw) s).2 = pending_users s.
Proof. simpl. split; [done|]. apply _kick_user_timeout_unlocked_pending. Qed.

Lemma thread_step_winner th s :
  winner th = true -> winner (thread_step chat_id user_id th s).1 = true.
Proof. by destruct th as [| | |[]]. Qed.

Lemma thread_step_steps_left th s :
  (steps_left (thread_step chat_id user_id th s).1 <= steps_left th - 1)%nat.
Proof.
  destruct th as [now name gw|name gw|name gw|o]; simpl.
  - destruct (verify_pending _ _ _ _) as [[[?|] ?] ?]; simpl; lia.
  - destruct (_kick_user_timeout_locked _ _ _) as [[[[]|] ?] ?]; simpl; lia.
  - lia.
  - lia.
Qed.

End Race.

Lemma winners_insert pool i th th' :
  pool !! i = Some th ->
  (winners (<[i := th']> pool) + (if winner th then 1 else 0)
   = winners pool + (if winner th' then 1 else 0))%nat.
Proof.
  unfold winners. revert i. induction pool as [|x pool IH]; intros i Hi; [done|].
  destruct i as [|i]; simpl in *.
  - injection Hi as ->. destruct (winner th), (winner th'); simpl; lia.
  - specialize (IH i Hi). destruct (winner x); simpl; lia.
Qed.

Lemma winners_initial pool : forallb initial pool = true -> winners pool = 0%nat.
Proof.
  unfold winners. induction pool as [|x pool IH]; simpl; [done|].
  intros [Hx Hp]%andb_true_iff. by destruct x; try discriminate; simpl; apply IH.
Qed.

Lemma forallb_insert_initial pool i (th : thread) :
  forallb initial pool = true -> pool !! i = Some th -> initial th = true.
Proof.
  intros Hall Hi. rewrite forallb_forall in Hall. apply Hall.
  apply list_elem_of_In. by eapply list_elem_of_lookup_2.
Qed.

Section Schedules.
Context (chat_id user_id : Z).
Local Abbreviation k := (chat_id, user_id).
Local Abbreviation sched_step' := (sched_step chat_id user_id).
Local Abbreviation run_sched' := (run_sched chat_id user_id).

Lemma sched_step_length ps i : length (sched_step' ps i).1 = length ps.1.
Proof.
  unfold sched_step. destruct (ps.1 !! i); [|done].
  destruct (thread_step _ _ _ _). simpl. apply length_insert.
Qed.

Lemma run_sched_length pool s sched : length (run_sched' pool s sched).1 = length pool.
Proof.
  unfold run_sched. revert pool s.
  induction sched as [|i sched IH]; intros pool s; simpl; [done|].
  destruct (sched_step' (pool, s) i) as [pool1 s1] eqn:E.
  pose proof (sched_step_length (pool, s) i) as Hl. rewrite E in Hl. simpl in Hl.
  by rewrite IH.
Qed.

Lemma sched_step_inv ps i : race_inv k ps -> race_inv k (sched_step' ps i).
Proof.
  destruct ps as [pool s]. unfold race_inv, sched_step. simpl.
  destruct (pool !! i) as [th|] eqn:Hi; [|done].
  destruct (thread_step chat_id user_id th s) as [th' s'] eqn:Hstep. simpl.
  intros [[Hk Hall]|[Hk Hone]].
  - right. pose proof (forallb_insert_initial pool i th Hall Hi) as Hinit.
    destruct (thread_step_first chat_id user_id th s Hinit Hk) as [Hw Hgone].
    rewrite Hstep in Hw, Hgone. simpl in *. split; [done|].
    pose proof (winners_insert pool i th th' Hi) as Hcount.
    rewrite Hw, (winners_initial pool Hall) in Hcount.
    destruct th; try discriminate; simpl in *; lia.
  - right. pose proof (winners_insert pool i th th' Hi) as Hcount.
    destruct (initial th) eqn:Hinit.
    + rewrite (thread_step_late chat_id user_id th s Hinit Hk) in Hstep.
      injection Hstep as <- <-. split; [done|].
      destruct th; try discriminate; simpl in *; lia.
    + destruct th as [| |name gw|o]; try discriminate.
      * destruct (thread_step_unlocked chat_id user_id name gw s) as [Hth Hp].
        rewrite Hstep in Hth, Hp. simpl in *. subst th'.
        rewrite Hp. split; [done|]. simpl in *. lia.
      * simpl in Hstep. injection Hstep as <- <-. split; [done|].
        destruct (winner (Finished o)); lia.
Qed.

Lemma run_sched_inv pool s sched :
  race_inv k (pool, s) -> race_inv k (run_sched' pool s sched).
Proof.
  unfold run_sched. revert pool s.
  induction sched as [|i sched IH]; intros pool s Hinv; simpl; [done|].
  destruct (sched_step' (pool, s) i) as [pool1 s1] eqn:E.
  apply IH. rewrite <-E. by apply sched_step_inv.
Qed.

(** A thread that has the entry keeps it. *)
Lemma run_sched_winner pool s sched i th :
  pool !! i = Some th -> winner th = true ->
  exists th', (run_sched' pool s sched).1 !! i = Some th' /\ winner th' = true.
Proof.
  unfold run_sched. revert pool s th.
  induction sched as [|j sched IH]; intros pool s th Hi Hw; simpl; [by eauto|].
  unfold sched_step at 2. simpl.
  destruct (pool !! j) as [thj|] eqn:Hj; [|by eapply IH].
  destruct (thread_step chat_id user_id thj s) as [thj' s'] eqn:Hstep.
  destruct (decide (j = i)) as [->|Hne].
  - eapply (IH _ _ thj').
    + apply list_lookup_insert_eq. by eapply lookup_lt_Some.
    + rewrite Hi in Hj. injection Hj as <-.
      pose proof (thread_step_winner chat_id user_id th s Hw) as Hw'.
      by rewrite Hstep in Hw'.
  - eapply (IH _ _ th); [|done]. by rewrite list_lookup_insert_ne.
Qed.

(** Each time a thread is scheduled it has one step less to take. *)
Lemma run_sched_steps_left pool s sched i th :
  pool !! i = Some th ->
  exists th', (run_sched' pool s sched).1 !! i = Some th' /\
    (steps_left th' <= steps_left th - count_occ Nat.eq_dec sched i)%nat.
Proof.
  unfold run_sched. revert pool s th.
  induction sched as [|j sched IH]; intros pool s th Hi; simpl.
  { exists th. split; [done|lia]. }
  unfold sched_step at 2. simpl.
  destruct (pool !! j) as [thj|] eqn:Hj.
  - destruct (thread_step chat_id user_id thj s) as [thj' s'] eqn:Hstep.
    destruct (Nat.eq_dec j i) as [->|Hne].
    + rewrite Hi in Hj. injection Hj as <-.
      destruct (IH (<[i := thj']> pool) s' thj') as (th' & Hth' & Hle).
      { apply list_lookup_insert_eq. by eapply lookup_lt_Some. }
      exists th'. split; [done|].
      pose proof (thread_step_steps_left chat_id user_id th s) as Hdec.
      rewrite Hstep in Hdec. simpl in Hdec. lia.
    + destruct (IH (<[j := thj']> pool) s' th) as (th' & Hth' & Hle).
      { by rewrite list_lookup_insert_ne. }
      by exists th'.
  - destruct (Nat.eq_dec j i) as [->|Hne]; [congruence|]. by apply IH.
Qed.

End Schedules.

(** The threads run the code of the handlers: the step of a video thread
    is [handle_video_message], the two steps of a timer thread are
    [_kick_user_timeout]. *)
Lemma thread_step_video_handler now m u gw s :
  m_from_user m = Some u ->
  (thread_step (m_chat_id m) (u_id u) (VideoPosted now (u_full_name u) gw) s).2
  = state_of (handle_video_message now (Some m) gw s).
Proof.
  intros Hu. unfold thread_step, handle_video_message. rewrite Hu.
  unfold state_of, try_except, mbind, io_mbind, io_bind.
  pose proof (verify_pending_trace now (m_chat_id m, u_id u) gw s) as Ht.
  destruct (pending_users s !! (m_chat_id m, u_id u)) as [e|] eqn:He.
  - destruct (verify_pending_present now _ gw s e He) as [points Hv].
    unfold value_of in Hv.
    destruct (verify_pending now (m_chat_id m, u_id u) gw s) as [[r s1] t1].
    simpl in Hv. subst r. cbn [fst snd].
    by destruct (send_success _ _ _ _ gw s1) as [[? ?] ?].
  - rewrite verify_pending_absent by done. done.
Qed.

Lemma thread_step_timer_handler chat_id user_id user_name gw s :
  let first := thread_step chat_id user_id (TimerFire user_name gw) s in
  let second := thread_step chat_id user_id first.1 first.2 in
  finished second.1 = true /\
  second.2 = state_of (_kick_user_timeout chat_id user_id user_name gw s).
Proof.
  cbv zeta. cbn [thread_step].
  unfold _kick_user_timeout, _kick_user_timeout_locked.
  unfold state_of, try_except, mbind, io_mbind, io_bind, get, modify, mret, io_mret, io_ret.
  destruct (pending_users s !! (chat_id, user_id)); cbn [fst snd thread_step finished].
  - split; [done|].
    unfold state_of, try_except.
    by destruct (_kick_user_timeout_unlocked _ _ _ _ _) as [[? ?] ?].
  - done.
Qed.

(** Without an entry for the key both handlers return at once: no state
    change, no API call. *)
Lemma handle_video_message_untracked now m u gw s :
  m_from_user m = Some u ->
  pending_users s !! (m_chat_id m, u_id u) = None ->
  handle_video_message now (Some m) gw s = (Ok tt, s, []).
Proof. intros Hu He. io_simpl. rewrite Hu. simpl. by rewrite He. Qed.

Lemma _kick_user_timeout_untracked chat_id user_id user_name gw s :
  pending_users s !! (chat_id, user_id) = None ->
  _kick_user_timeout chat_id user_id user_name gw s = (Ok tt, s, []).
Proof. intros He. io_simpl. by rewrite He. Qed.

Lemma finished_winner_or_noop pool :
  forallb finished pool = true ->
  (winners pool + length (List.filter noop pool) = length pool)%nat.
Proof.
  unfold winners. induction pool as [|th pool IH]; simpl; [done|].
  intros [Hth Hp]%andb_true_iff. specialize (IH Hp).
  destruct th as [| | |[]]; try discriminate; simpl; lia.
Qed.

(** C1. Take a key with a pending entry and any number of calls of
    [handle_video_message] and [_kick_user_timeout] on it, run as threads in
    any interleaving of their locked and unlocked blocks.  At every moment
    at most one call has found the entry; it is the call scheduled first,
    and it keeps that status to its end (Verified for a video post, Expired
    for a timer callback).  Once all calls have returned, exactly one of
    them has an outcome and all others are no-ops, and the entry is gone.
    A call that takes its first step when the entry is absent returns
    at once and leaves the bot as it was.  Every schedule that gives each
    call two turns lets all calls return.  The threads are the two
    handlers: the step of a video thread ends in the state in which
    [handle_video_message] ends, the two steps of a timer thread in the
    state in which [_kick_user_timeout] ends, from every state; and on a
    state without the entry each handler returns with the bot unchanged
    and without a single API call. *)
Theorem C1_exactly_one_call_takes_the_entry chat_id user_id pool s sched :
  pending_users s !! (chat_id, user_id) <> None ->
  forallb initial pool = true ->
  let pool' := (run_sched chat_id user_id pool s sched).1 in
  let s' := (run_sched chat_id user_id pool s sched).2 in
  (winners pool' <= 1)%nat /\
  (forall i rest, sched = i :: rest -> (i < length pool)%nat ->
     exists th, pool' !! i = Some th /\ winner th = true) /\
  (forallb finished pool' = true -> pool <> [] ->
     winners pool' = 1%nat /\
     length (List.filter noop pool') = (length pool - 1)%nat /\
     pending_users s' !! (chat_id, user_id) = None) /\
  ((forall i, (i < length pool)%nat -> (2 <= count_occ Nat.eq_dec sched i)%nat) ->
     forallb finished pool' = true) /\
  (forall th s0, initial th = true -> pending_users s0 !! (chat_id, user_id) = None ->
     thread_step chat_id user_id th s0 = (Finished NoOp, s0)) /\
  (forall now m u gw s0,
     m_from_user m = Some u -> m_chat_id m = chat_id -> u_id u = user_id ->
     (thread_step chat_id user_id (VideoPosted now (u_full_name u) gw) s0).2
       = state_of (handle_video_message now (Some m) gw s0) /\
     (pending_users s0 !! (chat_id, user_id) = None ->
        handle_video_message now (Some m) gw s0 = (Ok tt, s0, []))) /\
  (forall user_name gw s0,
     let first := thread_step chat_id user_id (TimerFire user_name gw) s0 in
     let second := thread_step chat_id user_id first.1 first.2 in
     finished second.1 = true /\
     second.2 = state_of (_kick_user_timeout chat_id user_id user_name gw s0) /\
     (pending_users s0 !! (chat_id, user_id) = None ->
        _kick_user_timeout chat_id user_id user_name gw s0 = (Ok tt, s0, []))).
Proof.
  intros Hk Hinit. cbv zeta.
  assert (Hinv : race_inv (chat_id, user_id) (run_sched chat_id user_id pool s sched)).
  { apply run_sched_inv. left. by split. }
  pose proof (run_sched_length chat_id user_id pool s sched) as Hlen.
  split.
  { destruct Hinv as [[_ Hall]|[_ Hone]]; [rewrite winners_initial by done|]; lia. }
  split.
  { intros i rest -> Hi.
    destruct (lookup_lt_is_Some_2 pool i Hi) as [th Hth].
    unfold run_sched. simpl. unfold sched_step at 2. simpl. rewrite Hth.
    pose proof (forallb_insert_initial pool i th Hinit Hth) as Hith.
    destruct (thread_step_first chat_id user_id th s Hith Hk) as [Hw _].
    destruct (thread_step chat_id user_id th s) as [th1 s1]. simpl in Hw.
    apply (run_sched_winner chat_id user_id (<[i := th1]> pool) s1 rest i th1); [|done].
    by apply list_lookup_insert_eq. }
  split.
  { intros Hfin Hne.
    assert (Hone : pending_users (run_sched chat_id user_id pool s sched).2 !! (chat_id, user_id) = None
                   /\ winners (run_sched chat_id user_id pool s sched).1 = 1%nat).
    { destruct Hinv as [[_ Hall]|Hdone]; [|done]. exfalso.
      destruct (run_sched chat_id user_id pool s sched).1 as [|th rest] eqn:Hp.
      - destruct pool; [done|]. simpl in Hlen. lia.
      - simpl in Hfin, Hall.
        apply andb_true_iff in Hfin as [Hf _]. apply andb_true_iff in Hall as [Ha _].
        by destruct th. }
    destruct Hone as [Hgone Hone].
    pose proof (finished_winner_or_noop _ Hfin) as Hsum.
    repeat split; [done| |done]. lia. }
  split.
  { intros Hfair. apply forallb_forall. intros th Hin.
    apply list_elem_of_In, list_elem_of_lookup in Hin as [i Hi].
    assert (i < length pool)%nat as Hlt by (rewrite <-Hlen; by eapply lookup_lt_Some).
    destruct (lookup_lt_is_Some_2 pool i Hlt) as [th0 Hth0].
    destruct (run_sched_steps_left chat_id user_id pool s sched i th0 Hth0) as (th' & Hth' & Hle).
    rewrite Hi in Hth'. injection Hth' as <-.
    specialize (Hfair i Hlt).
    destruct th; try done; destruct th0; simpl in *; lia. }
  split; [intros th s0; apply thread_step_late|].
  split.
  - intros now m u gw s0 Hu <- <-.
    split; [by apply thread_step_video_handler|].
    by apply handle_video_message_untracked.
  - intros user_name gw s0.
    destruct (thread_step_timer_handler chat_id user_id user_name gw s0) as [Hfin Hst].
    split; [exact Hfin|]. split; [exact Hst|].
    apply _kick_user_timeout_untracked.
Qed.

Lemma C1_race_witness :
  let s := @run ascii_builtins (init 30)
             [ {| at_time := 0; api := all_ok; what := NewMember 1 2 "bob" |} ] in
  let pool := [ VideoPosted 29000000 "bob" all_ok; TimerFire "bob" all_ok ] in
  let m := msg_from 1 2 "bob" None in
  let timer_first := run_sched 1 2 pool s [1; 0; 1; 0]%nat in
  let video_first := run_sched 1 2 pool s [0; 1; 1; 0]%nat in
  pending_users s !! (1, 2) <> None /\
  (winners timer_first.1 = 1%nat /\
   handle_video_message 29000000 (Some m) all_ok timer_first.2 = (Ok tt, timer_first.2, [])) /\
  (winners video_first.1 = 1%nat /\
   _kick_user_timeout 1 2 "bob" all_ok video_first.2 = (Ok tt, video_first.2, [])) /\
  (thread_step 1 2 (VideoPosted 29000000 "bob" all_ok) s).2
  = state_of (handle_video_message 29000000 (Some m) all_ok s).
Proof.
  cbv zeta.
  assert (Hk : pending_users (@run ascii_builtins (init 30)
             [ {| at_time := 0; api := all_ok; what := NewMember 1 2 "bob" |} ]) !! (1, 2) <> None)
    by (vm_compute; discriminate).
  pose (u := {| u_id := 2; u_username := None; u_full_name := "bob"; u_is_bot := false |}).
  split; [exact Hk|]. split; [|split].
  - destruct (C1_exactly_one_call_takes_the_entry 1 2
                [ VideoPosted 29000000 "bob" all_ok; TimerFire "bob" all_ok ] _
                [1; 0; 1; 0]%nat Hk eq_refl) as (_ & _ & Hfin & _ & _ & Hvideo & _).
    destruct (Hfin eq_refl) as (Hone & _ & Hgone); [discriminate|].
    split; [exact Hone|].
    exact (proj2 (Hvideo 29000000 (msg_from 1 2 "bob" None) u all_ok _ eq_refl eq_refl eq_refl)
             Hgone).
  - destruct (C1_exactly_one_call_takes_the_entry 1 2
                [ VideoPosted 29000000 "bob" all_ok; TimerFire "bob" all_ok ] _
                [0; 1; 1; 0]%nat Hk eq_refl) as (_ & _ & Hfin & _ & _ & _ & Htimer).
    destruct (Hfin eq_refl) as (Hone & _ & Hgone); [discriminate|].
    split; [exact Hone|].
    destruct (Htimer "bob"%string all_ok
                (run_sched 1 2 [ VideoPosted 29000000 "bob" all_ok; TimerFire "bob" all_ok ]
                   (@run ascii_builtins (init 30)
                      [ {| at_time := 0; api := all_ok; what := NewMember 1 2 "bob" |} ])
                   [0; 1; 1; 0]%nat).2) as (_ & _ & Hnoop).
    exact (Hnoop Hgone).
  - destruct (C1_exactly_one_call_takes_the_entry 1 2
                [ VideoPosted 29000000 "bob" all_ok; TimerFire "bob" all_ok ] _
                [0; 1]%nat Hk eq_refl) as (_ & _ & _ & _ & _ & Hvideo & _).
    exact (proj1 (Hvideo 29000000 (msg_from 1 2 "bob" None) u all_ok _ eq_refl eq_refl eq_refl)).
Defined.

(** The two orders of the race, run: the timer first, then the video. *)
Example race_timer_first :
  let s := @run ascii_builtins (init 30)
             [ {| at_time := 0; api := all_ok; what := NewMember 1 2 "bob" |} ] in
  (run_sched 1 2 [ VideoPosted 29000000 "bob" all_ok; TimerFire "bob" all_ok ] s
     [1; 0; 1]%nat).1
  = [Finished NoOp; Finished Expired].
Proof. reflexivity. Qed.

Example race_video_first :
  let s := @run ascii_builtins (init 30)
             [ {| at_time := 0; api := all_ok; what := NewMember 1 2 "bob" |} ] in
  (run_sched 1 2 [ VideoPosted 29000000 "bob" all_ok; TimerFire "bob" all_ok ] s
     [0; 1]%nat).1
  = [Finished (Verified 29000000 50); Finished NoOp].
Proof. reflexivity. Qed.

(** * Further properties of the handlers *)

(** ** Who may change settings *)

Section Authorization.
Context `{PyBuiltins}.

(** X1. A settings command whose sender is not an administrator or the
    creator of the chat changes nothing and only answers that admins are
    required; when the membership query itself raises, the command changes
    nothing and answers nothing. *)
Theorem X1_settings_commands_need_admin now e member gw s :
  command_member e = Some member ->
  (forall role, member = Some role -> is_admin role = false) ->
  state_of (handle now e gw s) = s /\
  trace_of (handle now e gw s)
  = match member with Some _ => [ReplyText AdminOnly] | None => [] end.
Proof.
  intros He Hrole.
  destruct e; try discriminate; simpl in He; injection He as ->; simpl.
  all: destruct member as [role|]; [specialize (Hrole role eq_refl)|].
  all: io_simpl; rewrite ?Hrole; simpl; by io_cases.
Qed.

End Authorization.

Lemma X1_settings_commands_witness :
  is_admin "member" = false /\
  state_of (@handle ascii_builtins 0 (SetTimer (Some "member"%string) ["45"%string]) all_ok (init 30))
  = init 30 /\
  state_of (@handle ascii_builtins 0 (Pause (Some "left"%string)) all_ok (init 30)) = init 30.
Proof.
  split; [reflexivity|]. split.
  - apply (@X1_settings_commands_need_admin ascii_builtins 0
             (SetTimer (Some "member"%string) ["45"%string]) (Some "member"%string) all_ok (init 30)
             eq_refl).
    intros role [= <-]. reflexivity.
  - apply (@X1_settings_commands_need_admin ascii_builtins 0
             (Pause (Some "left"%string)) (Some "left"%string) all_ok (init 30) eq_refl).
    intros role [= <-]. reflexivity.
Defined.


(** ** Joins *)

Section JoinModes.
Context `{PyBuiltins}.

Lemma _handle_new_member_idle now chat_id user_id user_name gw s :
  bot_paused s = true \/ interaction_mode s = true ->
  state_of (_handle_new_member now chat_id user_id user_name gw s)
  = set_stats (incr_total_joins (stats s)) s /\
  trace_of (_handle_new_member now chat_id user_id user_name gw s)
  = [SendMessage chat_id (if bot_paused s then PausedWelcome user_name
                          else InteractionWelcome user_name)].
Proof.
  intros Hm. io_simpl. destruct (bot_paused s) eqn:Hp; simpl; [by io_cases|].
  destruct Hm as [|Hi]; [done|]. rewrite Hi. simpl. by io_cases.
Qed.

(** X2. While the bot is paused or in interaction mode a join is only
    counted and welcomed: nothing but [total_joins] changes, so no pending
    entry is created and no timer armed, and the one call is the welcome of
    that mode (the paused one when both hold). *)
Theorem X2_join_without_timer now chat_id user_id user_name gw s :
  bot_paused s = true \/ interaction_mode s = true ->
  let r := _handle_new_member now chat_id user_id user_name gw s in
  state_of r = set_stats (incr_total_joins (stats s)) s /\
  pending_users (state_of r) = pending_users s /\
  timers (state_of r) = timers s /\
  trace_of r = [SendMessage chat_id (if bot_paused s then PausedWelcome user_name
                                     else InteractionWelcome user_name)].
Proof.
  intros Hm.
  destruct (_handle_new_member_idle now chat_id user_id user_name gw s Hm) as [Hst Htr].
  cbv zeta. by rewrite Hst, Htr.
Qed.

(** X4. A welcome template that [format] rejects does not stop the
    verification: with the bot active and interaction mode off the entry is
    created and the timer armed as for any join, and no message is sent. *)
Theorem X4_join_with_malformed_template now chat_id user_id user_name gw s :
  bot_paused s = false ->
  interaction_mode s = false ->
  py_format (custom_welcome s) user_name (timeout_seconds s) = None ->
  let r := _handle_new_member now chat_id user_id user_name gw s in
  trace_of r = [] /\
  pending_users (state_of r) !! (chat_id, user_id)
    = Some {| timer := length (timers s); join_time := now; user_name := user_name |} /\
  timers (state_of r) !! length (timers s)
    = Some {| interval := timeout_seconds s; t_chat_id := chat_id; t_user_id := user_id;
              t_user_name := user_name; status := Armed |}.
Proof.
  intros Hp Hi Hf. cbv zeta.
  destruct (_handle_new_member_arms now chat_id user_id user_name gw s Hp Hi) as [Hpend Htim].
  split.
  { io_simpl. rewrite Hp, Hi. simpl. io_cases; simpl in *; congruence. }
  split; [by rewrite Hpend, lookup_insert_eq|].
  rewrite Htim. apply lookup_snoc_length. case_match; by rewrite ?length_alter.
Qed.

(** A join that arms: every attribute of the bot afterwards. *)
Lemma _handle_new_member_state now chat_id user_id user_name gw s :
  bot_paused s = false ->
  interaction_mode s = false ->
  state_of (_handle_new_member now chat_id user_id user_name gw s)
  = set_timers
      (match pending_users s !! (chat_id, user_id) with
       | Some e => alter timer_cancel_obj (timer e) (timers s)
       | None => timers s
       end ++ [ {| interval := timeout_seconds s; t_chat_id := chat_id;
                   t_user_id := user_id; t_user_name := user_name; status := Armed |} ])
      (set_pending_users
         (<[(chat_id, user_id) :=
              {| timer := length (timers s); join_time := now; user_name := user_name |}]>
            (pending_users s))
         (set_stats (incr_total_joins (stats s)) s)).
Proof.
  intros Hp Hi. destruct s. simpl in *. subst. io_simpl.
  io_cases; simpl; rewrite ?alter_snoc, ?length_alter; reflexivity.
Qed.

End JoinModes.

(** ** A verification session from its join to its end *)

Lemma handle_video_message_state now m u gw s e :
  m_from_user m = Some u ->
  pending_users s !! (m_chat_id m, u_id u) = Some e ->
  let s' := state_of (handle_video_message now (Some m) gw s) in
  pending_users s' = delete (m_chat_id m, u_id u) (pending_users s) /\
  verified_users s' = {[(m_chat_id m, u_id u)]} ∪ verified_users s /\
  timers s' = alter timer_cancel_obj (timer e) (timers s) /\
  stats s' = incr_users_verified (stats s).
Proof.
  intros Hu He. io_simpl. rewrite Hu. simpl. rewrite He. simpl. by io_cases.
Qed.

Lemma timer_expiry_finished tid t gw s :
  timers s !! tid = Some t -> status t <> Armed ->
  timer_expiry tid gw s = (Ok tt, s, []).
Proof. intros Ht Hs. io_simpl. rewrite Ht. by destruct (status t). Qed.

Section Sessions.
Context `{PyBuiltins}.

(** X5. A user who joins (bot active, interaction mode off) and then
    posts a video is verified: the entry is gone, the key is in
    [verified_users], [users_verified] is one higher and [users_kicked] as
    before, the only call is the success message carrying the time since
    the join, and the timer armed by the join is cancelled, so that its
    expiry later changes nothing and calls nothing. *)
Theorem X5_join_then_video now0 now1 m u gw0 gw1 s :
  bot_paused s = false ->
  interaction_mode s = false ->
  m_from_user m = Some u ->
  let k := (m_chat_id m, u_id u) in
  let tid := length (timers s) in
  let s1 := state_of (_handle_new_member now0 (m_chat_id m) (u_id u) (u_full_name u) gw0 s) in
  let r := handle_video_message now1 (Some m) gw1 s1 in
  let s2 := state_of r in
  pending_users s2 !! k = None /\
  k ∈ verified_users s2 /\
  users_verified (stats s2) = users_verified (stats s) + 1 /\
  users_kicked (stats s2) = users_kicked (stats s) /\
  (exists points, trace_of r
     = [SendMessage (m_chat_id m) (VerifiedNotice (u_full_name u) (now1 - now0) points)]) /\
  timers s2 !! tid
    = Some {| interval := timeout_seconds s; t_chat_id := m_chat_id m; t_user_id := u_id u;
              t_user_name := u_full_name u; status := Cancelled |} /\
  (forall gw2, timer_expiry tid gw2 s2 = (Ok tt, s2, [])).
Proof.
  intros Hp Hi Hu. cbv zeta.
  set (k := (m_chat_id m, u_id u)).
  set (s1 := state_of (_handle_new_member now0 (m_chat_id m) (u_id u) (u_full_name u) gw0 s)).
  set (e := {| timer := length (timers s); join_time := now0; user_name := u_full_name u |}).
  destruct (_handle_new_member_arms now0 (m_chat_id m) (u_id u) (u_full_name u) gw0 s Hp Hi)
    as [Hpend Htim]. fold s1 k in Hpend, Htim.
  assert (He : pending_users s1 !! k = Some e) by (by rewrite Hpend, lookup_insert_eq).
  assert (Hstats : stats s1 = incr_total_joins (stats s)).
  { subst s1. by rewrite _handle_new_member_state. }
  destruct (handle_video_message_state now1 m u gw1 s1 e Hu He) as (Hp2 & Hv2 & Ht2 & Hs2).
  set (ts := match pending_users s !! k with
             | Some e0 => alter timer_cancel_obj (timer e0) (timers s)
             | None => timers s
             end) in *.
  assert (Hlen : length ts = length (timers s)).
  { subst ts. case_match; by rewrite ?length_alter. }
  assert (Htid : timers (state_of (handle_video_message now1 (Some m) gw1 s1)) !! length (timers s)
            = Some {| interval := timeout_seconds s; t_chat_id := m_chat_id m;
                      t_user_id := u_id u; t_user_name := u_full_name u;
                      status := Cancelled |}).
  { rewrite Ht2, Htim. simpl. rewrite list_lookup_alter_eq.
    by rewrite (lookup_snoc_length ts (timers s)). }
  split; [rewrite Hp2; apply lookup_delete_eq|].
  split; [rewrite Hv2; by apply elem_of_union_l, elem_of_singleton|].
  split; [by rewrite Hs2, Hstats|].
  split; [by rewrite Hs2, Hstats|].
  split.
  { destruct (reward_system_enabled s1) eqn:Hr.
    - destruct (verify_pending_rewards now1 k gw1 s1 e He Hr) as (Hv & Hk & _).
      destruct (handle_video_message_split now1 m u gw1 s1 _ Hu Hv) as [_ Htr].
      rewrite Htr. fold k in Hk |- *.
      set (s' := state_of (verify_pending now1 k gw1 s1)) in *. clearbody s'.
      unfold send_success, trace_of, attr, call, get, mbind, io_mbind, io_bind,
        mret, io_mret, io_ret. fold k. rewrite Hk. simpl.
      io_cases; eauto.
    - destruct (verify_pending_no_rewards now1 k gw1 s1 e He Hr) as (Hv & _).
      destruct (handle_video_message_split now1 m u gw1 s1 _ Hu Hv) as [_ Htr].
      rewrite Htr. io_simpl. io_cases; eauto. }
  split; [done|].
  intros gw2. by eapply timer_expiry_finished.
Qed.

(** X6. A user who joins (bot active, interaction mode off), is not
    verified, and lets the timer expire while the API serves the three
    calls is removed: the calls are ban, unban and notice in this order,
    [users_kicked] is one higher, the entry is gone and the timer is fired;
    a video of that user posted afterwards changes nothing and calls
    nothing. *)
Theorem X6_join_then_expiry now0 m u gw0 gw1 s :
  bot_paused s = false ->
  interaction_mode s = false ->
  m_from_user m = Some u ->
  (m_chat_id m, u_id u) ∉ verified_users s ->
  gw1 (BanChatMember (m_chat_id m) (u_id u)) = true ->
  gw1 (UnbanChatMember (m_chat_id m) (u_id u)) = true ->
  gw1 (SendMessage (m_chat_id m) (KickNotice (u_full_name u) (timeout_seconds s))) = true ->
  let k := (m_chat_id m, u_id u) in
  let tid := length (timers s) in
  let s1 := state_of (_handle_new_member now0 (m_chat_id m) (u_id u) (u_full_name u) gw0 s) in
  let r := timer_expiry tid gw1 s1 in
  let s2 := state_of r in
  trace_of r = [ BanChatMember (m_chat_id m) (u_id u);
                 UnbanChatMember (m_chat_id m) (u_id u);
                 SendMessage (m_chat_id m) (KickNotice (u_full_name u) (timeout_seconds s)) ] /\
  users_kicked (stats s2) = users_kicked (stats s) + 1 /\
  users_verified (stats s2) = users_verified (stats s) /\
  pending_users s2 !! k = None /\
  (k ∉ verified_users s2) /\
  (exists t, timers s2 !! tid = Some t /\ status t = Fired) /\
  (forall now1 gw2, handle_video_message now1 (Some m) gw2 s2 = (Ok tt, s2, [])).
Proof.
  intros Hp Hi Hu Hv Hban Hunban Hsend. cbv zeta.
  rewrite (_handle_new_member_state now0 _ _ _ gw0 s Hp Hi).
  set (ts := match pending_users s !! (m_chat_id m, u_id u) with
             | Some e0 => alter timer_cancel_obj (timer e0) (timers s)
             | None => timers s
             end).
  assert (Hlen : length ts = length (timers s)).
  { subst ts. case_match; by rewrite ?length_alter. }
  assert (Hrun :
    let s1 := set_timers (ts ++ [ {| interval := timeout_seconds s; t_chat_id := m_chat_id m;
                   t_user_id := u_id u; t_user_name := u_full_name u; status := Armed |} ])
      (set_pending_users
         (<[(m_chat_id m, u_id u) :=
              {| timer := length (timers s); join_time := now0; user_name := u_full_name u |}]>
            (pending_users s))
         (set_stats (incr_total_joins (stats s)) s)) in
    timer_expiry (length (timers s)) gw1 s1
    = (Ok tt,
       set_timers (alter (set_status Fired) (length (timers s)) (timers s1))
         (set_stats (incr_users_kicked (stats s1))
            (set_pending_users (delete (m_chat_id m, u_id u) (pending_users s1)) s1)),
       [ BanChatMember (m_chat_id m) (u_id u);
         UnbanChatMember (m_chat_id m) (u_id u);
         SendMessage (m_chat_id m) (KickNotice (u_full_name u) (timeout_seconds s)) ])).
  { cbv zeta. io_simpl. rewrite (lookup_snoc_length ts (timers s)) by done. simpl.
    rewrite lookup_insert_eq. simpl. rewrite decide_False by done.
    rewrite Hban. simpl. rewrite Hunban. simpl. rewrite Hsend. done. }
  cbv zeta in Hrun. rewrite Hrun. unfold state_of, trace_of. simpl.
  split; [done|]. split; [done|]. split; [done|].
  split; [apply lookup_delete_eq|]. split; [done|].
  split.
  { eexists. rewrite list_lookup_alter_eq, (lookup_snoc_length ts (timers s)) by done.
    simpl. done. }
  intros now1 gw2. apply (handle_video_message_untracked now1 m u); [done|].
  simpl. apply lookup_delete_eq.
Qed.

End Sessions.

(** ** Counters *)

Lemma stats_le_refl st : stats_le st st.
Proof. unfold stats_le. lia. Qed.

Lemma stats_le_trans a b c : stats_le a b -> stats_le b c -> stats_le a c.
Proof. unfold stats_le. lia. Qed.

Section Counters.
Context `{PyBuiltins}.

Lemma _handle_new_member_stats now chat_id user_id user_name gw s :
  stats (state_of (_handle_new_member now chat_id user_id user_name gw s))
  = incr_total_joins (stats s).
Proof. io_simpl. by io_cases. Qed.

Lemma handle_stats_le now e gw s : stats_le (stats s) (stats (state_of (handle now e gw s))).
Proof.
  destruct e; simpl.
  2: { rewrite try_except_state.
       apply (handle_new_members_loop_keeps (fun s0 => stats_le (stats s) (stats s0)));
         [|apply stats_le_refl].
       intros u n s0 Hs0. eapply stats_le_trans; [exact Hs0|].
       rewrite _handle_new_member_stats. unfold stats_le. simpl. lia. }
  all: io_simpl; io_cases; unfold stats_le; simpl; lia.
Qed.

(** X7. No event ever lowers a counter of [stats]: along every run each
    of the six counters only stays or grows. *)
Theorem X7_stats_never_decrease s ds : stats_le (stats s) (stats (run s ds)).
Proof.
  revert s. induction ds as [|d ds IH]; intros s; simpl; [apply stats_le_refl|].
  eapply stats_le_trans; [|apply IH]. apply handle_stats_le.
Qed.

Lemma handle_new_members_loop_joins now chat_id users gw s :
  total_joins (stats (state_of (handle_new_members_loop now chat_id users gw s)))
  = total_joins (stats s) + Z.of_nat (length (List.filter (fun u => negb (u_is_bot u)) users)).
Proof.
  revert s. induction users as [|u users IH]; intros s; simpl; [unfold state_of; simpl; lia|].
  destruct (u_is_bot u); simpl.
  - rewrite (bind_state_ok _ _ _ _ tt) by done. by rewrite IH.
  - rewrite (bind_state_ok _ _ _ _ tt) by apply try_except_value.
    rewrite IH, _handle_new_member_stats. simpl. lia.
Qed.

Lemma handle_new_members_loop_only_bots now chat_id users gw s :
  forallb u_is_bot users = true ->
  handle_new_members_loop now chat_id users gw s = (Ok tt, s, []).
Proof.
  induction users as [|u users IH]; simpl; [done|].
  intros [Hu Hus]%andb_true_iff. rewrite Hu.
  unfold mbind, io_mbind, io_bind, mret, io_mret, io_ret. simpl.
  by rewrite (IH Hus).
Qed.

(** X9. In a status message of new members the bots are skipped: the
    message raises [total_joins] by the number of members that are not
    bots, whatever the mode and the API, and a message that lists only bots
    (or nobody, or is absent) changes nothing and calls nothing. *)
Theorem X9_new_members_skip_bots now upd gw s :
  let users := match upd with Some m => sm_new_chat_members m | None => [] end in
  total_joins (stats (state_of (handle_new_members now upd gw s)))
  = total_joins (stats s) + Z.of_nat (length (List.filter (fun u => negb (u_is_bot u)) users)) /\
  (forallb u_is_bot users = true -> handle_new_members now upd gw s = (Ok tt, s, [])).
Proof.
  cbv zeta. unfold handle_new_members. rewrite try_except_state.
  destruct upd as [m|]; [|split; [unfold state_of; simpl; lia|done]].
  destruct (sm_new_chat_members m) as [|u users] eqn:Hm;
    [split; [unfold state_of; simpl; lia|done]|].
  split; [apply handle_new_members_loop_joins|].
  intros Hb. unfold try_except.
  by rewrite (handle_new_members_loop_only_bots now (sm_chat_id m) (u :: users) gw s Hb).
Qed.

End Counters.

(** ** The ledger over time *)

Lemma dict_set_keys k v d :
  (dict_set k v d).*1 = if dict_get k d is Some _ then d.*1 else d.*1 ++ [k].
Proof.
  induction d as [|[k' v'] d IH]; cbn [dict_set dict_get]; [done|].
  destruct (decide (k = k')) as [->|Hne]; [done|].
  rewrite !fmap_cons, IH. by destruct (dict_get k d).
Qed.

Lemma dict_set_set k v w d : dict_set k v (dict_set k w d) = dict_set k v d.
Proof.
  induction d as [|[k' v'] d IH]; simpl.
  - by rewrite decide_True.
  - destruct (decide (k = k')) as [->|Hne]; simpl.
    + by rewrite decide_True.
    + rewrite decide_False by done. by rewrite IH.
Qed.

Lemma dict_get_keys k d : dict_get k d = None <-> k ∉ d.*1.
Proof.
  induction d as [|[k' v'] d IH]; simpl.
  - split; [intros _; apply not_elem_of_nil|done].
  - rewrite not_elem_of_cons. destruct (decide (k = k')) as [->|Hne]; [|tauto].
    split; [done|]. by intros [? _].
Qed.

Lemma ledger_le_refl d : ledger_le d d.
Proof. split; [done|]. intros k v Hk. exists v. split; [done|lia]. Qed.

Lemma ledger_le_trans a b c : ledger_le a b -> ledger_le b c -> ledger_le a c.
Proof.
  intros [Hp1 Hv1] [Hp2 Hv2]. split; [by etrans|].
  intros k v Hk. destruct (Hv1 k v Hk) as (v1 & Hk1 & Hle1).
  destruct (Hv2 k v1 Hk1) as (v2 & Hk2 & Hle2). exists v2. split; [done|lia].
Qed.

Lemma ledger_le_award k p d :
  0 <= p -> ledger_le d (dict_set k (default 0 (dict_get k d) + p) d).
Proof.
  intros Hp. split.
  - rewrite dict_set_keys. destruct (dict_get k d); [done|]. by apply prefix_app_r.
  - intros k' v Hk'. destruct (decide (k = k')) as [<-|Hne].
    + rewrite dict_get_set_eq, Hk'. simpl. eexists. split; [done|lia].
    + rewrite dict_get_set_ne by done. exists v. split; [done|lia].
Qed.

Lemma award_points_bounds e : 25 <= award_points e <= 100.
Proof. unfold award_points. repeat case_match; lia. Qed.

Lemma Forall_dict_set (P : user_key * Z -> Prop) k v d :
  P (k, v) -> Forall P d -> Forall P (dict_set k v d).
Proof.
  intros Hkv. induction 1 as [|[k' v'] d Hx Hd IH]; simpl.
  - by constructor.
  - destruct (decide (k = k')); constructor; done.
Qed.

Lemma NoDup_dict_set k v d : NoDup d.*1 -> NoDup (dict_set k v d).*1.
Proof.
  intros Hnd. rewrite dict_set_keys.
  destruct (dict_get k d) eqn:Hk; [done|].
  apply NoDup_app. split; [done|]. split; [|apply NoDup_singleton].
  intros x Hx ->%list_elem_of_singleton. by apply dict_get_keys in Hk.
Qed.

Section Ledger.
Context `{PyBuiltins}.

(** What an event does to [user_points]: nothing, or one award of 25 to
    100 points added to the total of one key. *)
Lemma handle_user_points now e gw s :
  user_points (state_of (handle now e gw s)) = user_points s \/
  exists k p, 25 <= p <= 100 /\
    user_points (state_of (handle now e gw s))
    = dict_set k (default 0 (dict_get k (user_points s)) + p) (user_points s).
Proof.
  destruct e; simpl.
  2: { left. rewrite try_except_state.
       apply (handle_new_members_loop_keeps (fun s0 => user_points s0 = user_points s)); [|done].
       intros u n s0 <-. io_simpl. by io_cases. }
  3-14: left; io_simpl; by io_cases.
  { left. io_simpl. by io_cases. }
  destruct update_message as [m|]; [|left; io_simpl; by io_cases].
  destruct (m_from_user m) as [u|] eqn:Hu; [|left; io_simpl; rewrite Hu; by io_cases].
  destruct (pending_users s !! (m_chat_id m, u_id u)) as [en|] eqn:He.
  2: { left. by rewrite (handle_video_message_untracked now m u gw s Hu He). }
  destruct (reward_system_enabled s) eqn:Hr.
  - right. exists (m_chat_id m, u_id u), (award_points (now - join_time en)).
    split; [apply award_points_bounds|].
    io_simpl. rewrite Hu. simpl. rewrite He. simpl. rewrite Hr. simpl.
    destruct (dict_get (m_chat_id m, u_id u) (user_points s)) as [v|] eqn:Hg; simpl.
    + rewrite Hg. simpl. by io_cases.
    + rewrite dict_get_set_eq. simpl. rewrite dict_set_set. by io_cases.
  - left. destruct (verify_pending_no_rewards now _ gw s en He Hr) as [Hv Hp].
    destruct (handle_video_message_split now m u gw s _ Hu Hv) as [Hst _].
    by rewrite Hst.
Qed.

(** X8. The reward ledger only grows: along every run the keys already
    in [user_points] keep their places at the front, in order, and no total
    goes down.  In every state the bot can reach each key occurs once and
    every total is at least 25. *)
Theorem X8_ledger_only_grows s ds timeout :
  ledger_le (user_points s) (user_points (run s ds)) /\
  NoDup (user_points (run (init timeout) ds)).*1 /\
  Forall (fun kv : user_key * Z => 25 <= kv.2) (user_points (run (init timeout) ds)).
Proof.
  split.
  { revert s. induction ds as [|d ds IH]; intros s; simpl; [apply ledger_le_refl|].
    eapply ledger_le_trans; [|apply IH]. unfold step.
    destruct (handle_user_points (at_time d) (what d) (api d) s) as [->|(k & p & Hp & ->)].
    - apply ledger_le_refl.
    - apply ledger_le_award. lia. }
  assert (Hinv : forall s0,
            NoDup (user_points s0).*1 /\ Forall (fun kv : user_key * Z => 25 <= kv.2) (user_points s0) ->
            NoDup (user_points (run s0 ds)).*1 /\
            Forall (fun kv : user_key * Z => 25 <= kv.2) (user_points (run s0 ds))).
  { induction ds as [|d ds IH]; intros s0 Hs0; simpl; [done|].
    apply IH. unfold step.
    destruct (handle_user_points (at_time d) (what d) (api d) s0) as [->|(k & p & Hp & ->)];
      [done|].
    destruct Hs0 as [Hnd Hall]. split; [by apply NoDup_dict_set|].
    apply Forall_dict_set; [|done]. simpl.
    destruct (dict_get k (user_points s0)) as [v|] eqn:Hk; simpl; [|lia].
    assert (25 <= v); [|lia].
    clear -Hall Hk. induction Hall as [|[k' v'] d Hx Hd IH]; simpl in *; [done|].
    destruct (decide (k = k')); [by simplify_eq|by apply IH]. }
  apply Hinv. simpl. split; [apply NoDup_nil_2|constructor].
Qed.

End Ledger.

(** ** The life of a timer object *)

Lemma timer_le_refl t : timer_le t t.
Proof. unfold timer_le. tauto. Qed.

Lemma timer_le_trans a b c : timer_le a b -> timer_le b c -> timer_le a c.
Proof.
  unfold timer_le. intros (-> & -> & -> & -> & Hab) (-> & -> & -> & -> & Hbc).
  repeat split; try done.
  destruct Hab as [Hab|[Ha Hb]], Hbc as [Hbc|[Hb' Hc]]; try (left; congruence).
  - right. split; [congruence|done].
  - right. split; [done|]. rewrite Hbc. done.
  - destruct Hb as [Hb|Hb]; congruence.
Qed.

Lemma timers_le_refl ts : timers_le ts ts.
Proof. intros tid t Ht. exists t. split; [done|apply timer_le_refl]. Qed.

Lemma timers_le_trans a b c : timers_le a b -> timers_le b c -> timers_le a c.
Proof.
  intros Hab Hbc tid t Ht. destruct (Hab tid t Ht) as (t1 & Ht1 & Hle1).
  destruct (Hbc tid t1 Ht1) as (t2 & Ht2 & Hle2).
  exists t2. split; [done|]. by eapply timer_le_trans.
Qed.

Lemma timers_le_app ts l : timers_le ts (ts ++ l).
Proof.
  intros tid t Ht. exists t. split; [|apply timer_le_refl].
  by apply lookup_app_l_Some.
Qed.

Lemma timers_le_alter (f : timer_obj -> timer_obj) i ts :
  (forall t, ts !! i = Some t -> timer_le t (f t)) -> timers_le ts (alter f i ts).
Proof.
  intros Hf tid t Ht. destruct (decide (i = tid)) as [->|Hne].
  - exists (f t). rewrite list_lookup_alter_eq, Ht. split; [done|]. by apply Hf.
  - exists t. rewrite list_lookup_alter_ne by done. split; [done|apply timer_le_refl].
Qed.

Lemma timers_le_cancel i ts : no_created ts -> timers_le ts (alter timer_cancel_obj i ts).
Proof.
  intros Hnc. apply timers_le_alter. intros t Ht. specialize (Hnc i t Ht).
  unfold timer_le, timer_cancel_obj. destruct (status t) eqn:Hs; simpl; rewrite ?Hs; tauto.
Qed.

Lemma timers_le_fired i t ts :
  ts !! i = Some t -> status t = Armed -> timers_le ts (alter (set_status Fired) i ts).
Proof.
  intros Ht Ha. apply timers_le_alter. intros t' Ht'. simplify_eq.
  unfold timer_le. simpl. tauto.
Qed.

Lemma no_created_alter (f : timer_obj -> timer_obj) i ts :
  (forall t, status (f t) <> Created) -> no_created ts -> no_created (alter f i ts).
Proof.
  intros Hf Hnc tid t Ht. destruct (decide (i = tid)) as [->|Hne].
  - rewrite list_lookup_alter_eq in Ht. destruct (ts !! tid); simplify_eq/=. apply Hf.
  - rewrite list_lookup_alter_ne in Ht by done. by eapply Hnc.
Qed.

Lemma no_created_cancel i ts : no_created ts -> no_created (alter timer_cancel_obj i ts).
Proof.
  intros Hnc tid t Ht. destruct (decide (i = tid)) as [->|Hne].
  - rewrite list_lookup_alter_eq in Ht. destruct (ts !! tid) as [t0|] eqn:Ht0; simplify_eq/=.
    specialize (Hnc tid t0 Ht0). unfold timer_cancel_obj.
    destruct (status t0) eqn:Hs; simpl; rewrite ?Hs; done.
  - rewrite list_lookup_alter_ne in Ht by done. by eapply Hnc.
Qed.

Lemma no_created_snoc ts t : status t <> Created -> no_created ts -> no_created (ts ++ [t]).
Proof.
  intros Hs Hnc tid t' Ht. apply lookup_app_Some in Ht as [Ht|[_ Ht]]; [by eapply Hnc|].
  destruct (tid - length ts)%nat as [|n]; simpl in Ht; [by simplify_eq|by destruct n].
Qed.

Section TimerLife.
Context `{PyBuiltins}.

Lemma _handle_new_member_timers now chat_id user_id user_name gw s :
  no_created (timers s) ->
  timers_le (timers s) (timers (state_of (_handle_new_member now chat_id user_id user_name gw s)))
  /\ no_created (timers (state_of (_handle_new_member now chat_id user_id user_name gw s))).
Proof.
  intros Hnc.
  destruct (bot_paused s) eqn:Hp;
    [rewrite (proj1 (_handle_new_member_idle now chat_id user_id user_name gw s (or_introl Hp)));
     split; [apply timers_le_refl|done]|].
  destruct (interaction_mode s) eqn:Hi;
    [rewrite (proj1 (_handle_new_member_idle now chat_id user_id user_name gw s (or_intror Hi)));
     split; [apply timers_le_refl|done]|].
  destruct (_handle_new_member_arms now chat_id user_id user_name gw s Hp Hi) as [_ ->].
  destruct (pending_users s !! (chat_id, user_id)) as [e|].
  - split.
    + eapply timers_le_trans; [by apply timers_le_cancel|apply timers_le_app].
    + apply no_created_snoc; [done|]. by apply no_created_cancel.
  - split; [apply timers_le_app|]. by apply no_created_snoc.
Qed.

Lemma handle_timers now e gw s :
  no_created (timers s) ->
  timers_le (timers s) (timers (state_of (handle now e gw s))) /\
  no_created (timers (state_of (handle now e gw s))).
Proof.
  intros Hnc. destruct e; simpl.
  - by apply _handle_new_member_timers.
  - rewrite try_except_state.
    apply (handle_new_members_loop_keeps
             (fun s0 => timers_le (timers s) (timers s0) /\ no_created (timers s0)));
      [|split; [apply timers_le_refl|done]].
    intros u n s0 [Hle Hnc0].
    destruct (_handle_new_member_timers now chat_id u n gw s0 Hnc0) as [Hle' Hnc'].
    split; [by eapply timers_le_trans|done].
  - io_simpl. io_cases; simpl; try (split; [apply timers_le_refl|done]).
    all: split; [by apply timers_le_cancel|by apply no_created_cancel].
  - io_simpl. io_cases; simpl; try (split; [apply timers_le_refl|done]).
    all: rewrite alter_snoc; split; [apply timers_le_app|by apply no_created_snoc].
  - io_simpl. io_cases; simpl; split; try apply timers_le_refl; done.
  - io_simpl. io_cases; simpl; try (split; [apply timers_le_refl|done]).
    all: split; [by eapply timers_le_fired|by apply no_created_alter].
  - io_simpl. io_cases; simpl; split; try apply timers_le_refl; done.
  - io_simpl. io_cases; simpl; split; try apply timers_le_refl; done.
  - io_simpl. io_cases; simpl; split; try apply timers_le_refl; done.
  - io_simpl. io_cases; simpl; split; try apply timers_le_refl; done.
  - io_simpl. io_cases; simpl; split; try apply timers_le_refl; done.
  - io_simpl. io_cases; simpl; split; try apply timers_le_refl; done.
  - io_simpl. io_cases; simpl; split; try apply timers_le_refl; done.
  - io_simpl. io_cases; simpl; split; try apply timers_le_refl; done.
  - io_simpl. io_cases; simpl; split; try apply timers_le_refl; done.
Qed.

(** X10. A timer object, once created, stays in the store at its index
    with its interval and arguments, and its status only ever goes from
    armed to cancelled or fired: in every state the bot can reach, and
    along every run from there, no timer is left unstarted, none is
    dropped, and none that was cancelled or has fired is armed again. *)
Theorem X10_timers_only_finish timeout ds ds' :
  let s := run (init timeout) ds in
  no_created (timers s) /\
  timers_le (timers s) (timers (run s ds')) /\
  (forall tid t, timers s !! tid = Some t -> status t <> Armed ->
     timers (run s ds') !! tid = Some t).
Proof.
  cbv zeta.
  assert (Hrun : forall l s0, no_created (timers s0) ->
            timers_le (timers s0) (timers (run s0 l)) /\ no_created (timers (run s0 l))).
  { induction l as [|d l IH]; intros s0 Hs0; simpl; [split; [apply timers_le_refl|done]|].
    destruct (handle_timers (at_time d) (what d) (api d) s0 Hs0) as [Hle Hnc].
    destruct (IH (step s0 d) Hnc) as [Hle' Hnc'].
    split; [by eapply timers_le_trans|done]. }
  assert (Hinit : no_created (timers (init timeout))) by (intros tid t Ht; done).
  destruct (Hrun ds (init timeout) Hinit) as [_ Hnc].
  destruct (Hrun ds' _ Hnc) as [Hle _].
  split; [done|]. split; [done|].
  intros tid t Ht Hna. destruct (Hle tid t Ht) as (t' & Ht' & Hi & Hc & Hu & Hn & Hst).
  rewrite Ht'. f_equal. destruct Hst as [Hst|[Ha _]]; [|done].
  destruct t, t'. simpl in *. by subst.
Qed.

End TimerLife.

(** ** Settings stay valid *)

Section Settings.
Context `{PyBuiltins}.

Lemma handle_timeout_range now e gw s :
  10 <= timeout_seconds s <= 600 ->
  10 <= timeout_seconds (state_of (handle now e gw s)) <= 600.
Proof.
  intros Hr. destruct (is_set_timer e) eqn:He.
  - destruct e; try discriminate. simpl. io_simpl. io_cases; simpl; try done.
    all: match goal with
         | Hb : (_ <? 10) || (600 <? _) = false |- _ =>
             apply orb_false_iff in Hb as [?%Z.ltb_ge ?%Z.ltb_ge]; lia
         end.
  - by rewrite timeout_seconds_kept.
Qed.

(** X11. A timeout inside 10 to 600 seconds stays inside: whatever
    events follow, commands of admins included, [timeout_seconds] is always
    between 10 and 600. *)
Theorem X11_timeout_stays_in_range s ds :
  10 <= timeout_seconds s <= 600 ->
  10 <= timeout_seconds (run s ds) <= 600.
Proof.
  revert s. induction ds as [|d ds IH]; intros s Hs; simpl; [done|].
  apply IH. by apply handle_timeout_range.
Qed.

Lemma handle_hours_valid now e gw s :
  hours_valid s -> hours_valid (state_of (handle now e gw s)).
Proof.
  intros Hv. destruct e; simpl.
  2: { rewrite try_except_state. apply handle_new_members_loop_keeps; [|done].
       intros u n s0 Hs0. unfold hours_valid in *. io_simpl. by io_cases. }
  all: unfold hours_valid in *; io_simpl; io_cases; simpl; try done.
  all: repeat match goal with
       | Hb : _ && _ = true |- _ => apply andb_true_iff in Hb as [? ?]
       | Hb : (_ <=? _) = true |- _ => apply Z.leb_le in Hb
       end; lia.
Qed.

End Settings.

Section Settings2.
Context `{PyBuiltins}.

(** X12. The active hours are always hours of the day: in every state
    the bot can reach, start and end are both between 0 and 23, whatever
    arguments [/schedule] was given. *)
Theorem X12_active_hours_stay_valid timeout ds : hours_valid (run (init timeout) ds).
Proof.
  assert (Hrun : forall l s, hours_valid s -> hours_valid (run s l)).
  { induction l as [|d l IH]; intros s Hs; simpl; [done|].
    apply IH. by apply handle_hours_valid. }
  apply Hrun. unfold hours_valid. simpl. lia.
Qed.

(** X13. The four switches are involutions: [/interaction], [/antispam],
    [/rewards] and [/schedule toggle] from an admin, given twice, leave the
    bot as it was; [/pause] followed by [/resume] leaves it active and
    changes nothing else. *)
Theorem X13_switches_toggle role a gw1 gw2 s :
  is_admin role = true ->
  py_lower a = "toggle"%string ->
  let twice (c : io unit) := state_of (c gw2 (state_of (c gw1 s))) in
  twice (interaction_mode_command (Some role)) = s /\
  twice (antispam_command (Some role)) = s /\
  twice (rewards_command (Some role)) = s /\
  twice (schedule_command (Some role) [a]) = s /\
  state_of (resume_command (Some role) gw2 (state_of (pause_command (Some role) gw1 s)))
  = set_bot_paused false s.
Proof.
  intros Hadm Ha. cbv zeta. destruct s.
  repeat split; io_simpl; rewrite ?Hadm, ?Ha; simpl; io_cases; by rewrite ?negb_involutive.
Qed.

End Settings2.

Lemma X13_switches_witness :
  let s := init 30 in
  is_admin "administrator" = true /\
  @py_lower ascii_builtins "Toggle" = "toggle"%string /\
  state_of (@schedule_command ascii_builtins (Some "administrator"%string) ["Toggle"%string] all_ok
    (state_of (@schedule_command ascii_builtins (Some "administrator"%string) ["Toggle"%string]
                 all_ok s))) = s.
Proof.
  cbv zeta. split; [reflexivity|]. split; [reflexivity|].
  apply (@X13_switches_toggle ascii_builtins "administrator" "Toggle" all_ok all_ok (init 30)
           eq_refl eq_refl).
Defined.

Lemma X11_timeout_witness :
  let ds := [ {| at_time := 0; api := all_ok; what := SetTimer (Some "creator"%string) ["5"%string] |};
              {| at_time := 1; api := all_ok; what := SetTimer (Some "creator"%string) ["600"%string] |};
              {| at_time := 2; api := all_ok; what := SetTimer (Some "creator"%string) ["601"%string] |} ] in
  10 <= timeout_seconds (init 30) <= 600 /\
  10 <= timeout_seconds (@run ascii_builtins (init 30) ds) <= 600.
Proof.
  cbv zeta. assert (H : 10 <= timeout_seconds (init 30) <= 600) by (simpl; lia).
  split; [exact H|]. exact (@X11_timeout_stays_in_range ascii_builtins (init 30) _ H).
Defined.

(** ** When a handler does nothing *)

Section Gates.
Context `{PyBuiltins}.

(** X14. Spam detection leaves alone everything it is not meant for:
    with anti-spam off, with the bot paused, on an update without message
    or without sender, and on any message of a verified user, it changes
    nothing and calls nothing, whatever the text and the name. *)
Theorem X14_spam_detection_exempt upd gw s :
  anti_spam_enabled s = false \/ bot_paused s = true \/ upd = None \/
  (exists m, upd = Some m /\
     match m_from_user m with
     | None => True
     | Some u => (m_chat_id m, u_id u) ∈ verified_users s
     end) ->
  handle_spam_detection upd gw s = (Ok tt, s, []).
Proof.
  intros Hc. io_simpl.
  destruct (anti_spam_enabled s) eqn:Ha; simpl; [|done].
  destruct (bot_paused s) eqn:Hp; simpl; [done|].
  destruct Hc as [|[|[->|(m & -> & Hm)]]]; try done.
  destruct (m_from_user m) as [u|]; [|done].
  by rewrite decide_True.
Qed.

(** X15. A text message starts a verification only for a sender who is
    neither pending nor verified, in interaction mode, with the bot active:
    in every other case, and on an update without message or sender, the
    handler changes nothing and calls nothing. *)
Theorem X15_text_message_gate now upd gw s :
  interaction_mode s = false \/ bot_paused s = true \/ upd = None \/
  (exists m, upd = Some m /\
     match m_from_user m with
     | None => True
     | Some u => pending_users s !! (m_chat_id m, u_id u) <> None \/
                 (m_chat_id m, u_id u) ∈ verified_users s
     end) ->
  handle_text_message now upd gw s = (Ok tt, s, []).
Proof.
  intros Hc.
  destruct (interaction_mode s) eqn:Hi; [|io_simpl; by rewrite Hi].
  destruct (bot_paused s) eqn:Hp; [io_simpl; by rewrite Hi, Hp|].
  destruct Hc as [|[|[->|(m & -> & Hm)]]]; try done.
  { io_simpl. by rewrite Hi, Hp. }
  destruct (m_from_user m) as [u|] eqn:Hu; [|io_simpl; by rewrite Hi, Hp, Hu].
  destruct Hm as [Hm|Hm].
  - by apply (handle_text_message_tracked now m u).
  - by apply (handle_text_message_verified now m u).
Qed.

(** X16. One pending entry is rewarded once: a video of a sender who
    has no pending entry changes nothing and calls nothing, and after any
    video message of a user a second one of the same user, at any time and
    with any API, is such a message. *)
Theorem X16_video_rewarded_once now now' m u gw gw' s :
  m_from_user m = Some u ->
  let s1 := state_of (handle_video_message now (Some m) gw s) in
  (pending_users s !! (m_chat_id m, u_id u) = None ->
     handle_video_message now (Some m) gw s = (Ok tt, s, [])) /\
  pending_users s1 !! (m_chat_id m, u_id u) = None /\
  handle_video_message now' (Some m) gw' s1 = (Ok tt, s1, []).
Proof.
  intros Hu. cbv zeta.
  split; [apply (handle_video_message_untracked now m u gw s Hu)|].
  assert (pending_users (state_of (handle_video_message now (Some m) gw s))
            !! (m_chat_id m, u_id u) = None) as Hgone.
  { destruct (pending_users s !! (m_chat_id m, u_id u)) as [e|] eqn:He.
    - destruct (handle_video_message_state now m u gw s e Hu He) as (-> & _).
      apply lookup_delete_eq.
    - by rewrite (handle_video_message_untracked now m u gw s Hu He). }
  split; [done|]. by apply (handle_video_message_untracked now' m u).
Qed.

End Gates.

(** ** Verified users and the counter of verifications *)

Section VerifiedCount.
Context `{PyBuiltins}.

Lemma size_add_le (k : user_key) (V : gset user_key) : (size ({[k]} ∪ V) <= S (size V))%nat.
Proof.
  rewrite size_union_alt, size_singleton.
  assert (size (V ∖ {[k]}) <= size V)%nat by (by apply subseteq_size, subseteq_difference_l). lia.
Qed.

Lemma handle_verified_counted now e gw s :
  verified_counted s -> verified_counted (state_of (handle now e gw s)).
Proof.
  unfold verified_counted. intros Hv. destruct e; simpl.
  2: { rewrite try_except_state.
       apply (handle_new_members_loop_keeps verified_counted); [|done].
       intros u n s0 Hs0. unfold verified_counted in *. io_simpl. by io_cases. }
  all: io_simpl; io_cases; simpl; try done.
  all: try (match goal with
            | |- context [size ({[?k]} ∪ ?V)] => pose proof (size_add_le k V)
            end; lia).
  all: destruct (stats s); simpl in *; lia.
Qed.

(** X17. [users_verified] counts every verification, also the repeated
    ones of a user who rejoined: in every state the bot can reach it is at
    least the number of keys in [verified_users]. *)
Theorem X17_verified_users_counted timeout ds : verified_counted (run (init timeout) ds).
Proof.
  assert (Hrun : forall l s, verified_counted s -> verified_counted (run s l)).
  { induction l as [|d l IH]; intros s Hs; simpl; [done|].
    apply IH. by apply handle_verified_counted. }
  apply Hrun. unfold verified_counted. cbn [init verified_users stats users_verified].
  rewrite size_empty. lia.
Qed.

End VerifiedCount.

(** ** Substring tests *)

Lemma startswith_spec p s : startswith p s = true <-> exists post, s = p +:+ post.
Proof.
  revert s. induction p as [|a p IH]; intros s; simpl.
  - split; [by exists s|done].
  - destruct s as [|b s]; [split; [done|by intros [? [=]]]|].
    destruct (Ascii.eqb a b) eqn:Hab.
    + apply Ascii.eqb_eq in Hab as ->. rewrite IH. split.
      * intros [post ->]. by exists post.
      * intros [post [= ->]]. by exists post.
    + apply Ascii.eqb_neq in Hab. split; [done|]. intros [post [= -> _]]. done.
Qed.

Lemma str_in_spec needle hay :
  str_in needle hay = true <-> exists pre post, hay = pre +:+ needle +:+ post.
Proof.
  induction hay as [|c hay IH]; simpl.
  - rewrite orb_false_r, startswith_spec. split.
    + intros [post Hp]. by exists ""%string, post.
    + intros ([|? ?] & post & Hp); [by exists post|done].
  - rewrite orb_true_iff, startswith_spec, IH. split.
    + intros [[post Hp]|(pre & post & ->)].
      * by exists ""%string, post.
      * by exists (String c pre), post.
    + intros ([|c' pre] & post & Hp).
      * left. by exists post.
      * right. injection Hp as -> ->. by exists pre, post.
Qed.

Section Substrings.
Context `{PyBuiltins}.

(** X18. A text counts as a link exactly when it is not empty and its
    lower-cased form contains one of [http], [www.], [.com], [.org],
    [t.me] somewhere inside; a message without text never does. *)
Theorem X18_link_is_substring text :
  has_link text = true <->
  exists t, text = Some t /\ t <> ""%string /\
    exists link pre post, In link link_patterns /\ py_lower t = pre +:+ link +:+ post.
Proof.
  unfold has_link. destruct text as [t|]; [|split; [done|by intros (? & [=] & _)]].
  rewrite andb_true_iff, existsb_exists. split.
  - intros [Ht (link & Hin & Hl)]. exists t. split; [done|].
    split; [by destruct t|].
    apply str_in_spec in Hl as (pre & post & Hl). by exists link, pre, post.
  - intros (t' & [= <-] & Hne & link & pre & post & Hin & Hl).
    split; [by destruct t|]. exists link. split; [done|].
    apply str_in_spec. by exists pre, post.
Qed.

(** X19. The banned word reported for a text is the first word of the
    configured list, in list order, that occurs in the lower-cased text;
    none is reported for an empty or absent text or when no word occurs. *)
Theorem X19_first_banned_word_is_first words text w :
  first_banned_word words text = Some w <->
  exists t before after,
    text = Some t /\ t <> ""%string /\ words = before ++ w :: after /\
    (exists pre post, py_lower t = pre +:+ w +:+ post) /\
    Forall (fun w' => forall pre post, py_lower t <> pre +:+ w' +:+ post) before.
Proof.
  unfold first_banned_word. destruct text as [t|]; [|split; [done|by intros (?&?&?&[=]&_)]].
  destruct t as [|c t']; simpl truthy; cbv iota;
    [split; [done|by intros (?&?&?&[= <-]&?&_)]|].
  set (lt := py_lower (String c t')).
  assert (Hfind : forall ws, List.find (fun bw => str_in bw lt) ws = Some w <->
            exists before after, ws = before ++ w :: after /\ str_in w lt = true /\
              Forall (fun w' => str_in w' lt = false) before).
  { induction ws as [|x ws IH]; simpl.
    - split; [done|]. intros ([|? ?] & ? & ? & _); done.
    - destruct (str_in x lt) eqn:Hx.
      + split.
        * intros [= ->]. by exists [], ws.
        * intros ([|y before] & after & Heq & Hw & Hall).
          -- by injection Heq as ->.
          -- injection Heq as -> ->. apply Forall_cons in Hall as [Hy _]. congruence.
      + rewrite IH. split.
        * intros (before & after & -> & Hw & Hall). exists (x :: before), after.
          split; [done|]. split; [done|]. by constructor.
        * intros ([|y before] & after & Heq & Hw & Hall).
          -- injection Heq as -> ->. congruence.
          -- injection Heq as -> ->. apply Forall_cons in Hall as [_ Hall].
             by exists before, after. }
  rewrite Hfind. split.
  - intros (before & after & -> & Hw & Hall). exists (String c t'), before, after.
    split; [done|]. split; [done|]. split; [done|].
    split; [by apply str_in_spec|].
    eapply Forall_impl; [exact Hall|]. intros w' Hw' pre post Heq.
    assert (str_in w' lt = true) by (apply str_in_spec; by exists pre, post). congruence.
  - intros (t & before & after & [= <-] & _ & -> & Hw & Hall). exists before, after.
    split; [done|]. split; [by apply str_in_spec|].
    eapply Forall_impl; [exact Hall|]. intros w' Hw'. simpl in Hw'.
    destruct (str_in w' lt) eqn:Hs; [|done].
    apply str_in_spec in Hs as (pre & post & Hs). by destruct (Hw' pre post).
Qed.

End Substrings.

(** ** What the API can and cannot influence *)

Section ApiFree.
Context `{PyBuiltins}.

#[local] Arguments join_args : simpl never.

Lemma _handle_new_member_api_free now chat_id user_id user_name gw gw' s :
  state_of (_handle_new_member now chat_id user_id user_name gw s)
  = state_of (_handle_new_member now chat_id user_id user_name gw' s).
Proof.
  destruct (bot_paused s) eqn:Hp.
  { by rewrite !(proj1 (_handle_new_member_idle now chat_id user_id user_name _ s (or_introl Hp))). }
  destruct (interaction_mode s) eqn:Hi.
  { by rewrite !(proj1 (_handle_new_member_idle now chat_id user_id user_name _ s (or_intror Hi))). }
  by rewrite !_handle_new_member_state.
Qed.

Lemma handle_new_members_loop_api_free now chat_id users gw gw' s :
  state_of (handle_new_members_loop now chat_id users gw s)
  = state_of (handle_new_members_loop now chat_id users gw' s).
Proof.
  revert s. induction users as [|u users IH]; intros s; simpl; [done|].
  destruct (u_is_bot u).
  - rewrite !(bind_state_ok _ _ _ _ tt) by done. apply IH.
  - rewrite !(bind_state_ok _ _ _ _ tt) by apply try_except_value.
    rewrite (_handle_new_member_api_free now chat_id (u_id u) (u_full_name u) gw gw' s).
    apply IH.
Qed.

(** X3. The bookkeeping of joins, text messages and video messages
    does not depend on the API: whether the welcome, the reminder or the
    success message can be sent or not, the bot ends in the same state.
    For a command the same holds from the answer of the membership query
    on: every settings command first awaits [get_chat_member], whose answer
    is the [member] of the event ([None] when the query raises, and then
    nothing is assigned); with that answer given, the state in which the
    command ends does not depend on whether its reply can be sent.  The
    timer callback and spam handling are left out: they count after calls
    that may fail. *)
Theorem X3_state_independent_of_api now e gw gw' s :
  api_free e = true ->
  state_of (handle now e gw s) = state_of (handle now e gw' s).
Proof.
  intros He.
  assert (Hok : forall g, state_of (handle now e g s) = state_of (handle now e all_ok s)).
  { intros g. destruct e; try discriminate; simpl.
    - apply _handle_new_member_api_free.
    - rewrite !try_except_state. apply handle_new_members_loop_api_free.
    - unfold all_ok. io_simpl. by io_cases.
    - unfold all_ok. io_simpl. by io_cases.
    - unfold all_ok. io_simpl. by io_cases.
    - unfold all_ok. io_simpl. by io_cases.
    - unfold all_ok. io_simpl. by io_cases.
    - unfold all_ok. io_simpl. by io_cases.
    - unfold all_ok. io_simpl. by io_cases.
    - unfold all_ok. io_simpl. by io_cases.
    - unfold all_ok. io_simpl. by io_cases.
    - unfold all_ok. io_simpl. by io_cases.
    - unfold all_ok. io_simpl. by io_cases. }
  by rewrite (Hok gw), (Hok gw').
Qed.

(** X22. A settings command, from anybody, assigns settings only: the
    pending entries, the verified users, the timers, the ledger, the
    counters and the banned words are as before. *)
Theorem X22_commands_touch_settings_only now e member gw s :
  command_member e = Some member ->
  let s' := state_of (handle now e gw s) in
  pending_users s' = pending_users s /\
  verified_users s' = verified_users s /\
  timers s' = timers s /\
  user_points s' = user_points s /\
  stats s' = stats s /\
  banned_words s' = banned_words s.
Proof.
  intros He. destruct e; try discriminate; simpl.
  all: io_simpl; by io_cases.
Qed.

End ApiFree.

(** ** Settings and the sessions they shape *)

Section SettingsInUse.
Context `{PyBuiltins}.

#[local] Arguments join_args : simpl never.

Lemma set_timer_command_state role a n gw s :
  is_admin role = true -> py_int a = Some n -> 10 <= n <= 600 ->
  state_of (set_timer_command (Some role) [a] gw s) = set_timeout_seconds n s.
Proof.
  intros Hadm Hint Hn. io_simpl. rewrite Hadm, Hint. simpl.
  assert ((n <? 10) || (600 <? n) = false) as ->.
  { apply orb_false_iff. split; apply Z.ltb_ge; lia. }
  by io_cases.
Qed.

Lemma set_welcome_command_state role a args gw s :
  is_admin role = true ->
  state_of (set_welcome_command (Some role) (a :: args) gw s)
  = set_custom_welcome (join_args (a :: args)) s.
Proof. intros Hadm. io_simpl. rewrite Hadm. simpl. by io_cases. Qed.

Lemma _handle_new_member_trace now chat_id user_id user_name gw s :
  bot_paused s = false ->
  interaction_mode s = false ->
  trace_of (_handle_new_member now chat_id user_id user_name gw s)
  = match py_format (custom_welcome s) user_name (timeout_seconds s) with
    | Some w => [SendMessage chat_id (CustomWelcome w)]
    | None => []
    end.
Proof. intros Hp Hi. io_simpl. rewrite Hp, Hi. simpl. by io_cases. Qed.

(** X20. [/setwelcome] from an admin stores its arguments joined by
    single spaces as the template, and touches nothing else; the next join
    that arms a timer is welcomed with that template filled in for the
    joining user and the current timeout.  Without arguments the command
    only shows the template and changes nothing. *)
Theorem X20_setwelcome_shapes_next_welcome role a args gw now chat_id user_id user_name gw' s w :
  is_admin role = true ->
  bot_paused s = false ->
  interaction_mode s = false ->
  py_format (join_args (a :: args)) user_name (timeout_seconds s) = Some w ->
  let s1 := state_of (set_welcome_command (Some role) (a :: args) gw s) in
  s1 = set_custom_welcome (join_args (a :: args)) s /\
  trace_of (_handle_new_member now chat_id user_id user_name gw' s1)
    = [SendMessage chat_id (CustomWelcome w)] /\
  state_of (set_welcome_command (Some role) [] gw s) = s /\
  trace_of (set_welcome_command (Some role) [] gw s)
    = [ReplyText (WelcomeCurrent (custom_welcome s))].
Proof.
  intros Hadm Hp Hi Hf. cbv zeta.
  rewrite (set_welcome_command_state role a args gw s Hadm).
  split; [done|].
  split.
  { rewrite _handle_new_member_trace by done. simpl. by rewrite Hf. }
  io_simpl. rewrite Hadm. simpl. by io_cases.
Qed.

(** X21. The removal notice names the timeout in force when the timer
    fires, not the interval the timer was armed with: after a join under
    one timeout and a [/settimer] to another, the timer still has the old
    interval and the notice of its expiry carries the new value. *)
Theorem X21_notice_names_current_timeout now chat_id user_id user_name role a n gw0 gw1 gw2 s :
  bot_paused s = false ->
  interaction_mode s = false ->
  (chat_id, user_id) ∉ verified_users s ->
  is_admin role = true -> py_int a = Some n -> 10 <= n <= 600 ->
  gw2 (BanChatMember chat_id user_id) = true ->
  gw2 (UnbanChatMember chat_id user_id) = true ->
  let tid := length (timers s) in
  let s1 := state_of (_handle_new_member now chat_id user_id user_name gw0 s) in
  let s2 := state_of (set_timer_command (Some role) [a] gw1 s1) in
  (exists t, timers s2 !! tid = Some t /\ interval t = timeout_seconds s /\ status t = Armed) /\
  trace_of (timer_expiry tid gw2 s2)
  = [ BanChatMember chat_id user_id; UnbanChatMember chat_id user_id;
      SendMessage chat_id (KickNotice user_name n) ].
Proof.
  intros Hp Hi Hv Hadm Hint Hn Hban Hunban. cbv zeta.
  rewrite (_handle_new_member_state now _ _ _ gw0 s Hp Hi).
  rewrite (set_timer_command_state role a n gw1 _ Hadm Hint Hn).
  set (ts := match pending_users s !! (chat_id, user_id) with
             | Some e0 => alter timer_cancel_obj (timer e0) (timers s)
             | None => timers s
             end).
  assert (Hlen : length ts = length (timers s)).
  { subst ts. case_match; by rewrite ?length_alter. }
  simpl. split.
  { eexists. by rewrite (lookup_snoc_length ts (timers s)). }
  io_simpl. rewrite (lookup_snoc_length ts (timers s)) by done. simpl.
  rewrite lookup_insert_eq. simpl. rewrite decide_False by done.
  rewrite Hban. simpl. rewrite Hunban. simpl. by io_cases.
Qed.

End SettingsInUse.

(** ** The two entry points of a join *)

Section EntryPoints.
Context `{PyBuiltins}.

Lemma handle_chat_member_update_join now cmu gw s :
  is_join cmu = true ->
  state_of (handle_chat_member_update now (Some cmu) gw s)
  = state_of (_handle_new_member now (cmu_chat_id cmu) (u_id (cmu_user cmu))
                (u_full_name (cmu_user cmu)) gw s) /\
  trace_of (handle_chat_member_update now (Some cmu) gw s)
  = trace_of (_handle_new_member now (cmu_chat_id cmu) (u_id (cmu_user cmu))
                (u_full_name (cmu_user cmu)) gw s).
Proof.
  unfold is_join, handle_chat_member_update. intros ->.
  by rewrite try_except_state, try_except_trace.
Qed.

(** X23. A chat-member update is a join only when the old status is
    [left] or [kicked] and the new one [member], [administrator] or
    [creator]: then it is handled as the join of that user, bot or not, and
    counted once; every other update (a promotion, a departure, an update
    without member data) changes nothing and calls nothing. *)
Theorem X23_chat_member_update_joins_only now upd gw s :
  match upd with
  | Some cmu =>
      if is_join cmu then
        state_of (handle_chat_member_update now upd gw s)
        = state_of (_handle_new_member now (cmu_chat_id cmu) (u_id (cmu_user cmu))
                      (u_full_name (cmu_user cmu)) gw s) /\
        total_joins (stats (state_of (handle_chat_member_update now upd gw s)))
        = total_joins (stats s) + 1
      else handle_chat_member_update now upd gw s = (Ok tt, s, [])
  | None => handle_chat_member_update now upd gw s = (Ok tt, s, [])
  end.
Proof.
  destruct upd as [cmu|]; [|done].
  destruct (is_join cmu) eqn:Hj.
  - destruct (handle_chat_member_update_join now cmu gw s Hj) as [-> _].
    split; [done|]. by rewrite _handle_new_member_stats.
  - unfold is_join in Hj. unfold handle_chat_member_update. by rewrite Hj.
Qed.

(** X24. One join delivered through both entry points, first as a
    chat-member update and then as a status message, is counted twice but
    timed once: [total_joins] goes up by two, the timer armed by the first
    delivery is cancelled by the second, and the entry holds the second
    timer and the second join time. *)
Theorem X24_join_delivered_twice now1 now2 cmu sm gw1 gw2 s :
  bot_paused s = false ->
  interaction_mode s = false ->
  is_join cmu = true ->
  u_is_bot (cmu_user cmu) = false ->
  sm_chat_id sm = cmu_chat_id cmu ->
  sm_new_chat_members sm = [cmu_user cmu] ->
  let u := cmu_user cmu in
  let k := (cmu_chat_id cmu, u_id u) in
  let tid := length (timers s) in
  let s1 := state_of (handle_chat_member_update now1 (Some cmu) gw1 s) in
  let s2 := state_of (handle_new_members now2 (Some sm) gw2 s1) in
  total_joins (stats s2) = total_joins (stats s) + 2 /\
  pending_users s2 !! k
    = Some {| timer := S tid; join_time := now2; user_name := u_full_name u |} /\
  timers s2 !! tid
    = Some {| interval := timeout_seconds s; t_chat_id := cmu_chat_id cmu; t_user_id := u_id u;
              t_user_name := u_full_name u; status := Cancelled |} /\
  timers s2 !! S tid
    = Some {| interval := timeout_seconds s; t_chat_id := cmu_chat_id cmu; t_user_id := u_id u;
              t_user_name := u_full_name u; status := Armed |} /\
  length (timers s2) = S (S tid).
Proof.
  intros Hp Hi Hj Hb Hc Hm. cbv zeta.
  destruct (handle_chat_member_update_join now1 cmu gw1 s Hj) as [-> _].
  set (u := cmu_user cmu) in *. set (c := cmu_chat_id cmu) in *.
  set (s1 := state_of (_handle_new_member now1 c (u_id u) (u_full_name u) gw1 s)).
  assert (Hs1 : bot_paused s1 = false /\ interaction_mode s1 = false /\
                timeout_seconds s1 = timeout_seconds s).
  { subst s1. by rewrite (_handle_new_member_state now1 _ _ _ gw1 s Hp Hi). }
  destruct Hs1 as (Hp1 & Hi1 & Ht1).
  destruct (_handle_new_member_arms now1 c (u_id u) (u_full_name u) gw1 s Hp Hi)
    as [Hpend1 Htim1]. fold s1 in Hpend1, Htim1.
  set (ts := match pending_users s !! (c, u_id u) with
             | Some e0 => alter timer_cancel_obj (timer e0) (timers s)
             | None => timers s
             end) in *.
  assert (Hlen : length ts = length (timers s)).
  { subst ts. case_match; by rewrite ?length_alter. }
  assert (Hs2 : state_of (handle_new_members now2 (Some sm) gw2 s1)
                = state_of (_handle_new_member now2 c (u_id u) (u_full_name u) gw2 s1)).
  { unfold handle_new_members. rewrite try_except_state, Hm, Hc.
    cbn [handle_new_members_loop]. rewrite Hb.
    rewrite (bind_state_ok _ _ _ _ tt) by apply try_except_value. done. }
  rewrite Hs2.
  destruct (_handle_new_member_arms now2 c (u_id u) (u_full_name u) gw2 s1 Hp1 Hi1)
    as [Hpend2 Htim2].
  rewrite Hpend1, lookup_insert_eq in Htim2. cbn [timer] in Htim2.
  rewrite Htim1 in Htim2, Hpend2. rewrite length_app, Hlen in Hpend2.
  cbn [length] in Hpend2. rewrite Nat.add_1_r in Hpend2.
  rewrite <-Hlen in Htim2 at 1. rewrite alter_snoc, Ht1 in Htim2.
  split; [unfold s1; rewrite !_handle_new_member_stats; simpl; lia|].
  split; [by rewrite Hpend2, lookup_insert_eq|].
  rewrite Htim2.
  split.
  { rewrite lookup_app_l by (rewrite length_app; simpl; lia).
    by rewrite (lookup_snoc_length ts (timers s)). }
  split.
  { rewrite lookup_app_r by (rewrite length_app; simpl; lia).
    by replace (_ - _)%nat with 0%nat by (rewrite length_app; simpl; lia). }
  rewrite !length_app. simpl. lia.
Qed.

End EntryPoints.

(** ** The statements above at concrete inputs *)

Lemma X2_join_without_timer_witness :
  let s := set_bot_paused true (init 30) in
  (bot_paused s = true \/ interaction_mode s = true) /\
  pending_users (state_of (@_handle_new_member ascii_builtins 0 1 2 "bob" all_ok s))
  = pending_users s.
Proof.
  cbv zeta. split; [by left|].
  exact (proj1 (proj2 (@X2_join_without_timer ascii_builtins 0 1 2 "bob" all_ok
                         (set_bot_paused true (init 30)) (or_introl eq_refl)))).
Defined.

Lemma X4_malformed_template_witness :
  let s := set_custom_welcome "Welcome {oops}" (init 30) in
  @py_format ascii_builtins (custom_welcome s) "bob" (timeout_seconds s) = None /\
  trace_of (@_handle_new_member ascii_builtins 0 1 2 "bob" all_ok s) = [].
Proof.
  cbv zeta. split; [reflexivity|].
  exact (proj1 (@X4_join_with_malformed_template ascii_builtins 0 1 2 "bob" all_ok
                  (set_custom_welcome "Welcome {oops}" (init 30)) eq_refl eq_refl eq_refl)).
Defined.

Lemma X5_join_then_video_witness :
  let s1 := state_of (@_handle_new_member ascii_builtins 0 1 2 "bob" all_ok (init 30)) in
  let s2 := state_of (handle_video_message 8000000 (Some (msg_from 1 2 "bob" None)) all_ok s1) in
  m_from_user (msg_from 1 2 "bob" None) = Some bob /\
  pending_users s2 !! (1, 2) = None /\
  users_verified (stats s2) = 0 + 1.
Proof.
  cbv zeta. split; [reflexivity|].
  pose proof (@X5_join_then_video ascii_builtins 0 8000000 (msg_from 1 2 "bob" None) bob
                all_ok all_ok (init 30) eq_refl eq_refl eq_refl) as Hx.
  cbv zeta in Hx. destruct Hx as (Hgone & _ & Hcount & _).
  split; [exact Hgone | exact Hcount].
Defined.

Lemma X6_join_then_expiry_witness :
  let s1 := state_of (@_handle_new_member ascii_builtins 0 1 2 "bob" all_ok (init 30)) in
  let r := timer_expiry 0 all_ok s1 in
  ((1, 2) ∉ verified_users (init 30)) /\
  users_kicked (stats (state_of r)) = 0 + 1 /\
  pending_users (state_of r) !! (1, 2) = None.
Proof.
  cbv zeta.
  assert (Hv : (1, 2) ∉ verified_users (init 30)) by apply not_elem_of_empty.
  split; [exact Hv|].
  pose proof (@X6_join_then_expiry ascii_builtins 0 (msg_from 1 2 "bob" None) bob
                all_ok all_ok (init 30) eq_refl eq_refl eq_refl Hv eq_refl eq_refl eq_refl) as Hx.
  cbv zeta in Hx. destruct Hx as (_ & Hcount & _ & Hgone & _).
  split; [exact Hcount | exact Hgone].
Defined.

Lemma X14_spam_exempt_witness :
  let s := set_bot_paused true (init 30) in
  bot_paused s = true /\
  @handle_spam_detection ascii_builtins (Some (msg_from 1 2 "bob" (Some "http://x"%string))) all_ok s
  = (Ok tt, s, []).
Proof.
  cbv zeta. split; [reflexivity|].
  apply (@X14_spam_detection_exempt ascii_builtins). right. left. reflexivity.
Defined.

Lemma X15_text_gate_witness :
  interaction_mode (init 30) = false /\
  handle_text_message 0 (Some (msg_from 1 2 "bob" (Some "hello"%string))) all_ok (init 30)
  = (Ok tt, init 30, []).
Proof.
  split; [reflexivity|]. apply X15_text_message_gate. left. reflexivity.
Defined.

Lemma X16_video_once_witness :
  let m := msg_from 1 2 "bob" None in
  let s := state_of (@_handle_new_member ascii_builtins 0 1 2 "bob" all_ok (init 30)) in
  let s1 := state_of (handle_video_message 8000000 (Some m) all_ok s) in
  m_from_user m = Some bob /\
  handle_video_message 9000000 (Some m) all_ok s1 = (Ok tt, s1, []).
Proof.
  cbv zeta. split; [reflexivity|].
  exact (proj2 (proj2 (X16_video_rewarded_once 8000000 9000000 (msg_from 1 2 "bob" None) bob
                         all_ok all_ok _ eq_refl))).
Defined.

Lemma X3_api_witness :
  let e := TextMessage (Some (msg_from 1 2 "bob" (Some "hello"%string))) in
  let s := set_interaction_mode true (init 30) in
  api_free e = true /\
  state_of (@handle ascii_builtins 0 e all_ok s) = state_of (@handle ascii_builtins 0 e ban_forbidden s).
Proof.
  cbv zeta. split; [reflexivity|].
  exact (@X3_state_independent_of_api ascii_builtins 0
           (TextMessage (Some (msg_from 1 2 "bob" (Some "hello"%string))))
           all_ok ban_forbidden (set_interaction_mode true (init 30)) eq_refl).
Defined.

Lemma X22_commands_witness :
  let s := state_of (@_handle_new_member ascii_builtins 0 1 2 "bob" all_ok (init 30)) in
  command_member (Pause (Some "creator"%string)) = Some (Some "creator"%string) /\
  pending_users (state_of (@handle ascii_builtins 1 (Pause (Some "creator"%string)) all_ok s))
  = pending_users s.
Proof.
  cbv zeta. split; [reflexivity|].
  exact (proj1 (@X22_commands_touch_settings_only ascii_builtins 1 (Pause (Some "creator"%string))
                  (Some "creator"%string) all_ok _ eq_refl)).
Defined.

Lemma X20_setwelcome_witness :
  let s1 := state_of (set_welcome_command (Some "creator"%string)
                        ["Hi"%string; "{name}"%string] all_ok (init 30)) in
  is_admin "creator" = true /\
  @py_format ascii_builtins (join_args ["Hi"%string; "{name}"%string]) "bob" 30 = Some "Hi bob"%string /\
  trace_of (@_handle_new_member ascii_builtins 0 1 2 "bob" all_ok s1)
  = [SendMessage 1 (CustomWelcome "Hi bob")].
Proof.
  cbv zeta. split; [reflexivity|]. split; [reflexivity|].
  exact (proj1 (proj2 (@X20_setwelcome_shapes_next_welcome ascii_builtins "creator" "Hi"
                         ["{name}"%string] all_ok 0 1 2 "bob" all_ok (init 30) "Hi bob"
                         eq_refl eq_refl eq_refl eq_refl))).
Defined.

Lemma X21_notice_witness :
  let s1 := state_of (@_handle_new_member ascii_builtins 0 1 2 "bob" all_ok (init 30)) in
  let s2 := state_of (@set_timer_command ascii_builtins (Some "creator"%string) ["60"%string] all_ok s1) in
  @py_int ascii_builtins "60" = Some 60 /\
  trace_of (timer_expiry 0 all_ok s2)
  = [BanChatMember 1 2; UnbanChatMember 1 2; SendMessage 1 (KickNotice "bob" 60)].
Proof.
  cbv zeta. split; [reflexivity|].
  assert (Hv : (1, 2) ∉ verified_users (init 30)) by apply not_elem_of_empty.
  assert (Hn : 10 <= 60 <= 600) by lia.
  exact (proj2 (@X21_notice_names_current_timeout ascii_builtins 0 1 2 "bob" "creator" "60" 60
                  all_ok all_ok all_ok (init 30) eq_refl eq_refl Hv eq_refl eq_refl Hn
                  eq_refl eq_refl)).
Defined.

Lemma X24_twice_witness :
  let cmu := {| cmu_chat_id := 1; cmu_old_status := "left"; cmu_new_status := "member";
                cmu_user := bob |} in
  let sm := {| sm_chat_id := 1; sm_new_chat_members := [bob] |} in
  let s1 := state_of (@handle_chat_member_update ascii_builtins 0 (Some cmu) all_ok (init 30)) in
  let s2 := state_of (@handle_new_members ascii_builtins 1 (Some sm) all_ok s1) in
  is_join cmu = true /\
  total_joins (stats s2) = 0 + 2 /\
  length (timers s2) = 2%nat.
Proof.
  cbv zeta. split; [reflexivity|].
  pose proof (@X24_join_delivered_twice ascii_builtins 0 1
                {| cmu_chat_id := 1; cmu_old_status := "left"; cmu_new_status := "member";
                   cmu_user := bob |}
                {| sm_chat_id := 1; sm_new_chat_members := [bob] |}
                all_ok all_ok (init 30) eq_refl eq_refl eq_refl eq_refl eq_refl eq_refl) as Hx.
  cbv zeta in Hx. destruct Hx as (Hcount & _ & _ & _ & Hlen).
  split; [exact Hcount | exact Hlen].
Defined.
